(** * Snapcast SDL2 audio sinks: WebOSPlayer (buffered) and Sdl2Player (direct pull)

    A shallow embedding of
      - client/player/webos_player.{hpp,cpp}
      - client/player/sdl2_player.{hpp,cpp}

    C++ objects become records and member functions become computations in
    a small state-and-error monad over a [world]: the fields of the player
    object, the [Player] base sub-object, the upstream [Stream], the SDL
    platform, the memory SDL hands to the callback, and the trace of the
    calls made to these collaborators.  A computation returns, lets a C++
    exception escape, or has undefined behaviour.

    Integers are [Z] with the C++ conversions written out; a [double] is an
    IEEE 754 binary64 value with the operations of [SpecFloat].  Raw memory
    ([char*], [Uint8*]) is a [list byte] reached through bounds-checked
    loads and stores: an access out of range is undefined behaviour.

    [Stream], [SampleFormat] and the [Player] base class are not part of the
    two players; they enter as the operations of the class [Collaborators],
    and what the players rely on is stated as contracts on them.

    LOG statements have no effect on the state and are left out.  The buffer
    mutex makes a producer iteration and a callback atomic with respect to
    each other, so the worker loop ([while (active_) { processAudio(); sleep }])
    and the device appear as sequences of operations. *)

From Stdlib Require Import ZArith List Lia Bool String DecimalString QArith SpecFloat.
From Stdlib Require Import Strings.Byte.
Import ListNotations.

Local Open Scope Z_scope.

(* ===================================================================== *)
(** ** Machine integers *)
(* ===================================================================== *)

(** [static_cast<size_t>(x)] on a 64-bit target. *)
Definition to_size_t (x : Z) : Z := x mod 2 ^ 64.

(** [static_cast<uint32_t>(x)]. *)
Definition to_uint32 (x : Z) : Z := x mod 2 ^ 32.

(** The largest [int] and the largest [int64_t]. *)
Definition INT_MAX : Z := 2 ^ 31 - 1.
Definition INT64_MAX : Z := 2 ^ 63 - 1.

(* ===================================================================== *)
(** ** Floating point *)
(* ===================================================================== *)

(** A C++ [double]: an IEEE 754 binary64 value (53 bits of precision,
    infinities at exponent 1024), whose operations round to nearest, ties to
    even. *)
Definition double : Type := spec_float.

(** Conversion of an integer to [double]. *)
Definition double_of_Z (z : Z) : double := binary_normalize 53 1024 z 0 false.

(** [x / y] on doubles; a zero divisor gives an infinity or a NaN. *)
Definition double_div (x y : double) : double := SFdiv 53 1024 x y.

(** The integer part of a double, towards zero; an infinity and a NaN have
    none. *)
Definition double_truncate (d : double) : option Z :=
  match d with
  | S754_zero _ => Some 0
  | S754_finite s m e =>
      Some (if s then - Z.shiftl (Zpos m) e else Z.shiftl (Zpos m) e)
  | S754_infinity _ | S754_nan => None
  end.

(* ===================================================================== *)
(** ** Raw memory *)
(* ===================================================================== *)

Definition zero_byte : byte := Byte.x00.

Definition size (buf : list byte) : Z := Z.of_nat (List.length buf).

(** [n] bytes starting at [off] lie inside [buf]. *)
Definition in_bounds (buf : list byte) (off n : Z) : bool :=
  (0 <=? off) && (0 <=? n) && (off + n <=? size buf).

(** Read [n] bytes at [buf + off]. *)
Definition load (buf : list byte) (off n : Z) : option (list byte) :=
  if in_bounds buf off n
  then Some (firstn (Z.to_nat n) (skipn (Z.to_nat off) buf))
  else None.

(** Overwrite [buf + off ..] with [data]. *)
Definition store (buf : list byte) (off : Z) (data : list byte) : option (list byte) :=
  if in_bounds buf off (size data)
  then Some (firstn (Z.to_nat off) buf ++ data ++ skipn (Z.to_nat (off + size data)) buf)
  else None.

(** [memset(buf + off, c, n)], [n] a [size_t]. *)
Definition memset (buf : list byte) (off : Z) (c : byte) (n : Z) : option (list byte) :=
  if 0 <=? n then store buf off (repeat c (Z.to_nat n)) else None.

(** [memcpy(dst + doff, src + soff, n)]. *)
Definition memcpy (dst : list byte) (doff : Z) (src : list byte) (soff n : Z)
  : option (list byte) :=
  match load src soff n with
  | Some data => store dst doff data
  | None => None
  end.

(** [memmove(buf + doff, buf + soff, n)] inside one buffer: the source is
    read in full before the destination is written. *)
Definition memmove (buf : list byte) (doff soff n : Z) : option (list byte) :=
  memcpy buf doff buf soff n.

(* ===================================================================== *)
(** ** Collaborators that are not part of the two players *)
(* ===================================================================== *)

(** What the players read from [SampleFormat]: [rate()], [bits()],
    [channels()], [frameSize()] (bytes per frame) and [msRate()] (frames per
    millisecond, a [double] such as 44.1). *)
Record SampleFormat := {
  rate : Z;
  bits : Z;
  channels : Z;
  frameSize : Z;
  msRate : double
}.

(** [std::exception] and what derives from it ([SnapException]). *)
Inductive exn := std_exception (what : string).

(** Outcome of [Player::adjustVolume(buffer, frames)], an in-place transform
    of [buffer]: it returns, or throws with the buffer in the state it had
    reached. *)
Inductive volume_outcome :=
| Adjusted (buffer' : list byte)
| VolumeFailed (e : exn) (buffer' : list byte).

Definition volume_buffer (o : volume_outcome) : list byte :=
  match o with Adjusted b => b | VolumeFailed _ b => b end.

(** The upstream [Stream] and the [Player] base class, as the players use
    them.  Durations are counted in microseconds ([chronos::usec]). *)
Class Collaborators (Stream Base : Type) := {
  getFormat : Stream -> SampleFormat;
  (** [getPlayerChunkOrSilence(outputBuffer, dacTime, frames)]: the bytes it
      writes at [outputBuffer], whether they are real audio, and the stream
      afterwards. *)
  getPlayerChunkOrSilence : Stream -> Z -> Z -> bool * list byte * Stream;
  adjustVolume : Base -> list byte -> Z -> volume_outcome;
  Player_start : Base -> Base;
  Player_stop : Base -> Base
}.

(** The contract of [getPlayerChunkOrSilence]: it writes exactly [frames]
    frames, real audio or silence. *)
Definition chunk_contract {Stream Base : Type} (C : Collaborators Stream Base) : Prop :=
  forall s dacTime frames,
    0 <= frames -> 0 <= frameSize (getFormat s) ->
    size (snd (fst (getPlayerChunkOrSilence s dacTime frames)))
    = frames * frameSize (getFormat s).

(** When it reports failure, what it wrote is silence. *)
Definition silence_contract {Stream Base : Type} (C : Collaborators Stream Base) : Prop :=
  forall s dacTime frames,
    fst (fst (getPlayerChunkOrSilence s dacTime frames)) = false ->
    Forall (fun b => b = zero_byte) (snd (fst (getPlayerChunkOrSilence s dacTime frames))).

(** The format is fixed for the lifetime of the stream. *)
Definition format_contract {Stream Base : Type} (C : Collaborators Stream Base) : Prop :=
  forall s dacTime frames,
    getFormat (snd (getPlayerChunkOrSilence s dacTime frames)) = getFormat s.

(** [adjustVolume] works in place on the frames it is given. *)
Definition volume_contract {Stream Base : Type} (C : Collaborators Stream Base) : Prop :=
  forall b buf frames, size (volume_buffer (adjustVolume b buf frames)) = size buf.

(** What the players rely on. *)
Record contracts {Stream Base : Type} (C : Collaborators Stream Base) : Prop := {
  chunk_ok : chunk_contract C;
  format_ok : format_contract C;
  volume_ok : volume_contract C
}.
Arguments chunk_ok {Stream Base C} _.
Arguments format_ok {Stream Base C} _.
Arguments volume_ok {Stream Base C} _.

(** [SDL_AudioSpec], without the callback and userdata pointers (they are
    always the player's own callback and [this]). *)
Record SDL_AudioSpec := {
  freq : Z;
  format : Z;
  spec_channels : Z;
  samples : Z
}.

Definition AUDIO_S16LSB : Z := 32784. (* 0x8010 *)

Definition SDL_zero : SDL_AudioSpec :=
  {| freq := 0; format := 0; spec_channels := 0; samples := 0 |}.

(** The SDL audio platform: whether the audio subsystem is up, and the open
    devices with their pause state. *)
Record SDL := {
  subsystem_up : bool;
  devices : list (Z * bool)
}.

(** Set the pause state of device [id]. *)
Definition pause_devices (id : Z) (paused : bool) (ds : list (Z * bool)) : list (Z * bool) :=
  map (fun d => if fst d =? id then (id, paused) else d) ds.

(** How the platform answers the two calls that can fail during one
    [start()]. *)
Record platform := {
  SDL_Init_result : Z;
  SDL_OpenAudioDevice_result : Z;
  obtained_spec : SDL_AudioSpec
}.

(** Calls made to the collaborators, newest first. *)
Inductive event :=
| EvSDL_Init (rc : Z)
| EvSDL_Quit
| EvSDL_OpenAudioDevice (id : Z)
| EvSDL_CloseAudioDevice (id : Z)
| EvSDL_PauseAudioDevice (id : Z) (pause_on : Z)
| EvGetChunk (dacTime_us : Z) (frames : Z) (real_audio : bool)
| EvAdjustVolume (frames : Z)
| EvPlayerStart
| EvPlayerStop.

(* ===================================================================== *)
(** ** The world and the monad *)
(* ===================================================================== *)

(** [P] is the type of the derived-class fields, [Stream] and [Base] the
    states of the upstream stream and of the [Player] base sub-object. *)
Record world (Stream Base P : Type) := {
  self : P;
  base : Base;
  stream_ : Stream;
  sdl : SDL;
  device_buffer : list byte;   (* the memory SDL hands to the callback *)
  trace : list event
}.
Arguments self {Stream Base P} _.
Arguments base {Stream Base P} _.
Arguments stream_ {Stream Base P} _.
Arguments sdl {Stream Base P} _.
Arguments device_buffer {Stream Base P} _.
Arguments trace {Stream Base P} _.

Inductive result (Stream Base P A : Type) :=
| Val (a : A) (w : world Stream Base P)     (* normal return *)
| Exn (e : exn) (w : world Stream Base P)   (* an exception leaves the function *)
| Undef.                                    (* undefined behaviour *)
Arguments Val {Stream Base P A} _ _.
Arguments Exn {Stream Base P A} _ _.
Arguments Undef {Stream Base P A}.

Definition M (Stream Base P A : Type) := world Stream Base P -> result Stream Base P A.

Section Monad.

Context {Stream Base P : Type}.
Local Abbreviation M := (M Stream Base P).

Definition ret {A} (a : A) : M A := fun w => Val a w.

Definition bind {A B} (m : M A) (k : A -> M B) : M B :=
  fun w =>
    match m w with
    | Val a w' => k a w'
    | Exn e w' => Exn e w'
    | Undef => Undef
    end.

Definition throw {A} (e : exn) : M A := fun w => Exn e w.

(** [try { body } catch (const std::exception& e) { handler }]. *)
Definition try_catch {A} (body : M A) (handler : exn -> M A) : M A :=
  fun w =>
    match body w with
    | Val a w' => Val a w'
    | Exn e w' => handler e w'
    | Undef => Undef
    end.

Definition undefined {A} : M A := fun _ => Undef.

Definition get_self : M P := fun w => Val (self w) w.

Definition set_self (p : P) : M unit :=
  fun w => Val tt {| self := p; base := base w; stream_ := stream_ w;
                     sdl := sdl w; device_buffer := device_buffer w;
                     trace := trace w |}.

End Monad.

Declare Scope player_scope.
Delimit Scope player_scope with player.
Notation "x <- m ;; k" := (bind m (fun x => k))
  (at level 61, m at next level, right associativity) : player_scope.
Notation "m ;; k" := (bind m (fun _ => k))
  (at level 61, right associativity) : player_scope.

Local Open Scope player_scope.

(* ===================================================================== *)
(** ** Memory places and the calls shared by both players *)
(* ===================================================================== *)

(** A buffer a pointer can refer to: how to read it from the world and how
    to write it back. *)
Record place (Stream Base P : Type) := {
  peek : world Stream Base P -> list byte;
  poke : list byte -> world Stream Base P -> world Stream Base P
}.
Arguments peek {Stream Base P} _ _.
Arguments poke {Stream Base P} _ _ _.

(** Null or the address of a player ([void* userdata]). *)
Inductive userdata_ptr := null_player | the_player.

Definition is_null (u : userdata_ptr) : bool :=
  match u with null_player => true | the_player => false end.

Section Calls.

Context {Stream Base P : Type} {C : Collaborators Stream Base}.
Local Abbreviation M := (M Stream Base P).
Local Abbreviation place := (place Stream Base P).

(** [SDL_memset(dst + off, c, n)]. *)
Definition SDL_memset (dst : place) (off : Z) (c : byte) (n : Z) : M unit :=
  fun w =>
    match memset (peek dst w) off c n with
    | Some b => Val tt (poke dst b w)
    | None => Undef
    end.

(** [std::memcpy(dst + doff, src + soff, n)]. *)
Definition std_memcpy (dst : place) (doff : Z) (src : place) (soff n : Z) : M unit :=
  fun w =>
    match memcpy (peek dst w) doff (peek src w) soff n with
    | Some b => Val tt (poke dst b w)
    | None => Undef
    end.

(** [std::memmove(buf + doff, buf + soff, n)]. *)
Definition std_memmove (buf : place) (doff soff n : Z) : M unit :=
  fun w =>
    match memmove (peek buf w) doff soff n with
    | Some b => Val tt (poke buf b w)
    | None => Undef
    end.

(** Unsigned division; a zero divisor is undefined behaviour. *)
Definition divide (a b : Z) : M Z :=
  if b =? 0 then undefined else ret (a / b).

(** [stream_->getFormat()]. *)
Definition stream_getFormat : M SampleFormat :=
  fun w => Val (getFormat (stream_ w)) w.

(** [stream_->getPlayerChunkOrSilence(dst + off, dacTime, frames)]. *)
Definition stream_getPlayerChunkOrSilence (dst : place) (off dacTime frames : Z) : M bool :=
  fun w =>
    let '(real_audio, data, s') := getPlayerChunkOrSilence (stream_ w) dacTime frames in
    let w' := {| self := self w; base := base w; stream_ := s'; sdl := sdl w;
                 device_buffer := device_buffer w;
                 trace := EvGetChunk dacTime frames real_audio :: trace w |} in
    match store (peek dst w') off data with
    | Some b => Val real_audio (poke dst b w')
    | None => Undef
    end.

(** [adjustVolume(buf + off, frames)]: transforms [frames] frames in place;
    when it throws the buffer keeps what had been written. *)
Definition this_adjustVolume (buf : place) (off frames : Z) : M unit :=
  fun w =>
    let w' := {| self := self w; base := base w; stream_ := stream_ w; sdl := sdl w;
                 device_buffer := device_buffer w;
                 trace := EvAdjustVolume frames :: trace w |} in
    match load (peek buf w') off (frames * frameSize (getFormat (stream_ w'))) with
    | None => Undef
    | Some region =>
        let o := adjustVolume (base w') region frames in
        match store (peek buf w') off (volume_buffer o) with
        | None => Undef
        | Some b =>
            match o with
            | Adjusted _ => Val tt (poke buf b w')
            | VolumeFailed e _ => Exn e (poke buf b w')
            end
        end
    end.

(** [Player::start()] and [Player::stop()] of the base class. *)
Definition base_start : M unit :=
  fun w => Val tt {| self := self w; base := Player_start (base w); stream_ := stream_ w;
                     sdl := sdl w; device_buffer := device_buffer w;
                     trace := EvPlayerStart :: trace w |}.

Definition base_stop : M unit :=
  fun w => Val tt {| self := self w; base := Player_stop (base w); stream_ := stream_ w;
                     sdl := sdl w; device_buffer := device_buffer w;
                     trace := EvPlayerStop :: trace w |}.

(** *** SDL, as its documentation describes the calls *)

Definition set_sdl (f : SDL -> SDL) (e : event) : M unit :=
  fun w => Val tt {| self := self w; base := base w; stream_ := stream_ w;
                     sdl := f (sdl w); device_buffer := device_buffer w;
                     trace := e :: trace w |}.

(** [SDL_Init(SDL_INIT_AUDIO)], answering [rc]. *)
Definition SDL_Init (rc : Z) : M Z :=
  set_sdl (fun s => if rc <? 0 then s
                    else {| subsystem_up := true; devices := devices s |})
          (EvSDL_Init rc);;
  ret rc.

(** [SDL_Quit()]: shuts every subsystem down and closes its devices. *)
Definition SDL_Quit : M unit :=
  set_sdl (fun _ => {| subsystem_up := false; devices := [] |}) EvSDL_Quit.

(** [SDL_OpenAudioDevice(nullptr, 0, &desired, &obtained, flags)], answering
    [id] (0 on failure) and [obtained]; a device is opened paused. *)
Definition SDL_OpenAudioDevice (id : Z) (obtained : SDL_AudioSpec) : M (Z * SDL_AudioSpec) :=
  set_sdl (fun s => if id =? 0 then s
                    else {| subsystem_up := subsystem_up s;
                            devices := (id, true) :: devices s |})
          (EvSDL_OpenAudioDevice id);;
  ret (id, obtained).

(** [SDL_PauseAudioDevice(id, pause_on)]. *)
Definition SDL_PauseAudioDevice (id pause_on : Z) : M unit :=
  set_sdl (fun s => {| subsystem_up := subsystem_up s;
                       devices := pause_devices id (negb (pause_on =? 0)) (devices s) |})
          (EvSDL_PauseAudioDevice id pause_on).

(** [SDL_CloseAudioDevice(id)]. *)
Definition SDL_CloseAudioDevice (id : Z) : M unit :=
  set_sdl (fun s => {| subsystem_up := subsystem_up s;
                       devices := filter (fun d => negb (fst d =? id)) (devices s) |})
          (EvSDL_CloseAudioDevice id).

End Calls.

(** [chronos::usec{n}] and [std::chrono::milliseconds(n)], in microseconds. *)
Definition usec (n : Z) : Z := n.
Definition milliseconds (n : Z) : Z := 1000 * n.

(** The buffer behind the callback's [stream] argument. *)
Definition callback_stream {Stream Base P : Type} : place Stream Base P :=
  {| peek := device_buffer;
     poke := fun b w => {| self := self w; base := base w; stream_ := stream_ w;
                           sdl := sdl w; device_buffer := b; trace := trace w |} |}.

(* ===================================================================== *)
(** ** WebOSPlayer (webos_player.hpp, webos_player.cpp) *)
(* ===================================================================== *)

Module WebOS.

Definition BUFFER_SIZE : Z := 4096.

Record WebOSPlayer := {
  audio_device_ : Z;
  audio_spec_ : SDL_AudioSpec;
  initialized_ : bool;
  audio_active_ : bool;
  audio_buffer_ : list byte;
  buffer_fill_ : Z
}.

Definition set_audio_device_ (v : Z) (p : WebOSPlayer) : WebOSPlayer :=
  {| audio_device_ := v; audio_spec_ := audio_spec_ p; initialized_ := initialized_ p;
     audio_active_ := audio_active_ p; audio_buffer_ := audio_buffer_ p;
     buffer_fill_ := buffer_fill_ p |}.

Definition set_audio_spec_ (v : SDL_AudioSpec) (p : WebOSPlayer) : WebOSPlayer :=
  {| audio_device_ := audio_device_ p; audio_spec_ := v; initialized_ := initialized_ p;
     audio_active_ := audio_active_ p; audio_buffer_ := audio_buffer_ p;
     buffer_fill_ := buffer_fill_ p |}.

Definition set_initialized_ (v : bool) (p : WebOSPlayer) : WebOSPlayer :=
  {| audio_device_ := audio_device_ p; audio_spec_ := audio_spec_ p; initialized_ := v;
     audio_active_ := audio_active_ p; audio_buffer_ := audio_buffer_ p;
     buffer_fill_ := buffer_fill_ p |}.

Definition set_audio_active_ (v : bool) (p : WebOSPlayer) : WebOSPlayer :=
  {| audio_device_ := audio_device_ p; audio_spec_ := audio_spec_ p;
     initialized_ := initialized_ p; audio_active_ := v;
     audio_buffer_ := audio_buffer_ p; buffer_fill_ := buffer_fill_ p |}.

Definition set_audio_buffer_ (v : list byte) (p : WebOSPlayer) : WebOSPlayer :=
  {| audio_device_ := audio_device_ p; audio_spec_ := audio_spec_ p;
     initialized_ := initialized_ p; audio_active_ := audio_active_ p;
     audio_buffer_ := v; buffer_fill_ := buffer_fill_ p |}.

Definition set_buffer_fill_ (v : Z) (p : WebOSPlayer) : WebOSPlayer :=
  {| audio_device_ := audio_device_ p; audio_spec_ := audio_spec_ p;
     initialized_ := initialized_ p; audio_active_ := audio_active_ p;
     audio_buffer_ := audio_buffer_ p; buffer_fill_ := v |}.

(** The constructor's member initialisers: [make_unique<char[]>(BUFFER_SIZE)]
    value-initialises the buffer. *)
Definition constructed : WebOSPlayer :=
  {| audio_device_ := 0; audio_spec_ := SDL_zero; initialized_ := false;
     audio_active_ := false;
     audio_buffer_ := repeat zero_byte (Z.to_nat BUFFER_SIZE);
     buffer_fill_ := 0 |}.

Section Methods.

Context {Stream Base : Type} {C : Collaborators Stream Base}.
Local Abbreviation M := (M Stream Base WebOSPlayer).

Definition update (f : WebOSPlayer -> WebOSPlayer) : M unit :=
  p <- get_self;; set_self (f p).

Definition needsThread : bool := true.

(** [audio_buffer_.get()]. *)
Definition audio_buffer : place Stream Base WebOSPlayer :=
  {| peek := fun w => audio_buffer_ (self w);
     poke := fun b w => {| self := set_audio_buffer_ b (self w); base := base w;
                           stream_ := stream_ w; sdl := sdl w;
                           device_buffer := device_buffer w; trace := trace w |} |}.

Definition initializeAudio (pf : platform) : M bool :=
  rc <- SDL_Init (SDL_Init_result pf);;
  if rc <? 0 then ret false
  else
    format <- stream_getFormat;;
    update (set_audio_spec_ {| freq := rate format; format := AUDIO_S16LSB;
                               spec_channels := channels format; samples := 1024 |});;
    opened <- SDL_OpenAudioDevice (SDL_OpenAudioDevice_result pf) (obtained_spec pf);;
    update (set_audio_device_ (fst opened));;
    if fst opened =? 0 then
      SDL_Quit;;
      ret false
    else
      update (set_audio_spec_ (snd opened));;
      update (set_initialized_ true);;
      ret true.

Definition start (pf : platform) : M unit :=
  ok <- initializeAudio pf;;
  if negb ok then throw (std_exception "Failed to initialize WebOS audio")
  else
    base_start;;
    update (set_audio_active_ true);;
    p <- get_self;;
    SDL_PauseAudioDevice (audio_device_ p) 0.

Definition stop : M unit :=
  update (set_audio_active_ false);;
  p <- get_self;;
  (if negb (audio_device_ p =? 0)
   then SDL_PauseAudioDevice (audio_device_ p) 1
   else ret tt);;
  base_stop.

Definition cleanupAudio : M unit :=
  p <- get_self;;
  (if negb (audio_device_ p =? 0)
   then SDL_CloseAudioDevice (audio_device_ p);;
        update (set_audio_device_ 0)
   else ret tt);;
  p <- get_self;;
  if initialized_ p
  then SDL_Quit;;
       update (set_initialized_ false)
  else ret tt.

(** The destructor. *)
Definition destroy : M unit :=
  stop;;
  cleanupAudio.

(** [static void audioCallback(void* userdata, Uint8* stream, int len)]. *)
Definition audioCallback (userdata : userdata_ptr) (stream : place Stream Base WebOSPlayer)
    (len : Z) : M unit :=
  player <- get_self;;
  if is_null userdata || negb (audio_active_ player) then
    SDL_memset stream 0 zero_byte (to_size_t len)
  else
    let available := buffer_fill_ player in
    let bytes_to_copy := Z.min (to_size_t len) available in
    (if 0 <? bytes_to_copy then
       std_memcpy stream 0 audio_buffer 0 bytes_to_copy;;
       if bytes_to_copy <? available then
         std_memmove audio_buffer 0 bytes_to_copy (available - bytes_to_copy);;
         update (set_buffer_fill_ (available - bytes_to_copy))
       else
         update (set_buffer_fill_ 0)
     else ret tt);;
    if bytes_to_copy <? to_size_t len then
      SDL_memset stream bytes_to_copy zero_byte (to_size_t (to_size_t len - bytes_to_copy))
    else ret tt.

Definition processAudio : M unit :=
  p <- get_self;;
  if negb (audio_active_ p) || negb (initialized_ p) then ret tt
  else
    let fill := buffer_fill_ p in
    if BUFFER_SIZE <=? fill then ret tt
    else
      fmt <- stream_getFormat;;
      let frame_size := to_size_t (frameSize fmt) in
      if frame_size =? 0 then ret tt
      else
        let space := to_size_t (BUFFER_SIZE - fill) in
        quotient <- divide space frame_size;;
        let frames := to_uint32 quotient in
        if frames =? 0 then ret tt
        else
          stream_getPlayerChunkOrSilence audio_buffer fill (usec 0) frames;;
          update (fun p => set_buffer_fill_
                             (to_size_t (buffer_fill_ p + to_size_t (frames * frame_size))) p);;
          try_catch (this_adjustVolume audio_buffer fill frames)
                    (fun e => ret tt).

End Methods.

End WebOS.

(* ===================================================================== *)
(** ** Sdl2Player (sdl2_player.hpp, sdl2_player.cpp) *)
(* ===================================================================== *)

(** Conversion of an unsigned 64-bit value to [int64_t] (the representation
    of [std::chrono::milliseconds]). *)
Definition to_int64 (x : Z) : Z :=
  let r := x mod 2 ^ 64 in
  if r <? 2 ^ 63 then r else r - 2 ^ 64.

Module Sdl2.

(** [static constexpr auto LATENCY = 30ms]. *)
Definition LATENCY : Z := 30.

Record Sdl2Player := {
  audio_device_ : Z;
  audio_spec_ : SDL_AudioSpec;
  initialized_ : bool
}.

Definition set_audio_device_ (v : Z) (p : Sdl2Player) : Sdl2Player :=
  {| audio_device_ := v; audio_spec_ := audio_spec_ p; initialized_ := initialized_ p |}.

Definition set_audio_spec_ (v : SDL_AudioSpec) (p : Sdl2Player) : Sdl2Player :=
  {| audio_device_ := audio_device_ p; audio_spec_ := v; initialized_ := initialized_ p |}.

Definition set_initialized_ (v : bool) (p : Sdl2Player) : Sdl2Player :=
  {| audio_device_ := audio_device_ p; audio_spec_ := audio_spec_ p; initialized_ := v |}.

(** The constructor's member initialisers; [audio_spec_] is not initialised
    there and is taken as zero. *)
Definition constructed : Sdl2Player :=
  {| audio_device_ := 0; audio_spec_ := SDL_zero; initialized_ := false |}.

Section Methods.

Context {Stream Base : Type} {C : Collaborators Stream Base}.
Local Abbreviation M := (M Stream Base Sdl2Player).

Definition update (f : Sdl2Player -> Sdl2Player) : M unit :=
  p <- get_self;; set_self (f p).

Definition needsThread : bool := false.

(** [SnapException("Unsupported sample format: " + cpt::to_string(bits))]. *)
Definition unsupported_format (bits : Z) : exn :=
  std_exception ("Unsupported sample format: " ++ NilZero.string_of_int (Z.to_int bits)).

Definition initializeAudio (pf : platform) : M bool :=
  rc <- SDL_Init (SDL_Init_result pf);;
  if rc <? 0 then ret false
  else
    format <- stream_getFormat;;
    if negb (bits format =? 16) then throw (unsupported_format (bits format))
    else
      update (set_audio_spec_ {| freq := rate format; format := AUDIO_S16LSB;
                                 spec_channels := channels format; samples := 1024 |});;
      opened <- SDL_OpenAudioDevice (SDL_OpenAudioDevice_result pf) (obtained_spec pf);;
      update (set_audio_device_ (fst opened));;
      if fst opened =? 0 then
        SDL_Quit;;
        ret false
      else
        update (set_audio_spec_ (snd opened));;
        update (set_initialized_ true);;
        ret true.

Definition start (pf : platform) : M unit :=
  ok <- initializeAudio pf;;
  if negb ok then throw (std_exception "Failed to initialize SDL2 audio")
  else
    base_start;;
    p <- get_self;;
    SDL_PauseAudioDevice (audio_device_ p) 0.

Definition stop : M unit :=
  p <- get_self;;
  (if negb (audio_device_ p =? 0)
   then SDL_PauseAudioDevice (audio_device_ p) 1
   else ret tt);;
  base_stop.

Definition cleanupAudio : M unit :=
  p <- get_self;;
  (if negb (audio_device_ p =? 0)
   then SDL_CloseAudioDevice (audio_device_ p);;
        update (set_audio_device_ 0)
   else ret tt);;
  p <- get_self;;
  if initialized_ p
  then SDL_Quit;;
       update (set_initialized_ false)
  else ret tt.

(** The destructor. *)
Definition destroy : M unit :=
  stop;;
  cleanupAudio.

(** [len / fmt.frameSize()]: integer division truncating towards zero; a
    zero divisor is undefined behaviour. *)
Definition int_divide (a b : Z) : M Z :=
  if b =? 0 then undefined else ret (Z.quot a b).

(** [static_cast<size_t>(a / b)] with [a] an integer and [b] a [double]:
    [a] is converted to [double], the division is that of doubles, and the
    cast drops the fraction; a quotient that is not finite, or whose integer
    part does not fit a [size_t], is undefined behaviour. *)
Definition size_t_of_quotient (a : Z) (b : double) : M Z :=
  match double_truncate (double_div (double_of_Z a) b) with
  | Some t => if (0 <=? t) && (t <? 2 ^ 64) then ret t else undefined
  | None => undefined
  end.

(** Signed 64-bit arithmetic: overflow is undefined behaviour. *)
Definition int64_checked (x : Z) : M Z :=
  if (- 2 ^ 63 <=? x) && (x <=? INT64_MAX) then ret x else undefined.

(** [void audioCallback(void* stream, int len)]. *)
Definition audioCallback (stream : place Stream Base Sdl2Player) (len : Z) : M unit :=
  fmt <- stream_getFormat;;
  frames <- int_divide len (frameSize fmt);;
  p <- get_self;;
  ms <- size_t_of_quotient (samples (audio_spec_ p)) (msRate fmt);;
  latency <- int64_checked (to_int64 ms + LATENCY);;
  dacTime <- int64_checked (milliseconds latency);;
  real_audio <- stream_getPlayerChunkOrSilence stream 0 dacTime frames;;
  if negb real_audio then ret tt
  else this_adjustVolume stream 0 frames.

(** [static void audio_callback(void* userdata, Uint8* stream, int len)]. *)
Definition audio_callback (userdata : userdata_ptr) (stream : place Stream Base Sdl2Player)
    (len : Z) : M unit :=
  if is_null userdata then SDL_memset stream 0 zero_byte (to_size_t len)
  else audioCallback stream len.

End Methods.

End Sdl2.

(* ===================================================================== *)
(** ** A concrete stream and base player, for running the code *)
(* ===================================================================== *)

(** Modelled from the spec: the upstream [Stream] (not among the sources),
    as a fixed format and a queue of decoded PCM bytes. *)
Record QueueStream := {
  qs_format : SampleFormat;
  qs_pcm : list byte
}.

(** Modelled from the spec: [Stream::getPlayerChunkOrSilence], which "writes
    exactly frame_count frames of PCM (real or synthesized silence) into
    destination; returns whether real data was available".  When the queue
    holds the requested frames they are handed out; otherwise the
    destination is filled with silence and the call reports failure. *)
Definition queue_chunk (s : QueueStream) (dacTime frames : Z)
  : bool * list byte * QueueStream :=
  let n := Z.to_nat (frames * frameSize (qs_format s)) in
  if (n <=? List.length (qs_pcm s))%nat
  then (true, firstn n (qs_pcm s),
        {| qs_format := qs_format s; qs_pcm := skipn n (qs_pcm s) |})
  else (false, repeat zero_byte n, s).

(** Modelled from the spec: the state of the [Player] base class (not among
    the sources): the [active_] flag the worker loop tests, and whether the
    volume pass fails. *)
Record FlagBase := {
  active_ : bool;
  volume_throws : bool
}.

(** Modelled from the spec: [Player::adjustVolume], "a pure in-place
    transform over a frame count worth of samples" that may fail; here it
    leaves the samples as they are (volume 1.0) or throws before touching
    them. *)
Definition flag_adjustVolume (b : FlagBase) (buf : list byte) (frames : Z) : volume_outcome :=
  if volume_throws b
  then VolumeFailed (std_exception "adjustVolume") buf
  else Adjusted buf.

(** Modelled from the spec: [Player::start] raises the flag the worker loop
    tests. *)
Definition flag_start (b : FlagBase) : FlagBase :=
  {| active_ := true; volume_throws := volume_throws b |}.

(** Modelled from the spec: [Player::stop] clears it ("cancellation is
    cooperative via a boolean/atomic flag"). *)
Definition flag_stop (b : FlagBase) : FlagBase :=
  {| active_ := false; volume_throws := volume_throws b |}.

#[export] Instance queue_collaborators : Collaborators QueueStream FlagBase := {|
  getFormat := qs_format;
  getPlayerChunkOrSilence := queue_chunk;
  adjustVolume := flag_adjustVolume;
  Player_start := flag_start;
  Player_stop := flag_stop
|}.

(** Modelled from the spec: the frames per millisecond of a format of
    [rate] frames per second ([SampleFormat] is not among the sources), the
    rate over 1000 as a [double]. *)
Definition ms_rate (rate : Z) : double := double_div (double_of_Z rate) (double_of_Z 1000).

(** 16-bit stereo at [rate] frames per second: 4 bytes per frame. *)
Definition pcm16 (rate : Z) : SampleFormat :=
  {| rate := rate; bits := 16; channels := 2; frameSize := 4; msRate := ms_rate rate |}.

(** 16-bit stereo at 48 kHz: 4 bytes per frame, 48 frames per millisecond. *)
Definition stereo16 : SampleFormat :=
  {| rate := 48000; bits := 16; channels := 2; frameSize := 4; msRate := ms_rate 48000 |}.

(* ===================================================================== *)
(** ** Sequences of operations on a WebOSPlayer *)
(* ===================================================================== *)

(** SDL puts the destination [dst] in place before it calls the callback. *)
Definition hand_over {Stream Base P : Type} (dst : list byte) (w : world Stream Base P)
  : world Stream Base P :=
  {| self := self w; base := base w; stream_ := stream_ w; sdl := sdl w;
     device_buffer := dst; trace := trace w |}.

(** The events added to the trace between [w] and [w']. *)
Definition new_events {Stream Base P : Type} (w w' : world Stream Base P) : list event :=
  firstn (List.length (trace w') - List.length (trace w)) (trace w').

(** What can happen to a sink: a worker iteration, the device asking for
    [size dst] bytes in [dst], and the control thread starting or stopping
    it.  The buffer mutex makes the first two atomic with respect to each
    other, so an interleaving is a list of operations. *)
Inductive operation :=
| Produce
| Consume (dst : list byte)
| Start (pf : platform)
| Stop.


(** The device buffers an [int] length can describe. *)
Definition int_sized (o : operation) : Prop :=
  match o with Consume dst => size dst <= INT_MAX | _ => True end.

Section Operations.

Context {Stream Base : Type} {C : Collaborators Stream Base}.
Local Abbreviation world := (world Stream Base WebOS.WebOSPlayer).

(** SDL calls the callback with the userdata registered in
    [initializeAudio], which is [this]. *)
Definition perform (o : operation) (w : world) : result Stream Base WebOS.WebOSPlayer unit :=
  match o with
  | Produce => WebOS.processAudio w
  | Consume dst => WebOS.audioCallback the_player callback_stream (size dst) (hand_over dst w)
  | Start pf => WebOS.start pf w
  | Stop => WebOS.stop w
  end.

(** The world an operation leaves behind; an exception is caught by the
    caller of [start()]. *)
Definition after {A} (r : result Stream Base WebOS.WebOSPlayer A) : option world :=
  match r with
  | Val _ w => Some w
  | Exn _ w => Some w
  | Undef => None
  end.

(** A run lists, for every operation, the world before it and the world
    after it. *)
Fixpoint run (ops : list operation) (w : world) : option (list (world * operation * world)) :=
  match ops with
  | [] => Some []
  | o :: ops' =>
      match after (perform o w) with
      | None => None
      | Some w' =>
          match run ops' w' with
          | None => None
          | Some steps => Some ((w, o, w') :: steps)
          end
      end
  end.

(** Bytes the upstream stream was asked to write. *)
Fixpoint requested_bytes (frame_size : Z) (evs : list event) : Z :=
  match evs with
  | [] => 0
  | EvGetChunk _ frames _ :: evs' => frames * frame_size + requested_bytes frame_size evs'
  | _ :: evs' => requested_bytes frame_size evs'
  end.

Definition written (w w' : world) : Z :=
  requested_bytes (frameSize (getFormat (stream_ w))) (new_events w w').

(** Bytes a callback takes out of the ring buffer. *)
Definition consumed (o : operation) (w : world) : Z :=
  match o with
  | Consume dst =>
      if WebOS.audio_active_ (self w)
      then Z.min (size dst) (WebOS.buffer_fill_ (self w))
      else 0
  | _ => 0
  end.

Definition fill_of (w : world) : Z := WebOS.buffer_fill_ (self w).

Definition fill_invariant (w : world) : Prop :=
  0 <= fill_of w <= WebOS.BUFFER_SIZE.

(** The state the constructor establishes and every operation keeps: the
    fill is within the capacity, the backing storage has [BUFFER_SIZE]
    bytes, and the frame size is a [size_t]. *)
Definition well_formed (w : world) : Prop :=
  fill_invariant w /\
  size (WebOS.audio_buffer_ (self w)) = WebOS.BUFFER_SIZE /\
  0 <= frameSize (getFormat (stream_ w)) < 2 ^ 64.

(** The fill after a step is the fill before it, plus what was written,
    minus what was consumed, and it is within the capacity. *)
Definition accounted (step : world * operation * world) : Prop :=
  let '(w, o, w') := step in
  fill_of w' = fill_of w + written w w' - consumed o w /\
  fill_invariant w'.


End Operations.

(* ===================================================================== *)
(** ** The latency of the direct-pull callback *)
(* ===================================================================== *)

Section Latency.

Context {Stream Base : Type} {C : Collaborators Stream Base}.
Local Abbreviation world := (world Stream Base Sdl2.Sdl2Player).

(** The callback size in frames over the frames per millisecond, as the
    callback computes it: a division of doubles, cut to whole
    milliseconds. *)
Definition callback_period_ms (w : world) : option Z :=
  double_truncate
    (double_div (double_of_Z (samples (Sdl2.audio_spec_ (self w))))
                (msRate (getFormat (stream_ w)))).

(** The latency handed to the stream, in milliseconds: the whole
    milliseconds of one callback plus [LATENCY]. *)
Definition callback_latency_ms (w : world) : Z :=
  match callback_period_ms w with
  | Some t => t + Sdl2.LATENCY
  | None => Sdl2.LATENCY
  end.

(** The conditions under which the arithmetic of the callback is defined:
    a positive frame size, a quotient of callback size and frame rate that
    is finite and not negative, and a latency that fits the 64-bit tick
    count of a duration. *)
Definition callback_defined (w : world) : Prop :=
  0 < frameSize (getFormat (stream_ w)) /\
  match callback_period_ms w with Some t => 0 <= t | None => False end /\
  milliseconds (callback_latency_ms w) <= INT64_MAX.

End Latency.

(** What of a world can be observed: everything but the trace of calls. *)
Definition observable {Stream Base P : Type} (w : world Stream Base P)
  : P * Base * Stream * SDL * list byte :=
  (self w, base w, stream_ w, sdl w, device_buffer w).

Definition is_release (e : event) : bool :=
  match e with
  | EvSDL_Quit | EvSDL_CloseAudioDevice _ => true
  | _ => false
  end.

(* ===================================================================== *)
(** ** Concrete worlds *)
(* ===================================================================== *)

(** A degenerate format whose frame size is reported as zero. *)
Definition empty_frames : SampleFormat :=
  {| rate := 48000; bits := 0; channels := 0; frameSize := 0; msRate := ms_rate 48000 |}.

(** 24-bit stereo at 48 kHz. *)
Definition stereo24 : SampleFormat :=
  {| rate := 48000; bits := 24; channels := 2; frameSize := 6; msRate := ms_rate 48000 |}.

(** A byte of real audio, to tell it from silence. *)
Definition tone : byte := Byte.x2a.

(** A freshly built world around a player [p]: nothing started, SDL down. *)
Definition queue_world {P : Type} (p : P) (fmt : SampleFormat) (pcm : list byte)
    (throws : bool) : world QueueStream FlagBase P :=
  {| self := p;
     base := {| active_ := false; volume_throws := throws |};
     stream_ := {| qs_format := fmt; qs_pcm := pcm |};
     sdl := {| subsystem_up := false; devices := [] |};
     device_buffer := [];
     trace := [] |}.

(** A platform on which SDL comes up and opens device 2 with 1024-frame
    callbacks. *)
Definition good_platform : platform :=
  {| SDL_Init_result := 0;
     SDL_OpenAudioDevice_result := 2;
     obtained_spec := {| freq := 48000; format := AUDIO_S16LSB; spec_channels := 2;
                         samples := 1024 |} |}.

(** A running WebOSPlayer holding [fill] bytes of tone in its ring buffer. *)
Definition webos_running (fill : nat) : WebOS.WebOSPlayer :=
  {| WebOS.audio_device_ := 2;
     WebOS.audio_spec_ := obtained_spec good_platform;
     WebOS.initialized_ := true;
     WebOS.audio_active_ := true;
     WebOS.audio_buffer_ := repeat tone fill
                            ++ repeat zero_byte (Z.to_nat WebOS.BUFFER_SIZE - fill);
     WebOS.buffer_fill_ := Z.of_nat fill |}.

(** The same, in a world whose stream queues [pcm] and whose device has
    handed over [dst]. *)
Definition webos_world (fill : nat) (fmt : SampleFormat) (pcm dst : list byte)
  : world QueueStream FlagBase WebOS.WebOSPlayer :=
  {| self := webos_running fill;
     base := {| active_ := true; volume_throws := false |};
     stream_ := {| qs_format := fmt; qs_pcm := pcm |};
     sdl := {| subsystem_up := true; devices := [(2, false)] |};
     device_buffer := dst;
     trace := [] |}.

(** The same with a volume pass that throws. *)
Definition webos_world_throwing (fill : nat) (fmt : SampleFormat) (pcm dst : list byte)
  : world QueueStream FlagBase WebOS.WebOSPlayer :=
  {| self := webos_running fill;
     base := {| active_ := true; volume_throws := true |};
     stream_ := {| qs_format := fmt; qs_pcm := pcm |};
     sdl := {| subsystem_up := true; devices := [(2, false)] |};
     device_buffer := dst;
     trace := [] |}.

(** A running Sdl2Player: device 2 open and playing, 1024-frame callbacks. *)
Definition sdl2_running : Sdl2.Sdl2Player :=
  {| Sdl2.audio_device_ := 2;
     Sdl2.audio_spec_ := obtained_spec good_platform;
     Sdl2.initialized_ := true |}.

Definition sdl2_world (fmt : SampleFormat) (pcm dst : list byte) (throws : bool)
  : world QueueStream FlagBase Sdl2.Sdl2Player :=
  {| self := sdl2_running;
     base := {| active_ := true; volume_throws := throws |};
     stream_ := {| qs_format := fmt; qs_pcm := pcm |};
     sdl := {| subsystem_up := true; devices := [(2, false)] |};
     device_buffer := dst;
     trace := [] |}.

(** A platform on which SDL comes up but no device can be opened. *)
Definition no_device_platform : platform :=
  {| SDL_Init_result := 0;
     SDL_OpenAudioDevice_result := 0;
     obtained_spec := SDL_zero |}.

(* ===================================================================== *)
(** ** The worker loop and the destination of a callback *)
(* ===================================================================== *)

(** [Player::active_], the flag of the base class that [worker()] tests. *)
Class WorkerFlag (Base : Type) := {
  Player_active : Base -> bool
}.

#[export] Instance flag_worker : WorkerFlag FlagBase := {|
  Player_active := active_
|}.

Section Worker.

Context {Stream Base : Type} {C : Collaborators Stream Base} {F : WorkerFlag Base}.

(** [WebOSPlayer::worker()]: [while (active_) { processAudio(); sleep_for(1ms); }],
    cut after [fuel] iterations.  The result tells whether the loop was left
    ([true]) or cut ([false]); the sleep has no effect on the state. *)
Fixpoint worker (fuel : nat) : M Stream Base WebOS.WebOSPlayer bool :=
  fun w =>
    if negb (Player_active (base w)) then Val true w
    else
      match fuel with
      | O => Val false w
      | S fuel' => (WebOS.processAudio;; worker fuel') w
      end.

End Worker.

(** The calls to SDL among the events. *)
Definition is_sdl_call (e : event) : bool :=
  match e with
  | EvSDL_Init _ | EvSDL_Quit | EvSDL_OpenAudioDevice _
  | EvSDL_CloseAudioDevice _ | EvSDL_PauseAudioDevice _ _ => true
  | _ => false
  end.

(** Whether device [id] is open. *)
Definition device_open (id : Z) (s : SDL) : bool :=
  existsb (fun d => fst d =? id) (devices s).

(** What [cleanupAudio()] does to the platform, given the device and the
    [initialized_] flag the player holds. *)
Definition cleaned_sdl (dev : Z) (init : bool) (s : SDL) : SDL :=
  if init then {| subsystem_up := false; devices := [] |}
  else if dev =? 0 then s
       else {| subsystem_up := subsystem_up s;
               devices := filter (fun d => negb (fst d =? dev)) (devices s) |}.

Definition cleanup_calls (dev : Z) (init : bool) : list event :=
  (if init then [EvSDL_Quit] else [])
  ++ (if dev =? 0 then [] else [EvSDL_CloseAudioDevice dev]).

(** A platform on which SDL does not come up. *)
Definition no_sdl_platform : platform :=
  {| SDL_Init_result := -1;
     SDL_OpenAudioDevice_result := 2;
     obtained_spec := SDL_zero |}.

(** A platform that grants 512-frame callbacks instead of the 1024 asked for. *)
Definition small_buffer_platform : platform :=
  {| SDL_Init_result := 0;
     SDL_OpenAudioDevice_result := 3;
     obtained_spec := {| freq := 44100; format := AUDIO_S16LSB; spec_channels := 2;
                         samples := 512 |} |}.

(* ===================================================================== *)
(** ** The audio thread of a device, and the calls of stop() *)
(* ===================================================================== *)


(** The calls one [stop()] makes, newest first, given the device the player
    holds. *)
Definition stop_calls (dev : Z) : list event :=
  EvPlayerStop :: (if dev =? 0 then [] else [EvSDL_PauseAudioDevice dev 1]).

(** The calls that pause a device. *)
Definition is_pause_call (e : event) : bool :=
  match e with
  | EvSDL_PauseAudioDevice _ pause_on => negb (pause_on =? 0)
  | _ => false
  end.

(** The latency as the specification words it, in microseconds: the
    callback size in frames divided by the frames per millisecond
    ([rate / 1000]), plus the 30 ms margin, as an exact number. *)
Definition spec_latency_us (samples rate : Z) : Q :=
  (1000 * (inject_Z samples / (inject_Z rate / 1000) + 30))%Q.

(** A running Sdl2Player to which the device granted [n]-frame callbacks,
    in a world whose stream queues [pcm] in format [fmt]. *)
Definition sdl2_world_granted (n : Z) (fmt : SampleFormat) (pcm dst : list byte)
  : world QueueStream FlagBase Sdl2.Sdl2Player :=
  {| self := {| Sdl2.audio_device_ := 2;
                Sdl2.audio_spec_ := {| freq := rate fmt; format := AUDIO_S16LSB;
                                       spec_channels := channels fmt; samples := n |};
                Sdl2.initialized_ := true |};
     base := {| active_ := true; volume_throws := false |};
     stream_ := {| qs_format := fmt; qs_pcm := pcm |};
     sdl := {| subsystem_up := true; devices := [(2, false)] |};
     device_buffer := dst;
     trace := [] |}.

(* ===================================================================== *)
(** * Proofs *)
(* ===================================================================== *)

(** ** Machine integers and memory *)

Lemma to_size_t_small (x : Z) : 0 <= x < 2 ^ 64 -> to_size_t x = x.
Proof. intros H. unfold to_size_t. apply Z.mod_small. exact H. Qed.

Lemma to_uint32_small (x : Z) : 0 <= x < 2 ^ 32 -> to_uint32 x = x.
Proof. intros H. unfold to_uint32. apply Z.mod_small. exact H. Qed.

Lemma to_size_t_int (x : Z) : 0 <= x <= INT_MAX -> to_size_t x = x.
Proof. intros H. apply to_size_t_small. unfold INT_MAX in H. lia. Qed.

Lemma size_nonneg (buf : list byte) : 0 <= size buf.
Proof. unfold size. lia. Qed.

Lemma size_app (a b : list byte) : size (a ++ b) = size a + size b.
Proof. unfold size. rewrite length_app. lia. Qed.

Lemma size_repeat (c : byte) (n : nat) : size (repeat c n) = Z.of_nat n.
Proof. unfold size. now rewrite repeat_length. Qed.

Lemma size_firstn (n : Z) (buf : list byte) :
  0 <= n <= size buf -> size (firstn (Z.to_nat n) buf) = n.
Proof. unfold size. intros H. rewrite length_firstn. lia. Qed.

Lemma size_skipn (n : Z) (buf : list byte) :
  0 <= n <= size buf -> size (skipn (Z.to_nat n) buf) = size buf - n.
Proof. unfold size. intros H. rewrite length_skipn. lia. Qed.

Lemma in_bounds_true (buf : list byte) (off n : Z) :
  0 <= off -> 0 <= n -> off + n <= size buf -> in_bounds buf off n = true.
Proof.
  intros H1 H2 H3. unfold in_bounds.
  apply andb_true_intro; split; [apply andb_true_intro; split |]; now apply Z.leb_le.
Qed.

Lemma load_in_range (buf : list byte) (off n : Z) :
  0 <= off -> 0 <= n -> off + n <= size buf ->
  load buf off n = Some (firstn (Z.to_nat n) (skipn (Z.to_nat off) buf)).
Proof. intros H1 H2 H3. unfold load. now rewrite in_bounds_true. Qed.

Lemma store_in_range (buf : list byte) (off : Z) (data : list byte) :
  0 <= off -> off + size data <= size buf ->
  store buf off data
  = Some (firstn (Z.to_nat off) buf ++ data ++ skipn (Z.to_nat (off + size data)) buf).
Proof.
  intros H1 H2. unfold store.
  now rewrite in_bounds_true by (auto using size_nonneg).
Qed.

Lemma memset_in_range (buf : list byte) (off : Z) (c : byte) (n : Z) :
  0 <= off -> 0 <= n -> off + n <= size buf ->
  memset buf off c n
  = Some (firstn (Z.to_nat off) buf ++ repeat c (Z.to_nat n) ++ skipn (Z.to_nat (off + n)) buf).
Proof.
  intros H1 H2 H3. unfold memset.
  destruct (Z.leb_spec 0 n) as [_ | Hn]; [| lia].
  rewrite store_in_range; rewrite ?size_repeat, ?Z2Nat.id; auto.
Qed.

(** Overwriting a whole buffer with zeros. *)
Lemma memset_all (buf : list byte) (c : byte) :
  memset buf 0 c (size buf) = Some (repeat c (List.length buf)).
Proof.
  rewrite memset_in_range by (pose proof (size_nonneg buf); lia).
  unfold size. rewrite Nat2Z.id. cbn [Z.to_nat firstn app Z.add].
  rewrite Nat2Z.id, skipn_all, app_nil_r. reflexivity.
Qed.

(** The slice written by a store reads back, and the rest is untouched. *)
Lemma splice_firstn (off : Z) (buf rest : list byte) :
  0 <= off <= size buf ->
  firstn (Z.to_nat off) (firstn (Z.to_nat off) buf ++ rest)
  = firstn (Z.to_nat off) buf.
Proof.
  intros H.
  assert (Hl : List.length (firstn (Z.to_nat off) buf) = Z.to_nat off).
  { rewrite length_firstn. unfold size in H. lia. }
  rewrite firstn_app, Hl, Nat.sub_diag, firstn_0, app_nil_r.
  rewrite firstn_firstn, Nat.min_id. reflexivity.
Qed.

Lemma splice_middle (off : Z) (buf data rest : list byte) :
  0 <= off <= size buf ->
  firstn (Z.to_nat (size data))
         (skipn (Z.to_nat off) (firstn (Z.to_nat off) buf ++ data ++ rest))
  = data.
Proof.
  intros H.
  assert (Hl : List.length (firstn (Z.to_nat off) buf) = Z.to_nat off).
  { rewrite length_firstn. unfold size in H. lia. }
  rewrite skipn_app, Hl, Nat.sub_diag. cbn [skipn].
  rewrite skipn_all2 by lia. cbn [app].
  unfold size. rewrite Nat2Z.id, firstn_app, Nat.sub_diag, firstn_0, app_nil_r.
  apply firstn_all.
Qed.

Lemma splice_skipn (off : Z) (buf data rest : list byte) :
  0 <= off <= size buf ->
  skipn (Z.to_nat (off + size data)) (firstn (Z.to_nat off) buf ++ data ++ rest)
  = rest.
Proof.
  intros H.
  assert (Hl : List.length (firstn (Z.to_nat off) buf) = Z.to_nat off).
  { rewrite length_firstn. unfold size in H. lia. }
  rewrite skipn_app, Hl.
  rewrite skipn_all2 by (rewrite Hl; unfold size; lia). cbn [app].
  replace (Z.to_nat (off + size data) - Z.to_nat off)%nat with (List.length data)
    by (unfold size; lia).
  rewrite skipn_app, Nat.sub_diag, skipn_all. reflexivity.
Qed.

Lemma splice_size (off : Z) (buf data : list byte) :
  0 <= off -> off + size data <= size buf ->
  size (firstn (Z.to_nat off) buf ++ data ++ skipn (Z.to_nat (off + size data)) buf)
  = size buf.
Proof.
  intros H1 H2. pose proof (size_nonneg data).
  rewrite !size_app, size_firstn, size_skipn by lia. lia.
Qed.

(** ** The concrete collaborators honour the contracts *)

Lemma queue_chunk_contract : chunk_contract queue_collaborators.
Proof.
  intros s dacTime frames Hf Hs. cbn [getPlayerChunkOrSilence getFormat queue_collaborators] in *.
  unfold queue_chunk, size.
  destruct (Nat.leb_spec (Z.to_nat (frames * frameSize (qs_format s)))
                         (List.length (qs_pcm s))) as [Hle | Hgt]; cbn [fst snd].
  - rewrite length_firstn, Nat.min_l by exact Hle. apply Z2Nat.id. nia.
  - rewrite repeat_length. apply Z2Nat.id. nia.
Qed.

Lemma queue_silence_contract : silence_contract queue_collaborators.
Proof.
  intros s dacTime frames. cbn [getPlayerChunkOrSilence queue_collaborators].
  unfold queue_chunk.
  destruct (Z.to_nat (frames * frameSize (qs_format s)) <=? List.length (qs_pcm s))%nat;
    cbn [fst snd]; [discriminate |].
  intros _. apply Forall_forall. intros b Hb. apply repeat_spec in Hb. exact Hb.
Qed.

Lemma queue_format_contract : format_contract queue_collaborators.
Proof.
  intros s dacTime frames. cbn [getPlayerChunkOrSilence getFormat queue_collaborators].
  unfold queue_chunk.
  destruct (Z.to_nat (frames * frameSize (qs_format s)) <=? List.length (qs_pcm s))%nat;
    reflexivity.
Qed.

Lemma queue_volume_contract : volume_contract queue_collaborators.
Proof.
  intros b buf frames. cbn [adjustVolume queue_collaborators].
  unfold flag_adjustVolume. destruct (volume_throws b); reflexivity.
Qed.

Lemma queue_contracts : contracts queue_collaborators.
Proof.
  split; [exact queue_chunk_contract | exact queue_format_contract
         | exact queue_volume_contract].
Defined.

(** ** The buffered callback *)

Section WebOSCallback.

Context {Stream Base : Type} {C : Collaborators Stream Base}.
Local Abbreviation world := (world Stream Base WebOS.WebOSPlayer).

(** The outcome of the callback on an active sink, in full. *)
Lemma audioCallback_active (w : world) (len : Z) :
  WebOS.audio_active_ (self w) = true ->
  0 <= len <= INT_MAX ->
  size (device_buffer w) = len ->
  0 <= WebOS.buffer_fill_ (self w) <= size (WebOS.audio_buffer_ (self w)) ->
  let fill := WebOS.buffer_fill_ (self w) in
  let buf := WebOS.audio_buffer_ (self w) in
  let n := Z.min len fill in
  WebOS.audioCallback the_player callback_stream len w
  = Val tt
      {| self := WebOS.set_buffer_fill_ (fill - n)
                   (WebOS.set_audio_buffer_
                      (firstn (Z.to_nat (fill - n)) (skipn (Z.to_nat n) buf)
                       ++ skipn (Z.to_nat (fill - n)) buf) (self w));
         base := base w; stream_ := stream_ w; sdl := sdl w;
         device_buffer := firstn (Z.to_nat n) buf ++ repeat zero_byte (Z.to_nat (len - n));
         trace := trace w |}.
Proof.
  destruct w as [[dev spec init act buf fill] b s sd db tr]. cbn [self WebOS.audio_active_
    WebOS.buffer_fill_ WebOS.audio_buffer_ device_buffer base stream_ sdl trace].
  intros -> Hlen Hdb Hfill. 
  unfold WebOS.audioCallback, bind, get_self. cbn.
  rewrite (to_size_t_int len Hlen).
  assert (Hn : 0 <= Z.min len fill <= len /\ Z.min len fill <= fill
               /\ (Z.min len fill = len \/ Z.min len fill = fill)) by lia.
  generalize dependent (Z.min len fill). intros n Hn.
  assert (Hmax : INT_MAX < 2 ^ 64) by (unfold INT_MAX; lia).
  assert (Hsk : skipn (Z.to_nat len) db = []) by (apply skipn_all2; unfold size in Hdb; lia).
  destruct (Z.ltb_spec 0 n) as [Hpos | Hzero].
  - (* something is copied *)
    unfold std_memcpy, memcpy. cbn [peek callback_stream WebOS.audio_buffer self device_buffer
      WebOS.audio_buffer_].
    rewrite load_in_range by lia. cbn [Z.to_nat skipn].
    rewrite store_in_range by (rewrite ?size_firstn; lia).
    rewrite size_firstn by lia. cbn [Z.to_nat firstn app Z.add poke callback_stream].
    destruct (Z.ltb_spec n fill) as [Hpart | Hall].
    + (* part of the buffer is left: shift it to the front *)
      unfold std_memmove, memmove, memcpy.
      cbn [peek WebOS.audio_buffer self WebOS.audio_buffer_].
      rewrite load_in_range by lia.
      assert (Hs : size (firstn (Z.to_nat (fill - n)) (skipn (Z.to_nat n) buf)) = fill - n).
      { rewrite size_firstn; [reflexivity |]. rewrite size_skipn; lia. }
      rewrite store_in_range by (rewrite ?Hs; lia).
      rewrite Hs. cbn [Z.to_nat firstn app Z.add poke WebOS.audio_buffer self base stream_ sdl
        device_buffer trace set_self WebOS.set_audio_buffer_ WebOS.set_buffer_fill_
        WebOS.audio_device_ WebOS.audio_spec_ WebOS.initialized_ WebOS.audio_active_
        WebOS.audio_buffer_ WebOS.buffer_fill_].
      destruct (Z.ltb_spec n len) as [Hshort | Hfull].
      * lia.
      * assert (n = len) by lia. subst n.
        unfold ret. rewrite Z.sub_diag. cbn [Z.to_nat repeat].
        rewrite Hsk. reflexivity.
    + (* the buffer is drained *)
      assert (n = fill) by lia.
      unfold WebOS.update, bind, get_self, set_self.
      cbn [self base stream_ sdl device_buffer trace WebOS.set_audio_buffer_
        WebOS.set_buffer_fill_ WebOS.audio_device_ WebOS.audio_spec_ WebOS.initialized_
        WebOS.audio_active_ WebOS.audio_buffer_ WebOS.buffer_fill_].
      replace (fill - n) with 0 by lia. cbn [Z.to_nat firstn skipn app].
      destruct (Z.ltb_spec n len) as [Hshort | Hfull].
      * unfold SDL_memset. cbn [peek callback_stream device_buffer].
        rewrite (to_size_t_small (len - n)) by lia.
        assert (Hd : size (firstn (Z.to_nat n) buf ++ skipn (Z.to_nat n) db) = len).
        { rewrite size_app, size_firstn, size_skipn by lia. lia. }
        rewrite memset_in_range by lia.
        rewrite splice_firstn by lia.
        replace (n + (len - n)) with (size (firstn (Z.to_nat n) buf ++ skipn (Z.to_nat n) db))
          by lia.
        unfold size at 1. rewrite Nat2Z.id, skipn_all, app_nil_r.
        reflexivity.
      * assert (Hnl : n = len) by lia.
        unfold ret. replace (len - n) with 0 by lia. cbn [Z.to_nat repeat].
        rewrite Hnl, Hsk. reflexivity.
  - (* nothing to copy *)
    assert (n = 0) by lia.
    unfold ret at 1.
    replace (fill - n) with fill by lia. replace (len - n) with len by lia.
    replace n with 0 by lia. cbn [Z.to_nat firstn skipn app].
    rewrite firstn_skipn.
    cbn [WebOS.set_audio_buffer_ WebOS.set_buffer_fill_ WebOS.audio_device_ WebOS.audio_spec_
      WebOS.initialized_ WebOS.audio_active_ WebOS.audio_buffer_ WebOS.buffer_fill_].
    destruct (Z.ltb_spec 0 len) as [Hshort | Hfull].
    + unfold SDL_memset. cbn [peek callback_stream device_buffer].
      rewrite (to_size_t_int len Hlen).
      rewrite <- Hdb, memset_all. unfold size. rewrite Nat2Z.id. reflexivity.
    + assert (len = 0) by lia. subst len. 
      destruct db; [reflexivity | discriminate].
Qed.

(** On an inactive sink, or without a player, the callback only writes
    silence. *)
Lemma audioCallback_inactive (u : userdata_ptr) (w : world) (len : Z) :
  is_null u || negb (WebOS.audio_active_ (self w)) = true ->
  0 <= len <= INT_MAX ->
  size (device_buffer w) = len ->
  WebOS.audioCallback u callback_stream len w
  = Val tt {| self := self w; base := base w; stream_ := stream_ w; sdl := sdl w;
              device_buffer := repeat zero_byte (List.length (device_buffer w));
              trace := trace w |}.
Proof.
  intros Hoff Hlen Hdb.
  unfold WebOS.audioCallback, bind, get_self. rewrite Hoff.
  unfold SDL_memset. cbn [peek callback_stream].
  rewrite (to_size_t_int len Hlen), <- Hdb, memset_all. reflexivity.
Qed.

End WebOSCallback.

(** ** The producer iteration *)

(** Reduce the accesses to the fields of the world and of the player. *)
Ltac webos_fields :=
  cbn [self base stream_ sdl device_buffer trace peek poke
       WebOS.audio_buffer callback_stream
       WebOS.set_audio_device_ WebOS.set_audio_spec_ WebOS.set_initialized_
       WebOS.set_audio_active_ WebOS.set_audio_buffer_ WebOS.set_buffer_fill_
       WebOS.audio_device_ WebOS.audio_spec_ WebOS.initialized_
       WebOS.audio_active_ WebOS.audio_buffer_ WebOS.buffer_fill_] in *.

Section WebOSProducer.

Context {Stream Base : Type} {C : Collaborators Stream Base}.
Local Abbreviation world := (world Stream Base WebOS.WebOSPlayer).

Lemma processAudio_idle (w : world) :
  negb (WebOS.audio_active_ (self w)) || negb (WebOS.initialized_ (self w)) = true ->
  WebOS.processAudio w = Val tt w.
Proof.
  intros H. unfold WebOS.processAudio, bind, get_self. now rewrite H.
Qed.

Lemma processAudio_zero_frame_size (w : world) :
  frameSize (getFormat (stream_ w)) = 0 ->
  WebOS.processAudio w = Val tt w.
Proof.
  intros H. unfold WebOS.processAudio, bind, get_self.
  destruct (negb (WebOS.audio_active_ (self w)) || negb (WebOS.initialized_ (self w)));
    [reflexivity |].
  destruct (WebOS.BUFFER_SIZE <=? WebOS.buffer_fill_ (self w)); [reflexivity |].
  unfold stream_getFormat. rewrite H. reflexivity.
Qed.

Lemma processAudio_no_room (w : world) :
  0 <= WebOS.buffer_fill_ (self w) <= WebOS.BUFFER_SIZE ->
  0 <= frameSize (getFormat (stream_ w)) < 2 ^ 64 ->
  (WebOS.BUFFER_SIZE - WebOS.buffer_fill_ (self w)) / frameSize (getFormat (stream_ w)) = 0 ->
  WebOS.processAudio w = Val tt w.
Proof.
  intros Hfill Hfs Hz. unfold WebOS.processAudio, bind, get_self.
  destruct (negb (WebOS.audio_active_ (self w)) || negb (WebOS.initialized_ (self w)));
    [reflexivity |].
  destruct (WebOS.BUFFER_SIZE <=? WebOS.buffer_fill_ (self w)); [reflexivity |].
  unfold stream_getFormat. rewrite (to_size_t_small _ Hfs).
  destruct (Z.eqb_spec (frameSize (getFormat (stream_ w))) 0) as [| Hne]; [reflexivity |].
  unfold divide. destruct (Z.eqb_spec (frameSize (getFormat (stream_ w))) 0); [contradiction |].
  unfold ret at 1. unfold WebOS.BUFFER_SIZE in *.
  rewrite (to_size_t_small (4096 - _)) by lia.
  rewrite Hz. reflexivity.
Qed.

Lemma processAudio_fills (w : world) :
  contracts C ->
  WebOS.audio_active_ (self w) = true ->
  WebOS.initialized_ (self w) = true ->
  0 <= WebOS.buffer_fill_ (self w) <= WebOS.BUFFER_SIZE ->
  size (WebOS.audio_buffer_ (self w)) = WebOS.BUFFER_SIZE ->
  0 <= frameSize (getFormat (stream_ w)) < 2 ^ 64 ->
  let fill := WebOS.buffer_fill_ (self w) in
  let buf := WebOS.audio_buffer_ (self w) in
  let frame_size := frameSize (getFormat (stream_ w)) in
  let frames := (WebOS.BUFFER_SIZE - fill) / frame_size in
  let chunk := getPlayerChunkOrSilence (stream_ w) (usec 0) frames in
  frames <> 0 ->
  WebOS.processAudio w
  = Val tt
      {| self := WebOS.set_buffer_fill_ (fill + frames * frame_size)
                   (WebOS.set_audio_buffer_
                      (firstn (Z.to_nat fill) buf
                       ++ volume_buffer (adjustVolume (base w) (snd (fst chunk)) frames)
                       ++ skipn (Z.to_nat (fill + frames * frame_size)) buf) (self w));
         base := base w; stream_ := snd chunk; sdl := sdl w;
         device_buffer := device_buffer w;
         trace := EvAdjustVolume frames :: EvGetChunk (usec 0) frames (fst (fst chunk))
                    :: trace w |}.
Proof.
  intros [Hchunk Hformat Hvolume].
  destruct w as [[dev spec init act buf fill] b s sd db tr].
  cbn [self WebOS.audio_active_ WebOS.initialized_ WebOS.buffer_fill_ WebOS.audio_buffer_
       device_buffer base stream_ sdl trace].
  intros -> -> Hfill Hbuf Hfs. cbv zeta. intros Hframes.
  set (fs := frameSize (getFormat s)) in *.
  set (frames := (WebOS.BUFFER_SIZE - fill) / fs) in *.
  unfold WebOS.BUFFER_SIZE in *.
  assert (Hfs0 : 0 < fs).
  { destruct (Z.eq_dec fs 0) as [E | E]; [| lia].
    exfalso. apply Hframes. unfold frames. rewrite E. apply Z.div_0_r. }
  assert (Hfr : 0 < frames /\ frames * fs <= 4096 - fill /\ frames <= 4096 - fill).
  { assert (0 <= frames) by (apply Z.div_pos; lia).
    assert (fs * frames <= 4096 - fill) by (apply Z.mul_div_le; lia).
    split; [lia | split; [lia | nia]]. }
  unfold WebOS.processAudio, bind, get_self.
  cbn [self WebOS.audio_active_ WebOS.initialized_ WebOS.buffer_fill_ negb orb].
  change WebOS.BUFFER_SIZE with 4096.
  destruct (Z.leb_spec 4096 fill) as [Hge | Hlt].
  { exfalso. apply Hframes. unfold frames. replace (4096 - fill) with 0 by lia.
    apply Z.div_0_l; lia. }
  unfold stream_getFormat. cbv beta. cbn [stream_]. fold fs.
  rewrite (to_size_t_small fs Hfs).
  destruct (Z.eqb_spec fs 0) as [| _]; [lia |].
  unfold divide. destruct (Z.eqb_spec fs 0) as [| _]; [lia |].
  unfold ret at 1. cbv beta iota.
  rewrite (to_size_t_small (4096 - fill)) by lia. fold frames.
  rewrite (to_uint32_small frames) by lia.
  destruct (Z.eqb_spec frames 0) as [| _]; [lia |].
  unfold stream_getPlayerChunkOrSilence. cbn [stream_ self base sdl device_buffer trace].
  pose proof (Hchunk s (usec 0) frames ltac:(lia) ltac:(fold fs; lia)) as Hsize.
  fold fs in Hsize.
  destruct (getPlayerChunkOrSilence s (usec 0) frames) as [[real data] s'] eqn:Echunk.
  cbn [fst snd] in Hsize |- *.
  cbn [peek WebOS.audio_buffer self WebOS.audio_buffer_].
  rewrite store_in_range by lia. rewrite Hsize.
  cbn [poke WebOS.audio_buffer self base stream_ sdl device_buffer trace
       WebOS.set_audio_buffer_ WebOS.audio_device_ WebOS.audio_spec_ WebOS.initialized_
       WebOS.audio_active_ WebOS.audio_buffer_ WebOS.buffer_fill_].
  unfold WebOS.update, bind, get_self, set_self.
  cbn [self base stream_ sdl device_buffer trace
       WebOS.set_buffer_fill_ WebOS.audio_device_ WebOS.audio_spec_ WebOS.initialized_
       WebOS.audio_active_ WebOS.audio_buffer_ WebOS.buffer_fill_].
  rewrite (to_size_t_small (frames * fs)) by lia.
  webos_fields.
  rewrite (to_size_t_small (fill + frames * fs)) by lia.
  unfold try_catch, this_adjustVolume. webos_fields.
  assert (Hs' : getFormat s' = getFormat s).
  { pose proof (Hformat s (usec 0) frames) as Hf. rewrite Echunk in Hf. exact Hf. }
  rewrite Hs'. fold fs.
  rewrite load_in_range;
    [| lia | lia | rewrite !size_app, size_firstn, size_skipn by lia; lia].
  rewrite <- Hsize. rewrite splice_middle by lia.
  pose proof (Hvolume b data frames) as Hv.
  rewrite store_in_range;
    [| lia | rewrite Hv, !size_app, size_firstn, size_skipn by lia; lia].
  rewrite splice_firstn by lia.
  rewrite Hv. rewrite splice_skipn by lia.
  destruct (adjustVolume b data frames) as [vb | e vb]; webos_fields; reflexivity.
Qed.

End WebOSProducer.

(** ** Claims about the buffered callback *)

Section WebOSClaims.

Context {Stream Base : Type} {C : Collaborators Stream Base}.
Local Abbreviation world := (world Stream Base WebOS.WebOSPlayer).

(** C1 (amended).  On an active sink holding [fill] bytes, the buffered
    callback asked for [len] bytes copies exactly [min len fill] bytes from
    the front of the ring buffer into the destination, zero-fills the
    remaining [len - min len fill] destination bytes, shifts the remaining
    [fill - min len fill] buffered bytes to the front and sets the fill to
    [fill - min len fill]; nothing beyond the previous fill mark reaches the
    destination, and the stream is not touched.  In particular, from a fill
    of 4000 a request of 2048 bytes copies 2048 real bytes, leaves a fill of
    1952 and appends no silence. *)
Theorem webos_callback_copies_min_len_fill (w : world) (len : Z) :
  WebOS.audio_active_ (self w) = true ->
  0 <= len <= INT_MAX ->
  size (device_buffer w) = len ->
  0 <= WebOS.buffer_fill_ (self w) <= size (WebOS.audio_buffer_ (self w)) ->
  let fill := WebOS.buffer_fill_ (self w) in
  let buf := WebOS.audio_buffer_ (self w) in
  let n := Z.min len fill in
  exists w',
    WebOS.audioCallback the_player callback_stream len w = Val tt w' /\
    device_buffer w' = firstn (Z.to_nat n) buf ++ repeat zero_byte (Z.to_nat (len - n)) /\
    firstn (Z.to_nat (fill - n)) (WebOS.audio_buffer_ (self w'))
    = firstn (Z.to_nat (fill - n)) (skipn (Z.to_nat n) buf) /\
    WebOS.buffer_fill_ (self w') = fill - n /\
    size (WebOS.audio_buffer_ (self w')) = size buf /\
    stream_ w' = stream_ w /\
    trace w' = trace w /\
    (fill = 4000 -> len = 2048 ->
     device_buffer w' = firstn 2048 buf /\ WebOS.buffer_fill_ (self w') = 1952).
Proof.
  intros Hact Hlen Hdb Hfill fill buf n.
  eexists. split; [apply audioCallback_active; assumption |].
  fold fill buf n. webos_fields.
  assert (Hn : 0 <= n <= fill) by (unfold n; lia).
  assert (Hsz : size (firstn (Z.to_nat (fill - n)) (skipn (Z.to_nat n) buf)) = fill - n).
  { rewrite size_firstn; [reflexivity |]. rewrite size_skipn; unfold buf; lia. }
  split; [reflexivity |]. split.
  { replace (Z.to_nat (fill - n))
      with (Z.to_nat (size (firstn (Z.to_nat (fill - n)) (skipn (Z.to_nat n) buf)))) at 1
      by (now rewrite Hsz).
    unfold size at 1. rewrite Nat2Z.id, firstn_app, Nat.sub_diag, firstn_0, app_nil_r.
    apply firstn_all. }
  split; [reflexivity |]. split.
  { rewrite size_app, Hsz, size_skipn by (unfold buf; lia). lia. }
  split; [reflexivity |]. split; [reflexivity |].
  intros Hf Hl.
  assert (Hn' : n = 2048) by (unfold n; lia).
  rewrite Hn', Hf, Hl. cbn [Z.sub Z.pos_sub Pos.sub Z.to_nat repeat].
  split; [| reflexivity].
  replace (Z.to_nat (2048 - 2048)) with 0%nat by lia. cbn [repeat]. apply app_nil_r.
Qed.

End WebOSClaims.

(** The scenario of C1 at a fill of 4000: 2048 bytes of tone come out, 1952
    stay, and no silence is appended. *)
Lemma webos_callback_scenario_1952 :
  exists w',
    WebOS.audioCallback the_player callback_stream 2048
      (webos_world 4000 stereo16 [] (repeat zero_byte 2048)) = Val tt w' /\
    device_buffer w' = repeat tone 2048 /\
    WebOS.buffer_fill_ (self w') = 1952.
Proof.
  destruct (webos_callback_copies_min_len_fill
              (webos_world 4000 stereo16 [] (repeat zero_byte 2048)) 2048)
    as (w' & Hrun & _ & _ & _ & _ & _ & _ & Hscenario).
  - reflexivity.
  - unfold INT_MAX. lia.
  - reflexivity.
  - vm_compute. split; discriminate.
  - exists w'. split; [exact Hrun |].
    destruct Hscenario as [Hdst Hfill]; [reflexivity | reflexivity |].
    split; [| exact Hfill].
    rewrite Hdst. vm_compute. reflexivity.
Defined.

(** C1 as stated fails on the producer: at a fill of 0 and a frame size of
    4 it writes 1024 frames, not 1000, so the fill becomes 4096, not 4000,
    and a request of 2048 bytes then leaves 2048, not 1952. *)
Lemma webos_producer_writes_1024_frames :
  let w0 := webos_world 0 stereo16 (repeat tone (Z.to_nat 8192)) (repeat zero_byte 2048) in
  exists w1 w2,
    WebOS.processAudio w0 = Val tt w1 /\
    trace w1 = [EvAdjustVolume 1024; EvGetChunk 0 1024 true] /\
    WebOS.buffer_fill_ (self w1) = 4096 /\
    WebOS.buffer_fill_ (self w1) <> 4000 /\
    WebOS.audioCallback the_player callback_stream 2048 w1 = Val tt w2 /\
    WebOS.buffer_fill_ (self w2) = 2048 /\
    WebOS.buffer_fill_ (self w2) <> 1952.
Proof.
  cbv zeta.
  set (r1 := WebOS.processAudio
               (webos_world 0 stereo16 (repeat tone (Z.to_nat 8192)) (repeat zero_byte 2048))).
  vm_compute in r1.
  match eval unfold r1 in r1 with
  | Val tt ?w =>
      set (r2 := WebOS.audioCallback the_player callback_stream 2048 w);
      vm_compute in r2;
      match eval unfold r2 in r2 with
      | Val tt ?w' => exists w, w'
      end
  end.
  repeat split; try reflexivity; vm_compute; discriminate.
Qed.

(** ** Steps of a run keep the ring buffer well formed *)

(** The events in front of [t] in [t']. *)
Ltac trace_prefix t' t :=
  match t' with
  | t => constr:(@nil event)
  | ?e :: ?rest => let p := trace_prefix rest t in constr:(e :: p)
  end.

Lemma new_events_app {Stream Base P : Type} (w w' : world Stream Base P)
    (evs : list event) :
  trace w' = evs ++ trace w -> new_events w w' = evs.
Proof.
  intros H. unfold new_events. rewrite H, length_app.
  replace (List.length evs + List.length (trace w) - List.length (trace w))%nat
    with (List.length evs + 0)%nat by lia.
  rewrite firstn_app_2, firstn_0. apply app_nil_r.
Qed.

Lemma new_events_same {Stream Base P : Type} (w w' : world Stream Base P) :
  trace w' = trace w -> new_events w w' = [].
Proof. intros H. apply (new_events_app w w' []). exact H. Qed.

Section WebOSRuns.

Context {Stream Base : Type} {C : Collaborators Stream Base}.
Local Abbreviation world := (world Stream Base WebOS.WebOSPlayer).


(** What a producer iteration does to the ring buffer, whatever the state
    of the sink. *)
Lemma processAudio_effect (w : world) :
  contracts C ->
  well_formed w ->
  let fill := WebOS.buffer_fill_ (self w) in
  let buf := WebOS.audio_buffer_ (self w) in
  let frame_size := frameSize (getFormat (stream_ w)) in
  exists w' span,
    WebOS.processAudio w = Val tt w' /\
    0 <= span <= WebOS.BUFFER_SIZE - fill /\
    (span = 0 \/ span = (WebOS.BUFFER_SIZE - fill) / frame_size * frame_size) /\
    WebOS.buffer_fill_ (self w') = fill + span /\
    written w w' = span /\
    size (WebOS.audio_buffer_ (self w')) = WebOS.BUFFER_SIZE /\
    firstn (Z.to_nat fill) (WebOS.audio_buffer_ (self w')) = firstn (Z.to_nat fill) buf /\
    skipn (Z.to_nat (fill + span)) (WebOS.audio_buffer_ (self w'))
    = skipn (Z.to_nat (fill + span)) buf /\
    getFormat (stream_ w') = getFormat (stream_ w) /\
    WebOS.audio_active_ (self w') = WebOS.audio_active_ (self w).
Proof.
  intros HC (Hfill & Hbuf & Hfs). unfold fill_invariant, fill_of in Hfill. cbv zeta.
  assert (Hsame : exists w' span,
    Val tt w = Val tt w' /\
    0 <= span <= WebOS.BUFFER_SIZE - WebOS.buffer_fill_ (self w) /\
    (span = 0 \/ span = (WebOS.BUFFER_SIZE - WebOS.buffer_fill_ (self w))
                        / frameSize (getFormat (stream_ w))
                        * frameSize (getFormat (stream_ w))) /\
    WebOS.buffer_fill_ (self w') = WebOS.buffer_fill_ (self w) + span /\
    written w w' = span /\
    size (WebOS.audio_buffer_ (self w')) = WebOS.BUFFER_SIZE /\
    firstn (Z.to_nat (WebOS.buffer_fill_ (self w))) (WebOS.audio_buffer_ (self w'))
    = firstn (Z.to_nat (WebOS.buffer_fill_ (self w))) (WebOS.audio_buffer_ (self w)) /\
    skipn (Z.to_nat (WebOS.buffer_fill_ (self w) + span)) (WebOS.audio_buffer_ (self w'))
    = skipn (Z.to_nat (WebOS.buffer_fill_ (self w) + span)) (WebOS.audio_buffer_ (self w)) /\
    getFormat (stream_ w') = getFormat (stream_ w) /\
    WebOS.audio_active_ (self w') = WebOS.audio_active_ (self w)).
  { exists w, 0. unfold written. rewrite (new_events_same w w eq_refl). cbn [requested_bytes].
    repeat (split; [first [reflexivity | lia | auto] |]); try reflexivity.
    all: try (left; reflexivity). }
  destruct (negb (WebOS.audio_active_ (self w)) || negb (WebOS.initialized_ (self w)))
    eqn:Eidle.
  { rewrite (processAudio_idle w Eidle). exact Hsame. }
  apply orb_false_elim in Eidle. destruct Eidle as [Eact Einit].
  apply negb_false_iff in Eact, Einit.
  destruct (Z.eq_dec ((WebOS.BUFFER_SIZE - WebOS.buffer_fill_ (self w))
                      / frameSize (getFormat (stream_ w))) 0) as [Ez | Enz].
  { rewrite (processAudio_no_room w Hfill Hfs Ez). exact Hsame. }
  clear Hsame.
  rewrite (processAudio_fills w HC Eact Einit Hfill Hbuf Hfs Enz).
  set (fs := frameSize (getFormat (stream_ w))) in *.
  set (fill := WebOS.buffer_fill_ (self w)) in *.
  set (frames := (WebOS.BUFFER_SIZE - fill) / fs) in *.
  set (chunk := getPlayerChunkOrSilence (stream_ w) (usec 0) frames).
  set (vb := volume_buffer (adjustVolume (base w) (snd (fst chunk)) frames)).
  assert (Hfs0 : 0 < fs).
  { destruct (Z.eq_dec fs 0) as [E | E]; [| lia].
    exfalso. apply Enz. unfold frames. rewrite E. apply Z.div_0_r. }
  assert (Hfr : 0 < frames /\ frames * fs <= WebOS.BUFFER_SIZE - fill).
  { unfold WebOS.BUFFER_SIZE in *.
    assert (0 <= frames) by (apply Z.div_pos; lia).
    assert (fs * frames <= 4096 - fill) by (apply Z.mul_div_le; lia).
    split; lia. }
  assert (Hvb : size vb = frames * fs).
  { unfold vb. rewrite (volume_ok HC). apply (chunk_ok HC); lia. }
  eexists. exists (frames * fs). split; [reflexivity |]. webos_fields.
  split; [nia |]. split; [right; reflexivity |]. split; [reflexivity |].
  split.
  { unfold written. erewrite new_events_app; [| cbn [trace]; 
      change (?a :: ?b :: ?t) with ([a; b] ++ t); reflexivity].
    cbn [requested_bytes]. fold fs. lia. }
  rewrite <- Hvb.
  split; [rewrite splice_size; lia |].
  split; [apply splice_firstn; lia |].
  split; [apply splice_skipn; lia |].
  split; [apply (format_ok HC) | reflexivity].
Qed.


(** [start()] and [stop()] leave the ring buffer and the stream alone. *)
Lemma start_effect (pf : platform) (w : world) :
  exists w',
    after (WebOS.start pf w) = Some w' /\
    WebOS.audio_buffer_ (self w') = WebOS.audio_buffer_ (self w) /\
    WebOS.buffer_fill_ (self w') = WebOS.buffer_fill_ (self w) /\
    stream_ w' = stream_ w /\
    (forall frame_size, requested_bytes frame_size (new_events w w') = 0).
Proof.
  destruct w as [[dev spec init act buf fill] b s sd db tr].
  cbv beta iota delta [WebOS.start WebOS.initializeAudio bind SDL_Init SDL_OpenAudioDevice
    SDL_Quit SDL_PauseAudioDevice set_sdl ret stream_getFormat WebOS.update get_self
    set_self base_start throw fst snd self base stream_ sdl device_buffer trace
    WebOS.set_audio_device_ WebOS.set_audio_spec_ WebOS.set_initialized_
    WebOS.set_audio_active_ WebOS.audio_device_ WebOS.audio_spec_ WebOS.initialized_
    WebOS.audio_active_ WebOS.audio_buffer_ WebOS.buffer_fill_].
  destruct (SDL_Init_result pf <? 0); cbv beta iota delta [negb after];
    [| destruct (SDL_OpenAudioDevice_result pf =? 0); cbv beta iota delta [negb after] ];
    eexists; (split; [reflexivity |]); webos_fields;
    (repeat (split; [reflexivity |])); intros frame_size;
    match goal with
    | |- context [new_events ?a ?b] =>
        let t' := eval cbn [trace] in (trace b) in
        let t := eval cbn [trace] in (trace a) in
        let evs := trace_prefix t' t in
        rewrite (new_events_app a b evs) by reflexivity
    end; reflexivity.
Qed.

Lemma stop_effect (w : world) :
  exists w',
    WebOS.stop w = Val tt w' /\
    WebOS.audio_active_ (self w') = false /\
    WebOS.audio_buffer_ (self w') = WebOS.audio_buffer_ (self w) /\
    WebOS.buffer_fill_ (self w') = WebOS.buffer_fill_ (self w) /\
    stream_ w' = stream_ w /\
    (forall frame_size, requested_bytes frame_size (new_events w w') = 0).
Proof.
  destruct w as [[dev spec init act buf fill] b s sd db tr].
  cbv beta iota delta [WebOS.stop bind SDL_PauseAudioDevice set_sdl ret WebOS.update
    get_self set_self base_stop self base stream_ sdl device_buffer trace
    WebOS.set_audio_active_ WebOS.audio_device_ WebOS.audio_spec_ WebOS.initialized_
    WebOS.audio_active_ WebOS.audio_buffer_ WebOS.buffer_fill_].
  destruct (dev =? 0); cbv beta iota delta [negb];
    eexists; (split; [reflexivity |]); webos_fields;
    (repeat (split; [reflexivity |])); intros frame_size;
    match goal with
    | |- context [new_events ?a ?b] =>
        let t' := eval cbn [trace] in (trace b) in
        let t := eval cbn [trace] in (trace a) in
        let evs := trace_prefix t' t in
        rewrite (new_events_app a b evs) by reflexivity
    end; reflexivity.
Qed.

End WebOSRuns.

Section WebOSInvariant.

Context {Stream Base : Type} {C : Collaborators Stream Base}.
Local Abbreviation world := (world Stream Base WebOS.WebOSPlayer).

(** One operation from a well-formed world: it completes, the world stays
    well formed, and the fill is accounted for. *)
Lemma perform_step (o : operation) (w : world) :
  contracts C ->
  well_formed w ->
  int_sized o ->
  exists w', after (perform o w) = Some w' /\ well_formed w' /\ accounted (w, o, w').
Proof.
  intros HC Hwf Hint. pose proof Hwf as (Hfill & Hbuf & Hfs).
  unfold fill_invariant, fill_of in Hfill.
  destruct o as [| dst | pf |]; cbn [perform int_sized] in *.
  - (* Produce *)
    destruct (processAudio_effect w HC Hwf)
      as (w' & span & Hrun & Hspan & _ & Hf & Hw & Hsz & _ & _ & Hfmt & _).
    exists w'. rewrite Hrun. split; [reflexivity |].
    unfold well_formed, accounted, fill_invariant, fill_of, consumed.
    rewrite Hf, Hw, Hsz, Hfmt. repeat split; try lia; tauto.
  - (* Consume *)
    pose proof (size_nonneg dst) as Hdst.
    destruct (WebOS.audio_active_ (self w)) eqn:Eact.
    + rewrite (audioCallback_active (hand_over dst w) (size dst))
        by (cbn [hand_over self device_buffer]; first [assumption | reflexivity | lia]).
      cbn [hand_over self base stream_ sdl device_buffer trace after].
      eexists. split; [reflexivity |].
      set (fill := WebOS.buffer_fill_ (self w)) in *.
      set (n := Z.min (size dst) fill).
      assert (Hn : 0 <= n <= fill) by (unfold n; lia).
      unfold well_formed, accounted, fill_invariant, fill_of, consumed, written.
      rewrite Eact. rewrite new_events_same by reflexivity.
      webos_fields. cbn [requested_bytes]. fold fill n.
      rewrite size_app, size_firstn, size_skipn; rewrite ?size_skipn; lia.
    + rewrite (audioCallback_inactive the_player (hand_over dst w) (size dst))
        by (cbn [hand_over self device_buffer is_null orb]; 
            first [now rewrite Eact | reflexivity | lia]).
      cbn [hand_over self base stream_ sdl device_buffer trace after].
      eexists. split; [reflexivity |].
      unfold well_formed, accounted, fill_invariant, fill_of, consumed, written.
      rewrite Eact. rewrite new_events_same by reflexivity.
      webos_fields. cbn [requested_bytes]. repeat split; lia.
  - (* Start *)
    destruct (start_effect pf w) as (w' & Hrun & Hb & Hf & Hs & Hw).
    exists w'. split; [exact Hrun |].
    unfold well_formed, accounted, fill_invariant, fill_of, consumed, written.
    rewrite Hb, Hf, Hs, Hw. repeat split; lia.
  - (* Stop *)
    destruct (stop_effect w) as (w' & Hrun & _ & Hb & Hf & Hs & Hw).
    exists w'. rewrite Hrun. split; [reflexivity |].
    unfold well_formed, accounted, fill_invariant, fill_of, consumed, written.
    rewrite Hb, Hf, Hs, Hw. repeat split; lia.
Qed.

(** Every run from a well-formed world completes, and each of its steps is
    accounted for. *)
Lemma run_accounted (ops : list operation) :
  contracts C ->
  Forall int_sized ops ->
  forall w : world,
    well_formed w ->
    exists steps,
      run ops w = Some steps /\
      map (fun s => snd (fst s)) steps = ops /\
      Forall accounted steps.
Proof.
  intros HC Hops. induction Hops as [| o ops Ho _ IH]; intros w Hwf.
  - exists []. repeat split. constructor.
  - destruct (perform_step o w HC Hwf Ho) as (w' & Hrun & Hwf' & Hacc).
    destruct (IH w' Hwf') as (steps & Hsteps & Hmap & Hall).
    exists ((w, o, w') :: steps). cbn [run map fst snd].
    rewrite Hrun, Hsteps, Hmap. repeat split. constructor; assumption.
Qed.

(** C2.  The fill is 0 in the constructed player, hence within
    [0, BUFFER_SIZE]; and from every well-formed state, every interleaving of
    producer iterations, callbacks of any length, [start()] and [stop()]
    runs to completion with, at each step, the fill after it equal to the
    fill before it plus the bytes written minus the bytes consumed, and
    within [0, 4096]. *)
Theorem fill_within_capacity_on_every_run (w : world) (ops : list operation) :
  contracts C ->
  well_formed w ->
  Forall int_sized ops ->
  (forall w0 : world, self w0 = WebOS.constructed ->
     fill_of w0 = 0 /\ fill_invariant w0 /\
     size (WebOS.audio_buffer_ (self w0)) = WebOS.BUFFER_SIZE) /\
  fill_invariant w /\
  exists steps,
    run ops w = Some steps /\
    map (fun s => snd (fst s)) steps = ops /\
    Forall accounted steps.
Proof.
  intros HC Hwf Hops. split; [| split].
  - intros w0 H0. unfold fill_invariant, fill_of. rewrite H0.
    cbn [WebOS.constructed WebOS.buffer_fill_ WebOS.audio_buffer_].
    rewrite size_repeat. unfold WebOS.BUFFER_SIZE. lia.
  - apply Hwf.
  - apply run_accounted; assumption.
Qed.

End WebOSInvariant.

(** A run of C2 from the constructed player: started, filled, drained by a
    2048-byte callback, filled again, stopped, and called back once more. *)
Lemma fill_within_capacity_run :
  let w := queue_world WebOS.constructed stereo16 (repeat tone (Z.to_nat 8192)) false in
  let ops := [Start good_platform; Produce; Consume (repeat zero_byte (Z.to_nat 2048));
              Produce; Stop; Consume (repeat zero_byte 100)] in
  fill_invariant w /\
  exists steps,
    run ops w = Some steps /\
    map (fun s => snd (fst s)) steps = ops /\
    Forall accounted steps.
Proof.
  intros w ops.
  apply (fill_within_capacity_on_every_run (C := queue_collaborators) w ops).
  - exact queue_contracts.
  - unfold well_formed, fill_invariant, fill_of. vm_compute.
    repeat split; try reflexivity; discriminate.
  - unfold ops. repeat constructor; vm_compute; discriminate.
Defined.

(** ** Claims about the producer iteration *)

Section WebOSProducerClaims.

Context {Stream Base : Type} {C : Collaborators Stream Base}.
Local Abbreviation world := (world Stream Base WebOS.WebOSPlayer).

(** C3.  On an active, initialised sink a producer iteration computes the
    free space in whole frames, [(BUFFER_SIZE - fill) / frame_size].  When
    that is zero it returns with the world unchanged.  Otherwise it makes
    exactly one request to the stream, for that many frames at a latency of
    zero, the frames land at offset [fill] (the bytes before and after them
    are untouched) and go through the volume pass, and the fill advances by
    the frame count times the frame size whether the stream reported real
    audio or silence. *)
Theorem producer_requests_free_frames (w : world) :
  contracts C ->
  WebOS.audio_active_ (self w) = true ->
  WebOS.initialized_ (self w) = true ->
  well_formed w ->
  let fill := WebOS.buffer_fill_ (self w) in
  let buf := WebOS.audio_buffer_ (self w) in
  let frame_size := frameSize (getFormat (stream_ w)) in
  let frames := (WebOS.BUFFER_SIZE - fill) / frame_size in
  let chunk := getPlayerChunkOrSilence (stream_ w) (usec 0) frames in
  (frames = 0 -> WebOS.processAudio w = Val tt w) /\
  (frames <> 0 ->
   exists w',
     WebOS.processAudio w = Val tt w' /\
     new_events w w' = [EvAdjustVolume frames; EvGetChunk 0 frames (fst (fst chunk))] /\
     stream_ w' = snd chunk /\
     firstn (Z.to_nat fill) (WebOS.audio_buffer_ (self w')) = firstn (Z.to_nat fill) buf /\
     firstn (Z.to_nat (frames * frame_size))
            (skipn (Z.to_nat fill) (WebOS.audio_buffer_ (self w')))
     = volume_buffer (adjustVolume (base w) (snd (fst chunk)) frames) /\
     skipn (Z.to_nat (fill + frames * frame_size)) (WebOS.audio_buffer_ (self w'))
     = skipn (Z.to_nat (fill + frames * frame_size)) buf /\
     WebOS.buffer_fill_ (self w') = fill + frames * frame_size).
Proof.
  intros HC Hact Hinit (Hfill & Hbuf & Hfs). unfold fill_invariant, fill_of in Hfill.
  cbv zeta. split.
  - intros Hz. apply processAudio_no_room; assumption.
  - intros Hnz.
    rewrite (processAudio_fills w HC Hact Hinit Hfill Hbuf Hfs Hnz).
    set (fs := frameSize (getFormat (stream_ w))) in *.
    set (fill := WebOS.buffer_fill_ (self w)) in *.
    set (frames := (WebOS.BUFFER_SIZE - fill) / fs) in *.
    set (chunk := getPlayerChunkOrSilence (stream_ w) (usec 0) frames).
    set (vb := volume_buffer (adjustVolume (base w) (snd (fst chunk)) frames)).
    assert (Hfs0 : 0 < fs).
    { destruct (Z.eq_dec fs 0) as [E | E]; [| lia].
      exfalso. apply Hnz. unfold frames. rewrite E. apply Z.div_0_r. }
    assert (Hfr : 0 < frames /\ frames * fs <= WebOS.BUFFER_SIZE - fill).
    { unfold WebOS.BUFFER_SIZE in *.
      assert (0 <= frames) by (apply Z.div_pos; lia).
      assert (fs * frames <= 4096 - fill) by (apply Z.mul_div_le; lia).
      split; lia. }
    assert (Hvb : size vb = frames * fs).
    { unfold vb. rewrite (volume_ok HC). apply (chunk_ok HC); lia. }
    eexists. split; [reflexivity |].
    split.
    { apply new_events_app. reflexivity. }
    webos_fields. rewrite <- Hvb.
    split; [reflexivity |].
    split; [apply splice_firstn; lia |].
    split; [apply splice_middle; lia |].
    split; [apply splice_skipn; lia | reflexivity].
Qed.

(** C4.  From any state with [0 <= fill <= 4096] and for any frame size, a
    producer iteration completes without an out-of-range access: what it
    writes starts at offset [fill], spans either nothing or
    [(4096 - fill) / frame_size * frame_size] bytes, which is at most the
    free space [4096 - fill], and the storage keeps its 4096 bytes with
    everything outside the written span untouched. *)
Theorem producer_never_writes_past_the_end (w : world) :
  contracts C ->
  well_formed w ->
  let fill := WebOS.buffer_fill_ (self w) in
  let buf := WebOS.audio_buffer_ (self w) in
  let frame_size := frameSize (getFormat (stream_ w)) in
  let span := (WebOS.BUFFER_SIZE - fill) / frame_size * frame_size in
  0 <= span <= WebOS.BUFFER_SIZE - fill /\
  exists w',
    WebOS.processAudio w = Val tt w' /\
    (written w w' = 0 \/ written w w' = span) /\
    fill + written w w' <= WebOS.BUFFER_SIZE /\
    size (WebOS.audio_buffer_ (self w')) = WebOS.BUFFER_SIZE /\
    firstn (Z.to_nat fill) (WebOS.audio_buffer_ (self w')) = firstn (Z.to_nat fill) buf /\
    skipn (Z.to_nat (fill + written w w')) (WebOS.audio_buffer_ (self w'))
    = skipn (Z.to_nat (fill + written w w')) buf /\
    WebOS.buffer_fill_ (self w') = fill + written w w'.
Proof.
  intros HC Hwf. pose proof Hwf as (Hfill & Hbuf & Hfs).
  unfold fill_invariant, fill_of in Hfill. cbv zeta.
  split.
  - unfold WebOS.BUFFER_SIZE in *.
    destruct (Z.eq_dec (frameSize (getFormat (stream_ w))) 0) as [E | E].
    + rewrite E, Z.mul_0_r. lia.
    + assert (0 <= (4096 - WebOS.buffer_fill_ (self w)) / frameSize (getFormat (stream_ w)))
        by (apply Z.div_pos; lia).
      assert (frameSize (getFormat (stream_ w))
              * ((4096 - WebOS.buffer_fill_ (self w)) / frameSize (getFormat (stream_ w)))
              <= 4096 - WebOS.buffer_fill_ (self w)) by (apply Z.mul_div_le; lia).
      nia.
  - destruct (processAudio_effect w HC Hwf)
      as (w' & span & Hrun & Hspan & Hcases & Hf & Hw & Hsz & Hpre & Hpost & _ & _).
    exists w'. rewrite Hw. repeat split; try assumption; lia.
Qed.

(** C10.  When the format reports a frame size of zero the producer
    iteration returns normally with the world, trace included, exactly as it
    was: no request is made, nothing is written, and the division by the
    frame size (undefined at zero) is not reached. *)
Theorem producer_skips_zero_frame_size (w : world) :
  frameSize (getFormat (stream_ w)) = 0 ->
  WebOS.processAudio w = Val tt w /\
  WebOS.processAudio w <> Undef /\
  new_events w w = [].
Proof.
  intros Hz. rewrite (processAudio_zero_frame_size w Hz).
  split; [reflexivity |]. split; [discriminate |].
  apply new_events_same. reflexivity.
Qed.

End WebOSProducerClaims.

(** C3 at a fill of 96 with 4-byte frames: 1000 frames are requested and
    the fill becomes 4096. *)
Lemma producer_requests_1000_frames :
  let w := webos_world 96 stereo16 (repeat tone (Z.to_nat 8192)) [] in
  exists w',
    WebOS.processAudio w = Val tt w' /\
    new_events w w' = [EvAdjustVolume 1000; EvGetChunk 0 1000 true] /\
    WebOS.buffer_fill_ (self w') = 4096.
Proof.
  intros w.
  destruct (producer_requests_free_frames (C := queue_collaborators) w queue_contracts)
    as [_ Hsome].
  - reflexivity.
  - reflexivity.
  - unfold well_formed, fill_invariant, fill_of. vm_compute.
    repeat split; try reflexivity; discriminate.
  - destruct Hsome as (w' & Hrun & Hev & _ & _ & _ & _ & Hfill).
    + vm_compute. discriminate.
    + exists w'. split; [exact Hrun |]. split; [rewrite Hev | rewrite Hfill]; reflexivity.
Defined.

(** C4 with 6-byte frames at a fill of 1000: 516 frames fit, 3096 bytes are
    written and the storage keeps its size. *)
Lemma producer_fits_516_frames :
  let w := webos_world 1000 stereo24 (repeat tone (Z.to_nat 8192)) [] in
  exists w',
    WebOS.processAudio w = Val tt w' /\
    fill_of w' <= WebOS.BUFFER_SIZE /\
    size (WebOS.audio_buffer_ (self w')) = WebOS.BUFFER_SIZE.
Proof.
  intros w.
  destruct (producer_never_writes_past_the_end (C := queue_collaborators) w queue_contracts)
    as (_ & w' & Hrun & _ & Hle & Hsz & _ & _ & Hfill).
  - unfold well_formed, fill_invariant, fill_of. vm_compute.
    repeat split; try reflexivity; discriminate.
  - exists w'. split; [exact Hrun |]. split; [| exact Hsz].
    unfold fill_of. rewrite Hfill. exact Hle.
Defined.

(** C10 on a stream whose format has no bytes per frame. *)
Lemma producer_skips_empty_frames :
  let w := webos_world 0 empty_frames (repeat tone 64) [] in
  WebOS.processAudio w = Val tt w.
Proof.
  intros w.
  apply (producer_skips_zero_frame_size (C := queue_collaborators) w).
  reflexivity.
Defined.

(** ** The direct-pull callback *)

Ltac sdl2_fields :=
  cbn [self base stream_ sdl device_buffer trace peek poke callback_stream
       Sdl2.set_audio_device_ Sdl2.set_audio_spec_ Sdl2.set_initialized_
       Sdl2.audio_device_ Sdl2.audio_spec_ Sdl2.initialized_] in *.

Section Sdl2Callback.

Context {Stream Base : Type} {C : Collaborators Stream Base}.
Local Abbreviation world := (world Stream Base Sdl2.Sdl2Player).

Lemma firstn_size_app (data rest : list byte) :
  firstn (Z.to_nat (size data)) (data ++ rest) = data.
Proof.
  unfold size. rewrite Nat2Z.id, firstn_app, Nat.sub_diag, firstn_0, app_nil_r.
  apply firstn_all.
Qed.

Lemma skipn_size_app (data rest : list byte) :
  skipn (Z.to_nat (size data)) (data ++ rest) = rest.
Proof.
  unfold size. rewrite Nat2Z.id, skipn_app, Nat.sub_diag, skipn_all. reflexivity.
Qed.

Lemma to_int64_small (x : Z) : 0 <= x < 2 ^ 63 -> to_int64 x = x.
Proof.
  intros H. unfold to_int64. rewrite Z.mod_small by lia.
  destruct (Z.ltb_spec x (2 ^ 63)); [reflexivity | lia].
Qed.

Lemma int64_checked_defined (x : Z) (w : world) :
  - 2 ^ 63 <= x <= INT64_MAX -> Sdl2.int64_checked x w = Val x w.
Proof.
  intros H. unfold Sdl2.int64_checked.
  destruct (Z.leb_spec (- 2 ^ 63) x); [| lia].
  destruct (Z.leb_spec x INT64_MAX); [| lia]. reflexivity.
Qed.

Lemma size_t_of_quotient_defined (a : Z) (r : double) (t : Z) (w : world) :
  double_truncate (double_div (double_of_Z a) r) = Some t ->
  0 <= t < 2 ^ 64 ->
  Sdl2.size_t_of_quotient a r w = Val t w.
Proof.
  intros Hq Hb. unfold Sdl2.size_t_of_quotient. rewrite Hq.
  destruct (Z.leb_spec 0 t); [| lia].
  destruct (Z.ltb_spec t (2 ^ 64)); [| lia].
  reflexivity.
Qed.

(** The callback, in full: one request for [len / frame_size] frames at the
    callback latency, then the volume pass when the stream had real audio. *)
Lemma sdl2_audioCallback_run (w : world) (len : Z) :
  contracts C ->
  callback_defined w ->
  0 <= len <= INT_MAX ->
  size (device_buffer w) = len ->
  let frame_size := frameSize (getFormat (stream_ w)) in
  let frames := len / frame_size in
  let dacTime := milliseconds (callback_latency_ms w) in
  let chunk := getPlayerChunkOrSilence (stream_ w) dacTime frames in
  let rest := skipn (Z.to_nat (frames * frame_size)) (device_buffer w) in
  let pulled :=
    {| self := self w; base := base w; stream_ := snd chunk; sdl := sdl w;
       device_buffer := snd (fst chunk) ++ rest;
       trace := EvGetChunk dacTime frames (fst (fst chunk)) :: trace w |} in
  let scaled (vb : list byte) :=
    {| self := self w; base := base w; stream_ := snd chunk; sdl := sdl w;
       device_buffer := vb ++ rest;
       trace := EvAdjustVolume frames :: EvGetChunk dacTime frames true :: trace w |} in
  Sdl2.audioCallback callback_stream len w
  = if fst (fst chunk)
    then match adjustVolume (base w) (snd (fst chunk)) frames with
         | Adjusted vb => Val tt (scaled vb)
         | VolumeFailed e vb => Exn e (scaled vb)
         end
    else Val tt pulled.
Proof.
  intros [Hchunk Hformat Hvolume] Hdef Hlen Hdb.
  destruct Hdef as (Hfs & Hq0 & Hover).
  unfold callback_latency_ms in *.
  destruct (callback_period_ms w) as [t |] eqn:Et; [| contradiction].
  unfold callback_period_ms in Et.
  destruct w as [[dev spec init] b s sd db tr]. sdl2_fields. cbv zeta.
  set (fs := frameSize (getFormat s)) in *.
  set (frames := len / fs).
  assert (Hfr : 0 <= frames /\ frames * fs <= len).
  { assert (0 <= frames) by (apply Z.div_pos; lia).
    assert (fs * frames <= len) by (apply Z.mul_div_le; lia).
    split; lia. }
  unfold Sdl2.audioCallback, bind, stream_getFormat, get_self. sdl2_fields.
  fold fs.
  unfold Sdl2.int_divide. destruct (Z.eqb_spec fs 0) as [| _]; [lia |].
  unfold ret at 1. cbv beta iota.
  rewrite Z.quot_div_nonneg by lia. fold frames. sdl2_fields.
  assert (Hms : 0 <= t /\ milliseconds (t + Sdl2.LATENCY) <= INT64_MAX)
    by (split; assumption).
  unfold milliseconds, Sdl2.LATENCY, INT64_MAX in Hms.
  rewrite (size_t_of_quotient_defined _ _ t) by (first [exact Et | lia]).
  cbv beta iota.
  rewrite to_int64_small by lia.
  rewrite int64_checked_defined by (unfold Sdl2.LATENCY, INT64_MAX; lia).
  cbv beta iota.
  rewrite int64_checked_defined by (unfold milliseconds, Sdl2.LATENCY, INT64_MAX; lia).
  cbv beta iota. unfold Sdl2.LATENCY.
  set (dacTime := milliseconds (t + 30)).
  unfold stream_getPlayerChunkOrSilence. sdl2_fields.
  pose proof (Hchunk s dacTime frames ltac:(lia) ltac:(fold fs; lia)) as Hsize.
  pose proof (Hformat s dacTime frames) as Hfmt.
  fold fs in Hsize.
  destruct (getPlayerChunkOrSilence s dacTime frames) as [[real data] s'].
  cbn [fst snd] in *.
  rewrite store_in_range by lia.
  rewrite Z.add_0_l, Hsize. cbn [Z.to_nat firstn app]. sdl2_fields.
  destruct real; cbn [negb]; [| reflexivity].
  unfold this_adjustVolume. sdl2_fields. rewrite Hfmt. fold fs.
  assert (Hd : size (data ++ skipn (Z.to_nat (frames * fs)) db) = len).
  { rewrite size_app, size_skipn by lia. lia. }
  rewrite load_in_range by lia. cbn [Z.to_nat skipn].
  rewrite <- Hsize in Hd |- *. rewrite firstn_size_app.
  pose proof (Hvolume b data frames) as Hv.
  pose proof (size_nonneg data).
  rewrite store_in_range by lia.
  rewrite Z.add_0_l, Hv, skipn_size_app. cbn [Z.to_nat firstn app].
  destruct (adjustVolume b data frames) as [vb | e vb]; reflexivity.
Qed.

End Sdl2Callback.

Section Sdl2Claims.

Context {Stream Base : Type} {C : Collaborators Stream Base}.
Local Abbreviation world := (world Stream Base Sdl2.Sdl2Player).

(** C5 (amended).  The direct-pull callback asked for [len] bytes makes
    exactly one request to the stream, for [len / frame_size] frames, at a
    latency of [period_ms + 30] milliseconds, where [period_ms] is the
    callback size [audio_spec_.samples] divided, as a [double], by the
    frames per millisecond, with the fraction of the quotient dropped (not
    the exact quotient).  When the request reports failure
    the destination holds what the stream wrote (silence, by its contract)
    and nothing else is done to it.  When it reports success the volume
    pass runs in place on exactly those frames, and the callback ends as the
    volume pass does. *)
Theorem sdl2_callback_pulls_len_frames (w : world) (len period_ms : Z) :
  contracts C ->
  silence_contract C ->
  callback_defined w ->
  0 <= len <= INT_MAX ->
  size (device_buffer w) = len ->
  double_truncate
    (double_div (double_of_Z (samples (Sdl2.audio_spec_ (self w))))
                (msRate (getFormat (stream_ w))))
  = Some period_ms ->
  let frame_size := frameSize (getFormat (stream_ w)) in
  let frames := len / frame_size in
  let latency_ms := period_ms + 30 in
  let chunk := getPlayerChunkOrSilence (stream_ w) (1000 * latency_ms) frames in
  let data := snd (fst chunk) in
  let rest := skipn (Z.to_nat (frames * frame_size)) (device_buffer w) in
  size data = frames * frame_size /\
  (fst (fst chunk) = false ->
   Forall (fun b => b = zero_byte) data /\
   exists w',
     Sdl2.audioCallback callback_stream len w = Val tt w' /\
     trace w' = EvGetChunk (1000 * latency_ms) frames false :: trace w /\
     device_buffer w' = data ++ rest) /\
  (fst (fst chunk) = true ->
   exists w',
     Sdl2.audioCallback callback_stream len w
     = match adjustVolume (base w) data frames with
       | Adjusted _ => Val tt w'
       | VolumeFailed e _ => Exn e w'
       end /\
     trace w' = EvAdjustVolume frames :: EvGetChunk (1000 * latency_ms) frames true
                  :: trace w /\
     device_buffer w' = volume_buffer (adjustVolume (base w) data frames) ++ rest).
Proof.
  intros HC Hsil Hdef Hlen Hdb Hperiod. cbv zeta.
  pose proof (sdl2_audioCallback_run w len HC Hdef Hlen Hdb) as Hrun.
  cbv zeta in Hrun.
  unfold callback_latency_ms, callback_period_ms, milliseconds, Sdl2.LATENCY in Hrun.
  rewrite Hperiod in Hrun.
  destruct Hdef as (Hfs & _).
  split; [| split].
  - apply (chunk_ok HC); [apply Z.div_pos |]; lia.
  - intros Hfail. split; [apply Hsil; exact Hfail |].
    rewrite Hfail in Hrun. eexists. split; [exact Hrun |]. split; reflexivity.
  - intros Hreal. rewrite Hreal in Hrun.
    destruct (adjustVolume (base w) _ _) as [vb | e vb];
      eexists; (split; [exact Hrun |]); split; reflexivity.
Qed.

End Sdl2Claims.

(** C5 on two callbacks.  With 4-byte frames at 48 frames per millisecond
    and 1024-frame callbacks, a 4096-byte callback requests 1024 frames at
    21 + 30 = 51 ms (1024 / 48 is 21.33) and, the stream having real audio,
    sends them through the volume pass.  At 8050 frames per second with
    805-frame callbacks the quotient of doubles 805 / 8.05 falls just short
    of 100, and the request is at 99 + 30 = 129 ms. *)
Lemma sdl2_callback_pulls_1024_frames :
  let w := sdl2_world stereo16 (repeat tone (Z.to_nat 8192))
                      (repeat zero_byte (Z.to_nat 4096)) false in
  let u := sdl2_world_granted 805 (pcm16 8050) (repeat tone 64) (repeat zero_byte 8) in
  (exists w',
     Sdl2.audioCallback callback_stream 4096 w = Val tt w' /\
     trace w' = [EvAdjustVolume 1024; EvGetChunk 51000 1024 true] /\
     device_buffer w' = repeat tone (Z.to_nat 4096)) /\
  (exists u',
     Sdl2.audioCallback callback_stream 8 u = Val tt u' /\
     trace u' = [EvAdjustVolume 2; EvGetChunk 129000 2 true] /\
     device_buffer u' = repeat tone 8).
Proof.
  intros w u. split.
  - destruct (sdl2_callback_pulls_len_frames (C := queue_collaborators) w 4096 21
                queue_contracts queue_silence_contract) as (_ & _ & Hreal).
    + unfold callback_defined, callback_latency_ms. vm_compute.
      repeat split; try reflexivity; discriminate.
    + unfold INT_MAX. lia.
    + vm_compute. reflexivity.
    + vm_compute. reflexivity.
    + destruct Hreal as (w' & Hrun & Htrace & Hdst).
      * vm_compute. reflexivity.
      * exists w'. split; [exact Hrun |]. split.
        -- rewrite Htrace. vm_compute. reflexivity.
        -- rewrite Hdst. vm_compute. reflexivity.
  - destruct (sdl2_callback_pulls_len_frames (C := queue_collaborators) u 8 99
                queue_contracts queue_silence_contract) as (_ & _ & Hreal).
    + unfold callback_defined, callback_latency_ms. vm_compute.
      repeat split; try reflexivity; discriminate.
    + unfold INT_MAX. lia.
    + vm_compute. reflexivity.
    + vm_compute. reflexivity.
    + destruct Hreal as (u' & Hrun & Htrace & Hdst).
      * vm_compute. reflexivity.
      * exists u'. split; [exact Hrun |]. split.
        -- rewrite Htrace. vm_compute. reflexivity.
        -- rewrite Hdst. vm_compute. reflexivity.
Defined.

(** C5 as stated fails: with 1024-frame callbacks at 48 frames per
    millisecond the callback asks for its frames at 51000 microseconds,
    while the callback size divided by the frames per millisecond, plus
    30 ms, is 51333 and a third. *)
Lemma sdl2_latency_drops_the_fraction :
  let w := sdl2_world stereo16 (repeat tone (Z.to_nat 8192))
                      (repeat zero_byte (Z.to_nat 4096)) false in
  exists w',
    Sdl2.audioCallback callback_stream 4096 w = Val tt w' /\
    trace w' = [EvAdjustVolume 1024; EvGetChunk 51000 1024 true] /\
    samples (Sdl2.audio_spec_ (self w)) = 1024 /\
    rate (getFormat (stream_ w)) = 48000 /\
    ~ (inject_Z 51000 == spec_latency_us 1024 48000)%Q.
Proof.
  cbv zeta.
  set (r := Sdl2.audioCallback _ _ _). vm_compute in r.
  match eval unfold r in r with Val tt ?w' => exists w' end.
  split; [reflexivity |]. split; [reflexivity |].
  split; [reflexivity |]. split; [reflexivity |].
  intros H. vm_compute in H. discriminate H.
Qed.

(** ** Failures of the volume pass and of initialisation *)

(** C6 (the code departs from the claim).  With real audio in the stream
    and a volume pass that throws, the producer of the buffered variant
    catches the exception and returns normally, while the direct-pull
    callback has no handler: the exception leaves [audio_callback]. *)
Theorem sdl2_callback_lets_volume_failure_escape :
  let pcm := repeat tone 64 in
  let dst := repeat zero_byte 8 in
  (exists w',
     WebOS.processAudio (webos_world_throwing 4088 stereo16 pcm dst) = Val tt w' /\
     trace w' = [EvAdjustVolume 2; EvGetChunk 0 2 true]) /\
  (exists w',
     Sdl2.audio_callback the_player callback_stream 8 (sdl2_world stereo16 pcm dst true)
     = Exn (std_exception "adjustVolume") w' /\
     trace w' = [EvAdjustVolume 2; EvGetChunk 51000 2 true]).
Proof.
  cbv zeta. split.
  - set (r := WebOS.processAudio _). vm_compute in r.
    match eval unfold r in r with Val tt ?w => exists w end.
    split; reflexivity.
  - set (r := Sdl2.audio_callback _ _ _ _). vm_compute in r.
    match eval unfold r in r with Exn _ ?w => exists w end.
    split; reflexivity.
Qed.

(** C7 (the code departs from the claim).  On a 24-bit stream
    [Sdl2Player::start()] throws the unsupported-format error after
    [SDL_Init] has succeeded and without [SDL_Quit]: the audio subsystem is
    up when the error reaches the caller, and the destructor does not bring
    it down either, since [initialized_] was never set.  The sibling failure
    path, a device that cannot be opened, does call [SDL_Quit]. *)
Theorem sdl2_unsupported_format_leaves_subsystem_up :
  let w := queue_world Sdl2.constructed stereo24 [] false in
  let v := queue_world Sdl2.constructed stereo16 [] false in
  (exists w' w'',
     Sdl2.start good_platform w = Exn (std_exception "Unsupported sample format: 24") w' /\
     trace w' = [EvSDL_Init 0] /\
     subsystem_up (sdl w') = true /\
     Sdl2.destroy w' = Val tt w'' /\
     existsb is_release (trace w'') = false /\
     subsystem_up (sdl w'') = true) /\
  (exists v',
     Sdl2.start no_device_platform v
     = Exn (std_exception "Failed to initialize SDL2 audio") v' /\
     trace v' = [EvSDL_Quit; EvSDL_OpenAudioDevice 0; EvSDL_Init 0] /\
     subsystem_up (sdl v') = false /\
     devices (sdl v') = []).
Proof.
  cbv zeta. split.
  - set (r := Sdl2.start _ _). vm_compute in r.
    match eval unfold r in r with
    | Exn _ ?w =>
        set (r' := Sdl2.destroy w); vm_compute in r';
        match eval unfold r' in r' with Val tt ?w' => exists w, w' end
    end.
    repeat split; reflexivity.
  - set (r := Sdl2.start _ _). vm_compute in r.
    match eval unfold r in r with Exn _ ?w => exists w end.
    repeat split; reflexivity.
Qed.

(** ** stop() *)

Section StopClaims.

Context {Stream Base : Type} {C : Collaborators Stream Base}.
Local Abbreviation webos_world := (world Stream Base WebOS.WebOSPlayer).
Local Abbreviation sdl2_world := (world Stream Base Sdl2.Sdl2Player).



(** Pausing device [id] leaves every entry of [id] paused. *)
Lemma pause_devices_paused (id : Z) (paused : bool) (ds : list (Z * bool)) :
  In (id, paused) (pause_devices id true ds) -> paused = true.
Proof.
  unfold pause_devices. intros Hin. apply in_map_iff in Hin.
  destruct Hin as ([i p] & Heq & _). cbn [fst] in Heq.
  destruct (Z.eqb_spec i id) as [E | E].
  - inversion Heq. reflexivity.
  - inversion Heq. subst. contradiction.
Qed.




End StopClaims.



Section StopTwice.

Context {Stream Base : Type} {C : Collaborators Stream Base}.
Local Abbreviation webos_world := (world Stream Base WebOS.WebOSPlayer).
Local Abbreviation sdl2_world := (world Stream Base Sdl2.Sdl2Player).

Lemma pause_devices_twice (id : Z) (paused : bool) (ds : list (Z * bool)) :
  pause_devices id paused (pause_devices id paused ds) = pause_devices id paused ds.
Proof.
  unfold pause_devices. rewrite map_map. apply map_ext. intros [i p]. cbn [fst].
  destruct (Z.eqb_spec i id) as [E | E]; cbn [fst].
  - rewrite Z.eqb_refl. reflexivity.
  - destruct (Z.eqb_spec i id); [contradiction | reflexivity].
Qed.

Lemma pause_devices_ids (id : Z) (paused : bool) (ds : list (Z * bool)) :
  map fst (pause_devices id paused ds) = map fst ds.
Proof.
  unfold pause_devices. rewrite map_map. apply map_ext. intros [i p]. cbn [fst].
  destruct (Z.eqb_spec i id) as [E | E]; cbn [fst]; congruence.
Qed.

(** [stop()] in closed form. *)
Lemma webos_stop_run (w : webos_world) :
  let dev := WebOS.audio_device_ (self w) in
  WebOS.stop w
  = Val tt
      {| self := WebOS.set_audio_active_ false (self w);
         base := Player_stop (base w);
         stream_ := stream_ w;
         sdl := if dev =? 0 then sdl w
                else {| subsystem_up := subsystem_up (sdl w);
                        devices := pause_devices dev true (devices (sdl w)) |};
         device_buffer := device_buffer w;
         trace := EvPlayerStop
                    :: (if dev =? 0 then trace w
                        else EvSDL_PauseAudioDevice dev 1 :: trace w) |}.
Proof.
  destruct w as [[dev spec init act buf fill] b s sd db tr].
  cbv beta iota zeta delta [WebOS.stop bind SDL_PauseAudioDevice set_sdl ret WebOS.update
    get_self set_self base_stop self base stream_ sdl device_buffer trace
    WebOS.set_audio_active_ WebOS.audio_device_ WebOS.audio_spec_ WebOS.initialized_
    WebOS.audio_active_ WebOS.audio_buffer_ WebOS.buffer_fill_].
  destruct (dev =? 0); reflexivity.
Qed.

Lemma sdl2_stop_run (v : sdl2_world) :
  let dev := Sdl2.audio_device_ (self v) in
  Sdl2.stop v
  = Val tt
      {| self := self v;
         base := Player_stop (base v);
         stream_ := stream_ v;
         sdl := if dev =? 0 then sdl v
                else {| subsystem_up := subsystem_up (sdl v);
                        devices := pause_devices dev true (devices (sdl v)) |};
         device_buffer := device_buffer v;
         trace := EvPlayerStop
                    :: (if dev =? 0 then trace v
                        else EvSDL_PauseAudioDevice dev 1 :: trace v) |}.
Proof.
  destruct v as [[dev spec init] b s sd db tr].
  cbv beta iota zeta delta [Sdl2.stop bind SDL_PauseAudioDevice set_sdl ret
    get_self base_stop self base stream_ sdl device_buffer trace
    Sdl2.audio_device_ Sdl2.audio_spec_ Sdl2.initialized_].
  destruct (dev =? 0); reflexivity.
Qed.

(** C9 (amended).  Provided the base class's [stop()] is idempotent,
    [stop()] called twice in a row ends, in both variants, in the same
    observable state as [stop()] called once: [audio_active_] cleared, the
    base player stopped, the device the player holds paused, the ring buffer
    and its fill untouched.  The calls themselves are repeated, not skipped:
    each of the two [stop()] calls [SDL_PauseAudioDevice(dev, 1)] when a
    device is held, and [Player::stop()]; the second pause finds the device
    paused.  Nothing is released: neither call makes a call to
    [SDL_CloseAudioDevice] or [SDL_Quit], and the subsystem and the set of
    open devices are as before the first call. *)
Theorem stop_twice_is_stop_once (w : webos_world) (v : sdl2_world) :
  (forall b : Base, Player_stop (Player_stop b) = Player_stop b) ->
  (exists w1 w2,
     WebOS.stop w = Val tt w1 /\
     WebOS.stop w1 = Val tt w2 /\
     WebOS.audio_active_ (self w1) = false /\
     base w1 = Player_stop (base w) /\
     (forall paused,
        WebOS.audio_device_ (self w) <> 0 ->
        In (WebOS.audio_device_ (self w), paused) (devices (sdl w1)) ->
        paused = true) /\
     WebOS.audio_buffer_ (self w1) = WebOS.audio_buffer_ (self w) /\
     WebOS.buffer_fill_ (self w1) = WebOS.buffer_fill_ (self w) /\
     observable w2 = observable w1 /\
     new_events w w1 = stop_calls (WebOS.audio_device_ (self w)) /\
     new_events w1 w2 = stop_calls (WebOS.audio_device_ (self w)) /\
     existsb is_release (new_events w w2) = false /\
     subsystem_up (sdl w2) = subsystem_up (sdl w) /\
     map fst (devices (sdl w2)) = map fst (devices (sdl w))) /\
  (exists v1 v2,
     Sdl2.stop v = Val tt v1 /\
     Sdl2.stop v1 = Val tt v2 /\
     self v1 = self v /\
     base v1 = Player_stop (base v) /\
     (forall paused,
        Sdl2.audio_device_ (self v) <> 0 ->
        In (Sdl2.audio_device_ (self v), paused) (devices (sdl v1)) ->
        paused = true) /\
     observable v2 = observable v1 /\
     new_events v v1 = stop_calls (Sdl2.audio_device_ (self v)) /\
     new_events v1 v2 = stop_calls (Sdl2.audio_device_ (self v)) /\
     existsb is_release (new_events v v2) = false /\
     subsystem_up (sdl v2) = subsystem_up (sdl v) /\
     map fst (devices (sdl v2)) = map fst (devices (sdl v))).
Proof.
  intros Hidem. split.
  - do 2 eexists. split; [apply webos_stop_run |]. split; [apply webos_stop_run |].
    destruct w as [[dev spec init act buf fill] b s sd db tr].
    unfold observable, stop_calls. webos_fields.
    split; [reflexivity |]. split; [reflexivity |].
    split.
    { intros paused Hne Hin.
      destruct (Z.eqb_spec dev 0) as [| _]; [contradiction |].
      cbn [devices] in Hin. apply (pause_devices_paused dev paused (devices sd)). exact Hin. }
    split; [reflexivity |]. split; [reflexivity |].
    destruct (dev =? 0); cbn [subsystem_up devices];
      rewrite ?pause_devices_twice, ?pause_devices_ids, Hidem;
      (split; [reflexivity |]);
      repeat match goal with
      | |- context [new_events ?a ?b] =>
          let t' := eval cbn [trace] in (trace b) in
          let t := eval cbn [trace] in (trace a) in
          let evs := trace_prefix t' t in
          rewrite (new_events_app a b evs) by reflexivity
      end; repeat split.
  - do 2 eexists. split; [apply sdl2_stop_run |]. split; [apply sdl2_stop_run |].
    destruct v as [[dev spec init] b s sd db tr].
    unfold observable, stop_calls. sdl2_fields.
    split; [reflexivity |]. split; [reflexivity |].
    split.
    { intros paused Hne Hin.
      destruct (Z.eqb_spec dev 0) as [| _]; [contradiction |].
      cbn [devices] in Hin. apply (pause_devices_paused dev paused (devices sd)). exact Hin. }
    destruct (dev =? 0); cbn [subsystem_up devices];
      rewrite ?pause_devices_twice, ?pause_devices_ids, Hidem;
      (split; [reflexivity |]);
      repeat match goal with
      | |- context [new_events ?a ?b] =>
          let t' := eval cbn [trace] in (trace b) in
          let t := eval cbn [trace] in (trace a) in
          let evs := trace_prefix t' t in
          rewrite (new_events_app a b evs) by reflexivity
      end; repeat split.
Qed.

End StopTwice.

(** C9 on a running player of each variant. *)
Lemma stop_twice_on_running_players :
  let w := webos_world 4000 stereo16 [] [] in
  let v := sdl2_world stereo16 [] [] false in
  (exists w1 w2,
     WebOS.stop w = Val tt w1 /\ WebOS.stop w1 = Val tt w2 /\
     observable w2 = observable w1 /\
     devices (sdl w2) = [(2, true)]) /\
  (exists v1 v2,
     Sdl2.stop v = Val tt v1 /\ Sdl2.stop v1 = Val tt v2 /\
     observable v2 = observable v1 /\
     devices (sdl v2) = [(2, true)]).
Proof.
  intros w v.
  destruct (stop_twice_is_stop_once (C := queue_collaborators) w v)
    as ((w1 & w2 & Hw1 & Hw2 & _ & _ & _ & _ & _ & Hobs & _)
        & (v1 & v2 & Hv1 & Hv2 & _ & _ & _ & Hvobs & _)).
  - intros [a t]. reflexivity.
  - split.
    + exists w1, w2. repeat split; try assumption.
      vm_compute in Hw1. injection Hw1 as <-.
      vm_compute in Hw2. injection Hw2 as <-. reflexivity.
    + exists v1, v2. repeat split; try assumption.
      vm_compute in Hv1. injection Hv1 as <-.
      vm_compute in Hv2. injection Hv2 as <-. reflexivity.
Defined.

(** C9 as stated fails: the device is not paused exactly once.  On a
    running player of either variant, two [stop()] in a row make two calls
    to [SDL_PauseAudioDevice(2, 1)] and two to [Player::stop()]. *)
Lemma stop_twice_pauses_twice :
  let w := webos_world 4000 stereo16 [] [] in
  let v := sdl2_world stereo16 [] [] false in
  (exists w1 w2,
     WebOS.stop w = Val tt w1 /\ WebOS.stop w1 = Val tt w2 /\
     new_events w w2 = [EvPlayerStop; EvSDL_PauseAudioDevice 2 1;
                        EvPlayerStop; EvSDL_PauseAudioDevice 2 1] /\
     List.length (filter is_pause_call (new_events w w2)) <> 1%nat) /\
  (exists v1 v2,
     Sdl2.stop v = Val tt v1 /\ Sdl2.stop v1 = Val tt v2 /\
     new_events v v2 = [EvPlayerStop; EvSDL_PauseAudioDevice 2 1;
                        EvPlayerStop; EvSDL_PauseAudioDevice 2 1] /\
     List.length (filter is_pause_call (new_events v v2)) <> 1%nat).
Proof.
  cbv zeta. split.
  - set (r1 := WebOS.stop _). vm_compute in r1.
    match eval unfold r1 in r1 with
    | Val tt ?w1 =>
        set (r2 := WebOS.stop w1); vm_compute in r2;
        match eval unfold r2 in r2 with Val tt ?w2 => exists w1, w2 end
    end.
    repeat split; try reflexivity. vm_compute. discriminate.
  - set (r1 := Sdl2.stop _). vm_compute in r1.
    match eval unfold r1 in r1 with
    | Val tt ?v1 =>
        set (r2 := Sdl2.stop v1); vm_compute in r2;
        match eval unfold r2 in r2 with Val tt ?v2 => exists v1, v2 end
    end.
    repeat split; try reflexivity. vm_compute. discriminate.
Qed.

(* ===================================================================== *)
(** * Further properties of the two players *)
(* ===================================================================== *)

(** ** start() *)

Section StartRuns.

Context {Stream Base : Type} {C : Collaborators Stream Base}.
Local Abbreviation webos_world := (world Stream Base WebOS.WebOSPlayer).
Local Abbreviation sdl2_world := (world Stream Base Sdl2.Sdl2Player).

(** [WebOSPlayer::start()] when SDL comes up and a device is opened. *)
Lemma webos_start_opened (pf : platform) (w : webos_world) :
  0 <= SDL_Init_result pf ->
  SDL_OpenAudioDevice_result pf <> 0 ->
  let id := SDL_OpenAudioDevice_result pf in
  WebOS.start pf w
  = Val tt
      {| self := {| WebOS.audio_device_ := id;
                    WebOS.audio_spec_ := obtained_spec pf;
                    WebOS.initialized_ := true;
                    WebOS.audio_active_ := true;
                    WebOS.audio_buffer_ := WebOS.audio_buffer_ (self w);
                    WebOS.buffer_fill_ := WebOS.buffer_fill_ (self w) |};
         base := Player_start (base w);
         stream_ := stream_ w;
         sdl := {| subsystem_up := true;
                   devices := pause_devices id false ((id, true) :: devices (sdl w)) |};
         device_buffer := device_buffer w;
         trace := EvSDL_PauseAudioDevice id 0 :: EvPlayerStart :: EvSDL_OpenAudioDevice id
                    :: EvSDL_Init (SDL_Init_result pf) :: trace w |}.
Proof.
  intros Hrc Hid. destruct w as [[dev spec init act buf fill] b s sd db tr].
  cbv beta iota zeta delta [WebOS.start WebOS.initializeAudio bind SDL_Init
    SDL_OpenAudioDevice SDL_PauseAudioDevice set_sdl ret stream_getFormat WebOS.update
    get_self set_self base_start throw fst snd self base stream_ sdl device_buffer trace
    WebOS.set_audio_device_ WebOS.set_audio_spec_ WebOS.set_initialized_
    WebOS.set_audio_active_ WebOS.audio_device_ WebOS.audio_spec_ WebOS.initialized_
    WebOS.audio_active_ WebOS.audio_buffer_ WebOS.buffer_fill_ subsystem_up devices].
  destruct (Z.ltb_spec (SDL_Init_result pf) 0) as [| _]; [lia |].
  destruct (Z.eqb_spec (SDL_OpenAudioDevice_result pf) 0) as [| _]; [contradiction |].
  reflexivity.
Qed.

(** [WebOSPlayer::start()] when SDL does not come up. *)
Lemma webos_start_no_sdl (pf : platform) (w : webos_world) :
  SDL_Init_result pf < 0 ->
  WebOS.start pf w
  = Exn (std_exception "Failed to initialize WebOS audio")
      {| self := self w; base := base w; stream_ := stream_ w; sdl := sdl w;
         device_buffer := device_buffer w;
         trace := EvSDL_Init (SDL_Init_result pf) :: trace w |}.
Proof.
  intros Hrc. destruct w as [[dev spec init act buf fill] b s [up ds] db tr].
  cbv beta iota zeta delta [WebOS.start WebOS.initializeAudio bind SDL_Init
    set_sdl ret throw self base stream_ sdl device_buffer trace].
  destruct (Z.ltb_spec (SDL_Init_result pf) 0) as [_ |]; [| lia].
  reflexivity.
Qed.

(** [WebOSPlayer::start()] when SDL comes up and no device can be opened. *)
Lemma webos_start_no_device (pf : platform) (w : webos_world) :
  0 <= SDL_Init_result pf ->
  SDL_OpenAudioDevice_result pf = 0 ->
  WebOS.start pf w
  = Exn (std_exception "Failed to initialize WebOS audio")
      {| self := {| WebOS.audio_device_ := 0;
                    WebOS.audio_spec_ :=
                      {| freq := rate (getFormat (stream_ w)); format := AUDIO_S16LSB;
                         spec_channels := channels (getFormat (stream_ w));
                         samples := 1024 |};
                    WebOS.initialized_ := WebOS.initialized_ (self w);
                    WebOS.audio_active_ := WebOS.audio_active_ (self w);
                    WebOS.audio_buffer_ := WebOS.audio_buffer_ (self w);
                    WebOS.buffer_fill_ := WebOS.buffer_fill_ (self w) |};
         base := base w;
         stream_ := stream_ w;
         sdl := {| subsystem_up := false; devices := [] |};
         device_buffer := device_buffer w;
         trace := EvSDL_Quit :: EvSDL_OpenAudioDevice 0
                    :: EvSDL_Init (SDL_Init_result pf) :: trace w |}.
Proof.
  intros Hrc Hid. destruct w as [[dev spec init act buf fill] b s sd db tr].
  cbv beta iota zeta delta [WebOS.start WebOS.initializeAudio bind SDL_Init
    SDL_OpenAudioDevice SDL_Quit set_sdl ret stream_getFormat WebOS.update
    get_self set_self throw fst snd self base stream_ sdl device_buffer trace
    WebOS.set_audio_device_ WebOS.set_audio_spec_ WebOS.set_initialized_
    WebOS.audio_device_ WebOS.audio_spec_ WebOS.initialized_
    WebOS.audio_active_ WebOS.audio_buffer_ WebOS.buffer_fill_].
  rewrite Hid.
  destruct (Z.ltb_spec (SDL_Init_result pf) 0) as [| _]; [lia |].
  reflexivity.
Qed.

(** The same three cases for [Sdl2Player::start()] on a 16-bit stream. *)
Lemma sdl2_start_opened (pf : platform) (v : sdl2_world) :
  0 <= SDL_Init_result pf ->
  bits (getFormat (stream_ v)) = 16 ->
  SDL_OpenAudioDevice_result pf <> 0 ->
  let id := SDL_OpenAudioDevice_result pf in
  Sdl2.start pf v
  = Val tt
      {| self := {| Sdl2.audio_device_ := id;
                    Sdl2.audio_spec_ := obtained_spec pf;
                    Sdl2.initialized_ := true |};
         base := Player_start (base v);
         stream_ := stream_ v;
         sdl := {| subsystem_up := true;
                   devices := pause_devices id false ((id, true) :: devices (sdl v)) |};
         device_buffer := device_buffer v;
         trace := EvSDL_PauseAudioDevice id 0 :: EvPlayerStart :: EvSDL_OpenAudioDevice id
                    :: EvSDL_Init (SDL_Init_result pf) :: trace v |}.
Proof.
  intros Hrc Hbits Hid. destruct v as [[dev spec init] b s sd db tr].
  cbv beta iota zeta delta [Sdl2.start Sdl2.initializeAudio bind SDL_Init
    SDL_OpenAudioDevice SDL_PauseAudioDevice set_sdl ret stream_getFormat Sdl2.update
    get_self set_self base_start throw fst snd self base stream_ sdl device_buffer trace
    Sdl2.set_audio_device_ Sdl2.set_audio_spec_ Sdl2.set_initialized_
    Sdl2.audio_device_ Sdl2.audio_spec_ Sdl2.initialized_ subsystem_up devices] in *.
  destruct (Z.ltb_spec (SDL_Init_result pf) 0) as [| _]; [lia |].
  cbv beta iota. rewrite Hbits.
  destruct (Z.eqb_spec (SDL_OpenAudioDevice_result pf) 0) as [| _]; [contradiction |].
  reflexivity.
Qed.

Lemma sdl2_start_no_sdl (pf : platform) (v : sdl2_world) :
  SDL_Init_result pf < 0 ->
  Sdl2.start pf v
  = Exn (std_exception "Failed to initialize SDL2 audio")
      {| self := self v; base := base v; stream_ := stream_ v; sdl := sdl v;
         device_buffer := device_buffer v;
         trace := EvSDL_Init (SDL_Init_result pf) :: trace v |}.
Proof.
  intros Hrc. destruct v as [[dev spec init] b s [up ds] db tr].
  cbv beta iota zeta delta [Sdl2.start Sdl2.initializeAudio bind SDL_Init
    set_sdl ret throw self base stream_ sdl device_buffer trace].
  destruct (Z.ltb_spec (SDL_Init_result pf) 0) as [_ |]; [| lia].
  reflexivity.
Qed.

Lemma sdl2_start_unsupported (pf : platform) (v : sdl2_world) :
  0 <= SDL_Init_result pf ->
  bits (getFormat (stream_ v)) <> 16 ->
  Sdl2.start pf v
  = Exn (Sdl2.unsupported_format (bits (getFormat (stream_ v))))
      {| self := self v; base := base v; stream_ := stream_ v;
         sdl := {| subsystem_up := true; devices := devices (sdl v) |};
         device_buffer := device_buffer v;
         trace := EvSDL_Init (SDL_Init_result pf) :: trace v |}.
Proof.
  intros Hrc Hbits. destruct v as [[dev spec init] b s sd db tr].
  cbv beta iota zeta delta [Sdl2.start Sdl2.initializeAudio bind SDL_Init
    set_sdl ret stream_getFormat throw self base stream_ sdl device_buffer trace] in *.
  destruct (Z.ltb_spec (SDL_Init_result pf) 0) as [| _]; [lia |].
  cbv beta iota.
  destruct (Z.eqb_spec (bits (getFormat s)) 16) as [| _]; [contradiction |].
  reflexivity.
Qed.

Lemma sdl2_start_no_device (pf : platform) (v : sdl2_world) :
  0 <= SDL_Init_result pf ->
  bits (getFormat (stream_ v)) = 16 ->
  SDL_OpenAudioDevice_result pf = 0 ->
  Sdl2.start pf v
  = Exn (std_exception "Failed to initialize SDL2 audio")
      {| self := {| Sdl2.audio_device_ := 0;
                    Sdl2.audio_spec_ :=
                      {| freq := rate (getFormat (stream_ v)); format := AUDIO_S16LSB;
                         spec_channels := channels (getFormat (stream_ v));
                         samples := 1024 |};
                    Sdl2.initialized_ := Sdl2.initialized_ (self v) |};
         base := base v;
         stream_ := stream_ v;
         sdl := {| subsystem_up := false; devices := [] |};
         device_buffer := device_buffer v;
         trace := EvSDL_Quit :: EvSDL_OpenAudioDevice 0
                    :: EvSDL_Init (SDL_Init_result pf) :: trace v |}.
Proof.
  intros Hrc Hbits Hid. destruct v as [[dev spec init] b s sd db tr].
  cbv beta iota zeta delta [Sdl2.start Sdl2.initializeAudio bind SDL_Init
    SDL_OpenAudioDevice SDL_Quit set_sdl ret stream_getFormat Sdl2.update
    get_self set_self throw fst snd self base stream_ sdl device_buffer trace
    Sdl2.set_audio_device_ Sdl2.set_audio_spec_ Sdl2.set_initialized_
    Sdl2.audio_device_ Sdl2.audio_spec_ Sdl2.initialized_] in *.
  rewrite Hid.
  destruct (Z.ltb_spec (SDL_Init_result pf) 0) as [| _]; [lia |].
  cbv beta iota. rewrite Hbits.
  reflexivity.
Qed.

End StartRuns.

(** ** cleanupAudio() and the destructor *)

Section CleanupRuns.

Context {Stream Base : Type} {C : Collaborators Stream Base}.
Local Abbreviation webos_world := (world Stream Base WebOS.WebOSPlayer).
Local Abbreviation sdl2_world := (world Stream Base Sdl2.Sdl2Player).

Lemma webos_cleanup_run (w : webos_world) :
  let dev := WebOS.audio_device_ (self w) in
  let init := WebOS.initialized_ (self w) in
  WebOS.cleanupAudio w
  = Val tt
      {| self := WebOS.set_initialized_ false (WebOS.set_audio_device_ 0 (self w));
         base := base w;
         stream_ := stream_ w;
         sdl := cleaned_sdl dev init (sdl w);
         device_buffer := device_buffer w;
         trace := cleanup_calls dev init ++ trace w |}.
Proof.
  destruct w as [[dev spec init act buf fill] b s [up ds] db tr].
  cbv beta iota zeta delta [WebOS.cleanupAudio bind SDL_CloseAudioDevice SDL_Quit set_sdl ret
    WebOS.update get_self set_self self base stream_ sdl device_buffer trace
    WebOS.set_audio_device_ WebOS.set_initialized_ WebOS.audio_device_ WebOS.audio_spec_
    WebOS.initialized_ WebOS.audio_active_ WebOS.audio_buffer_ WebOS.buffer_fill_
    cleaned_sdl cleanup_calls subsystem_up devices].
  destruct (Z.eqb_spec dev 0) as [-> | Hne]; cbv beta iota delta [negb];
    destruct init; reflexivity.
Qed.

Lemma sdl2_cleanup_run (v : sdl2_world) :
  let dev := Sdl2.audio_device_ (self v) in
  let init := Sdl2.initialized_ (self v) in
  Sdl2.cleanupAudio v
  = Val tt
      {| self := Sdl2.set_initialized_ false (Sdl2.set_audio_device_ 0 (self v));
         base := base v;
         stream_ := stream_ v;
         sdl := cleaned_sdl dev init (sdl v);
         device_buffer := device_buffer v;
         trace := cleanup_calls dev init ++ trace v |}.
Proof.
  destruct v as [[dev spec init] b s [up ds] db tr].
  cbv beta iota zeta delta [Sdl2.cleanupAudio bind SDL_CloseAudioDevice SDL_Quit set_sdl ret
    Sdl2.update get_self set_self self base stream_ sdl device_buffer trace
    Sdl2.set_audio_device_ Sdl2.set_initialized_ Sdl2.audio_device_ Sdl2.audio_spec_
    Sdl2.initialized_ cleaned_sdl cleanup_calls subsystem_up devices].
  destruct (Z.eqb_spec dev 0) as [-> | Hne]; cbv beta iota delta [negb];
    destruct init; reflexivity.
Qed.

Lemma cleaned_sdl_closes (dev : Z) (init : bool) (s : SDL) :
  dev <> 0 -> device_open dev (cleaned_sdl dev init s) = false.
Proof.
  intros Hne. unfold cleaned_sdl, device_open. destruct init; [reflexivity |].
  destruct (Z.eqb_spec dev 0) as [| _]; [contradiction |]. cbn [devices].
  induction (devices s) as [| [i p] ds IH]; [reflexivity |].
  cbn [filter fst]. destruct (Z.eqb_spec i dev) as [E | E]; cbn [negb]; [exact IH |].
  cbn [existsb fst]. destruct (Z.eqb_spec i dev); [contradiction |]. exact IH.
Qed.

End CleanupRuns.

(** ** Properties of start(), cleanupAudio() and the destructor *)

Section LifecycleProperties.

Context {Stream Base : Type} {C : Collaborators Stream Base}.
Local Abbreviation webos_world := (world Stream Base WebOS.WebOSPlayer).
Local Abbreviation sdl2_world := (world Stream Base Sdl2.Sdl2Player).

(** X1.  When [SDL_Init] succeeds and a device is opened,
    [WebOSPlayer::start()] returns normally with the player initialised
    and active, holding the device and the granted spec, the device
    playing, and [Player::start()] called once; the ring buffer and its
    fill are not touched. *)
Theorem webos_start_activates_sink (pf : platform) (w : webos_world) :
  0 <= SDL_Init_result pf ->
  SDL_OpenAudioDevice_result pf <> 0 ->
  exists w',
    WebOS.start pf w = Val tt w' /\
    WebOS.initialized_ (self w') = true /\
    WebOS.audio_active_ (self w') = true /\
    WebOS.audio_device_ (self w') = SDL_OpenAudioDevice_result pf /\
    WebOS.audio_spec_ (self w') = obtained_spec pf /\
    subsystem_up (sdl w') = true /\
    In (SDL_OpenAudioDevice_result pf, false) (devices (sdl w')) /\
    base w' = Player_start (base w) /\
    WebOS.audio_buffer_ (self w') = WebOS.audio_buffer_ (self w) /\
    WebOS.buffer_fill_ (self w') = WebOS.buffer_fill_ (self w).
Proof.
  intros Hrc Hid. eexists. split; [apply webos_start_opened; assumption |].
  webos_fields. cbn [subsystem_up devices]. repeat split.
  unfold pause_devices. cbn [map fst]. rewrite Z.eqb_refl. left. reflexivity.
Qed.

(** X2.  When [SDL_Init] fails or no device can be opened,
    [WebOSPlayer::start()] throws "Failed to initialize WebOS audio" and the
    sink is not activated: [audio_active_] and [initialized_] are as before,
    [Player::start()] is not called and the device is not unpaused, and the
    ring buffer is as before.  After a failed [SDL_Init] the platform is as
    it was; after a failed open SDL has been shut down. *)
Theorem webos_start_failure_leaves_sink_inactive (pf : platform) (w : webos_world) :
  SDL_Init_result pf < 0 \/ SDL_OpenAudioDevice_result pf = 0 ->
  exists w',
    WebOS.start pf w = Exn (std_exception "Failed to initialize WebOS audio") w' /\
    WebOS.audio_active_ (self w') = WebOS.audio_active_ (self w) /\
    WebOS.initialized_ (self w') = WebOS.initialized_ (self w) /\
    base w' = base w /\
    existsb (fun e => match e with
                      | EvPlayerStart | EvSDL_PauseAudioDevice _ _ => true
                      | _ => false
                      end) (new_events w w') = false /\
    WebOS.audio_buffer_ (self w') = WebOS.audio_buffer_ (self w) /\
    WebOS.buffer_fill_ (self w') = WebOS.buffer_fill_ (self w) /\
    (SDL_Init_result pf < 0 -> sdl w' = sdl w /\ self w' = self w) /\
    (0 <= SDL_Init_result pf ->
     sdl w' = {| subsystem_up := false; devices := [] |} /\
     WebOS.audio_device_ (self w') = 0).
Proof.
  intros Hfail.
  destruct (Z.ltb_spec (SDL_Init_result pf) 0) as [Hrc | Hrc].
  - eexists. split; [apply webos_start_no_sdl; exact Hrc |].
    webos_fields. rewrite (new_events_app _ _ [EvSDL_Init (SDL_Init_result pf)]) by reflexivity.
    repeat split; try reflexivity; lia.
  - destruct Hfail as [Hlt | Hid]; [lia |].
    eexists. split; [apply webos_start_no_device; assumption |].
    webos_fields.
    rewrite (new_events_app _ _ [EvSDL_Quit; EvSDL_OpenAudioDevice 0;
                                 EvSDL_Init (SDL_Init_result pf)]) by reflexivity.
    repeat split; try reflexivity; lia.
Qed.

(** X3.  On a 16-bit stream, when [SDL_Init] succeeds and a device is
    opened, [Sdl2Player::start()] returns normally with the player
    initialised, holding the device and the granted spec (not the 1024
    frames it asked for), the device playing, and [Player::start()] called. *)
Theorem sdl2_start_opens_and_plays (pf : platform) (v : sdl2_world) :
  0 <= SDL_Init_result pf ->
  bits (getFormat (stream_ v)) = 16 ->
  SDL_OpenAudioDevice_result pf <> 0 ->
  exists v',
    Sdl2.start pf v = Val tt v' /\
    Sdl2.initialized_ (self v') = true /\
    Sdl2.audio_device_ (self v') = SDL_OpenAudioDevice_result pf /\
    Sdl2.audio_spec_ (self v') = obtained_spec pf /\
    subsystem_up (sdl v') = true /\
    In (SDL_OpenAudioDevice_result pf, false) (devices (sdl v')) /\
    base v' = Player_start (base v) /\
    stream_ v' = stream_ v.
Proof.
  intros Hrc Hbits Hid. eexists. split; [apply sdl2_start_opened; assumption |].
  sdl2_fields. cbn [subsystem_up devices]. repeat split.
  unfold pause_devices. cbn [map fst]. rewrite Z.eqb_refl. left. reflexivity.
Qed.

(** X4.  [Sdl2Player::start()] looks at the format only after [SDL_Init]
    has succeeded: when [SDL_Init] fails it throws "Failed to initialize
    SDL2 audio" whatever the bit depth, with the player and the platform as
    they were.  On a stream that is not 16-bit, once [SDL_Init] has
    succeeded, it throws the unsupported-format error naming the bit depth
    without opening a device: no [SDL_OpenAudioDevice] call is made, the set
    of devices and the player object are as before, and [Player::start()] is
    not called. *)
Theorem sdl2_start_rejects_format_before_opening (pf : platform) (v : sdl2_world) :
  bits (getFormat (stream_ v)) <> 16 ->
  (SDL_Init_result pf < 0 ->
   exists v',
     Sdl2.start pf v = Exn (std_exception "Failed to initialize SDL2 audio") v' /\
     observable v' = observable v) /\
  (0 <= SDL_Init_result pf ->
   exists v',
     Sdl2.start pf v = Exn (Sdl2.unsupported_format (bits (getFormat (stream_ v)))) v' /\
     new_events v v' = [EvSDL_Init (SDL_Init_result pf)] /\
     devices (sdl v') = devices (sdl v) /\
     self v' = self v /\
     base v' = base v).
Proof.
  intros Hbits. split; intros Hrc.
  - eexists. split; [apply sdl2_start_no_sdl; exact Hrc |]. reflexivity.
  - eexists. split; [apply sdl2_start_unsupported; assumption |].
    split; [apply new_events_app; reflexivity |]. repeat split.
Qed.

(** X5.  [cleanupAudio()], in both variants, always ends with
    [audio_device_ = 0] and [initialized_ = false]; the device the player
    held is no longer open; [SDL_Quit] is called exactly when [initialized_]
    was set and [SDL_CloseAudioDevice] exactly when a device was held.  A
    second [cleanupAudio()] in a row makes no call and changes nothing, so
    nothing is released twice. *)
Theorem cleanup_releases_once (w : webos_world) (v : sdl2_world) :
  (exists w',
     WebOS.cleanupAudio w = Val tt w' /\
     WebOS.audio_device_ (self w') = 0 /\
     WebOS.initialized_ (self w') = false /\
     new_events w w'
     = cleanup_calls (WebOS.audio_device_ (self w)) (WebOS.initialized_ (self w)) /\
     (WebOS.audio_device_ (self w) <> 0 ->
      device_open (WebOS.audio_device_ (self w)) (sdl w') = false) /\
     (WebOS.initialized_ (self w) = true ->
      sdl w' = {| subsystem_up := false; devices := [] |}) /\
     WebOS.cleanupAudio w' = Val tt w') /\
  (exists v',
     Sdl2.cleanupAudio v = Val tt v' /\
     Sdl2.audio_device_ (self v') = 0 /\
     Sdl2.initialized_ (self v') = false /\
     new_events v v'
     = cleanup_calls (Sdl2.audio_device_ (self v)) (Sdl2.initialized_ (self v)) /\
     (Sdl2.audio_device_ (self v) <> 0 ->
      device_open (Sdl2.audio_device_ (self v)) (sdl v') = false) /\
     (Sdl2.initialized_ (self v) = true ->
      sdl v' = {| subsystem_up := false; devices := [] |}) /\
     Sdl2.cleanupAudio v' = Val tt v').
Proof.
  split.
  - eexists. split; [apply webos_cleanup_run |].
    split; [reflexivity |]. split; [reflexivity |].
    split; [apply new_events_app; reflexivity |].
    split; [intros Hne; cbn [sdl]; apply cleaned_sdl_closes; exact Hne |].
    split; [intros Hinit; cbn [sdl]; unfold cleaned_sdl; rewrite Hinit; reflexivity |].
    rewrite webos_cleanup_run.
    destruct w as [[dev spec init act buf fill] b s sd db tr]. reflexivity.
  - eexists. split; [apply sdl2_cleanup_run |].
    split; [reflexivity |]. split; [reflexivity |].
    split; [apply new_events_app; reflexivity |].
    split; [intros Hne; cbn [sdl]; apply cleaned_sdl_closes; exact Hne |].
    split; [intros Hinit; cbn [sdl]; unfold cleaned_sdl; rewrite Hinit; reflexivity |].
    rewrite sdl2_cleanup_run.
    destruct v as [[dev spec init] b s sd db tr]. reflexivity.
Qed.

(** X6.  A player that was started successfully and is then destroyed
    (the destructor runs [stop()] and [cleanupAudio()]) has released
    everything: its device was paused, then closed, then SDL was shut down,
    in this order and once each; no device is left open, the subsystem is
    down, and the player holds no device.  This holds in both variants. *)
Theorem destructor_after_start_releases_everything
    (pf : platform) (w : webos_world) (v : sdl2_world) :
  0 <= SDL_Init_result pf ->
  SDL_OpenAudioDevice_result pf <> 0 ->
  bits (getFormat (stream_ v)) = 16 ->
  let id := SDL_OpenAudioDevice_result pf in
  (exists w1 w2,
     WebOS.start pf w = Val tt w1 /\
     WebOS.destroy w1 = Val tt w2 /\
     filter is_sdl_call (new_events w1 w2)
     = [EvSDL_Quit; EvSDL_CloseAudioDevice id; EvSDL_PauseAudioDevice id 1] /\
     sdl w2 = {| subsystem_up := false; devices := [] |} /\
     WebOS.audio_device_ (self w2) = 0 /\
     WebOS.initialized_ (self w2) = false /\
     WebOS.audio_active_ (self w2) = false) /\
  (exists v1 v2,
     Sdl2.start pf v = Val tt v1 /\
     Sdl2.destroy v1 = Val tt v2 /\
     filter is_sdl_call (new_events v1 v2)
     = [EvSDL_Quit; EvSDL_CloseAudioDevice id; EvSDL_PauseAudioDevice id 1] /\
     sdl v2 = {| subsystem_up := false; devices := [] |} /\
     Sdl2.audio_device_ (self v2) = 0 /\
     Sdl2.initialized_ (self v2) = false).
Proof.
  intros Hrc Hid Hbits id. split.
  - do 2 eexists. split; [apply webos_start_opened; assumption |].
    unfold WebOS.destroy, bind. rewrite webos_stop_run. webos_fields.
    rewrite webos_cleanup_run. webos_fields.
    unfold cleanup_calls, cleaned_sdl.
    destruct (Z.eqb_spec (SDL_OpenAudioDevice_result pf) 0) as [| _]; [contradiction |].
    cbn [app]. split; [reflexivity |]. split.
    { match goal with
      | |- context [new_events ?a ?b] =>
          let t' := eval cbn [trace] in (trace b) in
          let t := eval cbn [trace] in (trace a) in
          let evs := trace_prefix t' t in
          rewrite (new_events_app a b evs) by reflexivity
      end. reflexivity. }
    repeat split.
  - do 2 eexists. split; [apply sdl2_start_opened; assumption |].
    unfold Sdl2.destroy, bind. rewrite sdl2_stop_run. sdl2_fields.
    rewrite sdl2_cleanup_run. sdl2_fields.
    unfold cleanup_calls, cleaned_sdl.
    destruct (Z.eqb_spec (SDL_OpenAudioDevice_result pf) 0) as [| _]; [contradiction |].
    cbn [app]. split; [reflexivity |]. split.
    { match goal with
      | |- context [new_events ?a ?b] =>
          let t' := eval cbn [trace] in (trace b) in
          let t := eval cbn [trace] in (trace a) in
          let evs := trace_prefix t' t in
          rewrite (new_events_app a b evs) by reflexivity
      end. reflexivity. }
    repeat split.
Qed.

(** X7.  On a player that was never started (no device, [initialized_]
    unset), [stop()] and the destructor make no call to SDL at all: the only
    call is [Player::stop()], and the platform is as it was.  This holds in
    both variants. *)
Theorem destructor_before_start_makes_no_sdl_call (w : webos_world) (v : sdl2_world) :
  WebOS.audio_device_ (self w) = 0 ->
  WebOS.initialized_ (self w) = false ->
  Sdl2.audio_device_ (self v) = 0 ->
  Sdl2.initialized_ (self v) = false ->
  (exists w1 w2,
     WebOS.stop w = Val tt w1 /\
     new_events w w1 = [EvPlayerStop] /\
     WebOS.destroy w = Val tt w2 /\
     new_events w w2 = [EvPlayerStop] /\
     sdl w2 = sdl w) /\
  (exists v1 v2,
     Sdl2.stop v = Val tt v1 /\
     new_events v v1 = [EvPlayerStop] /\
     Sdl2.destroy v = Val tt v2 /\
     new_events v v2 = [EvPlayerStop] /\
     sdl v2 = sdl v /\
     self v2 = self v).
Proof.
  intros Hd Hi Hd' Hi'. split.
  - do 2 eexists. split; [apply webos_stop_run |].
    unfold WebOS.destroy, bind. rewrite webos_stop_run, webos_cleanup_run.
    webos_fields. rewrite Hd, Hi. cbn [Z.eqb cleanup_calls cleaned_sdl app].
    split; [apply new_events_app; reflexivity |].
    split; [reflexivity |].
    split; [apply new_events_app; reflexivity | reflexivity].
  - do 2 eexists. split; [apply sdl2_stop_run |].
    unfold Sdl2.destroy, bind. rewrite sdl2_stop_run, sdl2_cleanup_run.
    sdl2_fields. rewrite Hd', Hi'. cbn [Z.eqb cleanup_calls cleaned_sdl app].
    split; [apply new_events_app; reflexivity |].
    split; [reflexivity |].
    split; [apply new_events_app; reflexivity |].
    split; [reflexivity |].
    destruct v as [[dev spec init] b s sd db tr]. sdl2_fields. subst. reflexivity.
Qed.

End LifecycleProperties.

(** X1 on the constructed player and a platform that opens device 2. *)
Lemma webos_start_activates_constructed_sink :
  exists w',
    WebOS.start good_platform (queue_world WebOS.constructed stereo16 [] false) = Val tt w' /\
    WebOS.audio_active_ (self w') = true /\
    devices (sdl w') = [(2, false)].
Proof.
  destruct (webos_start_activates_sink (C := queue_collaborators) good_platform
              (queue_world WebOS.constructed stereo16 [] false))
    as (w' & Hrun & _ & Hact & _).
  - cbn. lia.
  - cbn. discriminate.
  - exists w'. split; [exact Hrun |]. split; [exact Hact |].
    vm_compute in Hrun. injection Hrun as <-. reflexivity.
Defined.

(** X2 on a platform without a usable device. *)
Lemma webos_start_fails_without_device :
  exists w',
    WebOS.start no_device_platform (queue_world WebOS.constructed stereo16 [] false)
    = Exn (std_exception "Failed to initialize WebOS audio") w' /\
    WebOS.audio_active_ (self w') = false /\
    sdl w' = {| subsystem_up := false; devices := [] |}.
Proof.
  destruct (webos_start_failure_leaves_sink_inactive (C := queue_collaborators)
              no_device_platform (queue_world WebOS.constructed stereo16 [] false))
    as (w' & Hrun & Hact & _ & _ & _ & _ & _ & _ & Hdown).
  - right. reflexivity.
  - exists w'. split; [exact Hrun |]. split; [exact Hact |].
    apply Hdown. cbn. lia.
Defined.

(** X3 on a platform that grants 512-frame callbacks. *)
Lemma sdl2_start_keeps_granted_spec :
  exists v',
    Sdl2.start small_buffer_platform (queue_world Sdl2.constructed stereo16 [] false)
    = Val tt v' /\
    samples (Sdl2.audio_spec_ (self v')) = 512 /\
    Sdl2.audio_device_ (self v') = 3.
Proof.
  destruct (sdl2_start_opens_and_plays (C := queue_collaborators) small_buffer_platform
              (queue_world Sdl2.constructed stereo16 [] false))
    as (v' & Hrun & _ & Hdev & Hspec & _).
  - cbn. lia.
  - reflexivity.
  - cbn. discriminate.
  - exists v'. split; [exact Hrun |]. rewrite Hspec, Hdev. split; reflexivity.
Defined.

(** X4 on a 24-bit stream, with SDL failing and with SDL coming up. *)
Lemma sdl2_start_on_24_bit_stream :
  let v := queue_world Sdl2.constructed stereo24 [] false in
  (exists v',
     Sdl2.start no_sdl_platform v
     = Exn (std_exception "Failed to initialize SDL2 audio") v') /\
  (exists v',
     Sdl2.start good_platform v = Exn (std_exception "Unsupported sample format: 24") v' /\
     devices (sdl v') = []).
Proof.
  intros v.
  destruct (sdl2_start_rejects_format_before_opening (C := queue_collaborators)
              no_sdl_platform v) as [Hno _]; [cbn; discriminate |].
  destruct (sdl2_start_rejects_format_before_opening (C := queue_collaborators)
              good_platform v) as [_ Hup]; [cbn; discriminate |].
  split.
  - destruct Hno as (v' & Hrun & _); [cbn; lia |]. exists v'. exact Hrun.
  - destruct Hup as (v' & Hrun & _ & Hdev & _); [cbn; lia |].
    exists v'. split; [exact Hrun | exact Hdev].
Defined.

(** X6 on the constructed players. *)
Lemma destructor_after_start_on_constructed_players :
  (exists w1 w2,
     WebOS.start good_platform (queue_world WebOS.constructed stereo16 [] false)
     = Val tt w1 /\
     WebOS.destroy w1 = Val tt w2 /\
     sdl w2 = {| subsystem_up := false; devices := [] |}) /\
  (exists v1 v2,
     Sdl2.start good_platform (queue_world Sdl2.constructed stereo16 [] false)
     = Val tt v1 /\
     Sdl2.destroy v1 = Val tt v2 /\
     sdl v2 = {| subsystem_up := false; devices := [] |}).
Proof.
  destruct (destructor_after_start_releases_everything (C := queue_collaborators)
              good_platform (queue_world WebOS.constructed stereo16 [] false)
              (queue_world Sdl2.constructed stereo16 [] false))
    as ((w1 & w2 & Hs & Hd & _ & Hsdl & _) & (v1 & v2 & Hs' & Hd' & _ & Hsdl' & _)).
  - cbn. lia.
  - cbn. discriminate.
  - reflexivity.
  - split; [exists w1, w2 | exists v1, v2]; repeat split; assumption.
Defined.

(** X7 on the constructed players. *)
Lemma destructor_of_constructed_players :
  (exists w2,
     WebOS.destroy (queue_world WebOS.constructed stereo16 [] false) = Val tt w2 /\
     trace w2 = [EvPlayerStop]) /\
  (exists v2,
     Sdl2.destroy (queue_world Sdl2.constructed stereo16 [] false) = Val tt v2 /\
     trace v2 = [EvPlayerStop]).
Proof.
  destruct (destructor_before_start_makes_no_sdl_call (C := queue_collaborators)
              (queue_world WebOS.constructed stereo16 [] false)
              (queue_world Sdl2.constructed stereo16 [] false))
    as ((_ & w2 & _ & _ & Hd & _) & (_ & v2 & _ & _ & Hd' & _));
    try reflexivity.
  split; [exists w2 | exists v2]; (split; [assumption |]).
  - vm_compute in Hd. injection Hd as <-. reflexivity.
  - vm_compute in Hd'. injection Hd' as <-. reflexivity.
Defined.

(** ** Properties of the callbacks, the producer and the worker *)

Section DataPathProperties.

Context {Stream Base : Type} {C : Collaborators Stream Base}.
Local Abbreviation webos_world := (world Stream Base WebOS.WebOSPlayer).
Local Abbreviation sdl2_world := (world Stream Base Sdl2.Sdl2Player).

(** X8.  Called with a null [userdata], the callback of either variant
    writes zeros over the whole destination and does nothing else: the
    player, the stream, the platform and the trace of calls are as before,
    whatever state the player is in. *)
Theorem callbacks_without_player_write_silence
    (w : webos_world) (v : sdl2_world) (len : Z) :
  0 <= len <= INT_MAX ->
  size (device_buffer w) = len ->
  size (device_buffer v) = len ->
  WebOS.audioCallback null_player callback_stream len w
  = Val tt {| self := self w; base := base w; stream_ := stream_ w; sdl := sdl w;
              device_buffer := repeat zero_byte (Z.to_nat len); trace := trace w |} /\
  Sdl2.audio_callback null_player callback_stream len v
  = Val tt {| self := self v; base := base v; stream_ := stream_ v; sdl := sdl v;
              device_buffer := repeat zero_byte (Z.to_nat len); trace := trace v |}.
Proof.
  intros Hlen Hw Hv. split.
  - rewrite (audioCallback_inactive null_player w len) by (first [reflexivity | assumption]).
    rewrite <- Hw. unfold size. rewrite Nat2Z.id. reflexivity.
  - unfold Sdl2.audio_callback, SDL_memset. cbn [is_null peek callback_stream].
    rewrite (to_size_t_int len Hlen), <- Hv, memset_all.
    unfold size. rewrite Nat2Z.id. reflexivity.
Qed.

(** After a producer iteration that wrote something, the next one has no
    room for a frame. *)
Lemma processAudio_then_idle (w : webos_world) :
  contracts C ->
  well_formed w ->
  exists w1,
    WebOS.processAudio w = Val tt w1 /\
    WebOS.processAudio w1 = Val tt w1 /\
    base w1 = base w /\
    (WebOS.audio_active_ (self w) = true ->
     WebOS.initialized_ (self w) = true ->
     0 < frameSize (getFormat (stream_ w)) ->
     0 <= WebOS.BUFFER_SIZE - WebOS.buffer_fill_ (self w1)
       < frameSize (getFormat (stream_ w))).
Proof.
  intros HC (Hfill & Hbuf & Hfs). unfold fill_invariant, fill_of in Hfill.
  destruct (negb (WebOS.audio_active_ (self w)) || negb (WebOS.initialized_ (self w)))
    eqn:Eidle.
  { exists w. rewrite (processAudio_idle w Eidle).
    split; [reflexivity |]. split; [reflexivity |]. split; [reflexivity |].
    intros Ha Hi. rewrite Ha, Hi in Eidle. discriminate. }
  apply orb_false_elim in Eidle. destruct Eidle as [Eact Einit].
  apply negb_false_iff in Eact, Einit.
  set (fs := frameSize (getFormat (stream_ w))) in *.
  set (fill := WebOS.buffer_fill_ (self w)) in *.
  destruct (Z.eq_dec ((WebOS.BUFFER_SIZE - fill) / fs) 0) as [Ez | Enz].
  { exists w. rewrite (processAudio_no_room w Hfill Hfs Ez).
    split; [reflexivity |]. split; [reflexivity |]. split; [reflexivity |].
    intros _ _ Hpos. fold fill. unfold WebOS.BUFFER_SIZE in *.
    apply Z.div_small_iff in Ez; lia. }
  assert (Hfs0 : 0 < fs).
  { destruct (Z.eq_dec fs 0) as [E | E]; [| lia].
    exfalso. apply Enz. rewrite E. apply Z.div_0_r. }
  eexists. split; [apply (processAudio_fills w HC Eact Einit Hfill Hbuf Hfs Enz) |].
  fold fs fill. unfold WebOS.BUFFER_SIZE in *.
  assert (Hrem : 0 <= 4096 - (fill + (4096 - fill) / fs * fs) < fs).
  { pose proof (Z.mod_pos_bound (4096 - fill) fs Hfs0) as Hm.
    rewrite Z.mod_eq in Hm by lia. lia. }
  assert (Hq : 0 <= (4096 - fill) / fs * fs).
  { apply Z.mul_nonneg_nonneg; [apply Z.div_pos |]; lia. }
  split; [| split; [reflexivity | intros _ _ _; webos_fields; exact Hrem]].
  apply processAudio_no_room; webos_fields.
  - unfold WebOS.BUFFER_SIZE. lia.
  - rewrite (format_ok HC). exact Hfs.
  - rewrite (format_ok HC). fold fs. unfold WebOS.BUFFER_SIZE.
    apply Z.div_small. exact Hrem.
Qed.

(** X9.  A producer iteration fills the ring buffer up to the last whole
    frame: on an active, initialised sink with a positive frame size, less
    than one frame of room is left after it, and a second iteration right
    after the first changes nothing at all (no request to the stream, same
    world). *)
Theorem producer_saturates_in_one_iteration (w : webos_world) :
  contracts C ->
  well_formed w ->
  WebOS.audio_active_ (self w) = true ->
  WebOS.initialized_ (self w) = true ->
  0 < frameSize (getFormat (stream_ w)) ->
  exists w1,
    WebOS.processAudio w = Val tt w1 /\
    0 <= WebOS.BUFFER_SIZE - WebOS.buffer_fill_ (self w1)
      < frameSize (getFormat (stream_ w)) /\
    WebOS.buffer_fill_ (self w1)
    = WebOS.BUFFER_SIZE
      - (WebOS.BUFFER_SIZE - WebOS.buffer_fill_ (self w)) mod frameSize (getFormat (stream_ w)) /\
    WebOS.processAudio w1 = Val tt w1.
Proof.
  intros HC Hwf Hact Hinit Hpos.
  destruct (processAudio_then_idle w HC Hwf) as (w1 & Hrun & Hidle & _ & Hroom).
  exists w1. split; [exact Hrun |]. split; [auto |]. split; [| exact Hidle].
  destruct (processAudio_effect w HC Hwf)
    as (w1' & span & Hrun' & Hspan & Hcases & Hf & _).
  rewrite Hrun in Hrun'. injection Hrun' as <-.
  specialize (Hroom Hact Hinit Hpos). rewrite Hf in *.
  rewrite Z.mod_eq by lia.
  destruct Hcases as [-> | ->]; [| lia].
  assert (Hs : (WebOS.BUFFER_SIZE - WebOS.buffer_fill_ (self w))
               / frameSize (getFormat (stream_ w)) = 0).
  { apply Z.div_small. lia. }
  rewrite Hs. lia.
Qed.

End DataPathProperties.

Section WorkerProperties.

Context {Stream Base : Type} {C : Collaborators Stream Base} {F : WorkerFlag Base}.
Local Abbreviation webos_world := (world Stream Base WebOS.WebOSPlayer).

(** X10.  While [active_] is clear, [worker()] leaves its loop at once
    without a producer iteration.  While it is set and nothing consumes,
    the iterations after the first do nothing: cut after any number
    [n + 1] of iterations, the loop has left the world exactly as one
    producer iteration leaves it, and it is still running. *)
Theorem worker_iterations_after_first_are_idle (w : webos_world) (n : nat) :
  contracts C ->
  well_formed w ->
  (Player_active (base w) = false -> worker n w = Val true w) /\
  (Player_active (base w) = true ->
   exists w1,
     WebOS.processAudio w = Val tt w1 /\
     worker (S n) w = Val false w1).
Proof.
  intros HC Hwf. split.
  - intros Hoff. destruct n; cbn [worker]; rewrite Hoff; reflexivity.
  - intros Hon.
    destruct (processAudio_then_idle w HC Hwf) as (w1 & Hrun & Hidle & Hbase & _).
    exists w1. split; [exact Hrun |].
    cbn [worker]. rewrite Hon. cbn [negb]. unfold bind at 1. rewrite Hrun.
    rewrite <- Hbase in Hon. clear Hrun Hbase Hwf.
    induction n as [| n IH]; cbn [worker]; rewrite Hon; cbn [negb]; [reflexivity |].
    unfold bind at 1. rewrite Hidle. exact IH.
Qed.

End WorkerProperties.

(** ** Audio through the ring buffer *)

Lemma firstn_plus {A : Type} (a n : nat) (l : list A) :
  firstn (a + n) l = firstn a l ++ firstn n (skipn a l).
Proof.
  rewrite firstn_skipn_comm.
  rewrite <- (firstn_skipn a (firstn (a + n) l)) at 1.
  rewrite firstn_firstn. replace (Nat.min a (a + n)) with a by lia. reflexivity.
Qed.

Lemma firstn_prefix {A : Type} (n : nat) (x y : list A) :
  (n <= List.length x)%nat -> firstn n (x ++ y) = firstn n x.
Proof.
  intros H. rewrite firstn_app. replace (n - List.length x)%nat with 0%nat by lia.
  rewrite firstn_0. apply app_nil_r.
Qed.

Lemma skipn_prefix {A : Type} (n : nat) (x y : list A) :
  (n <= List.length x)%nat -> skipn n (x ++ y) = skipn n x ++ y.
Proof.
  intros H. rewrite skipn_app. replace (n - List.length x)%nat with 0%nat by lia.
  reflexivity.
Qed.

Lemma firstn_of_prefix {A : Type} (n m : nat) (l l' : list A) :
  (n <= m)%nat -> firstn m l = firstn m l' -> firstn n l = firstn n l'.
Proof.
  intros Hle H.
  replace n with (Nat.min n m) by lia.
  rewrite <- !firstn_firstn. rewrite H. reflexivity.
Qed.

Section RingBufferProperties.

Context {Stream Base : Type} {C : Collaborators Stream Base}.
Local Abbreviation webos_world := (world Stream Base WebOS.WebOSPlayer).

(** The bytes a callback of [len] bytes delivers from [fill] buffered bytes
    of [buf], the fill it leaves and the buffered bytes it leaves. *)
Lemma callback_outcome (w : webos_world) (dst : list byte) :
  WebOS.audio_active_ (self w) = true ->
  size dst <= INT_MAX ->
  0 <= WebOS.buffer_fill_ (self w) <= size (WebOS.audio_buffer_ (self w)) ->
  let fill := WebOS.buffer_fill_ (self w) in
  let buf := WebOS.audio_buffer_ (self w) in
  let n := Z.min (size dst) fill in
  exists w',
    WebOS.audioCallback the_player callback_stream (size dst) (hand_over dst w) = Val tt w' /\
    device_buffer w'
    = firstn (Z.to_nat n) buf ++ repeat zero_byte (Z.to_nat (size dst - n)) /\
    WebOS.buffer_fill_ (self w') = fill - n /\
    firstn (Z.to_nat (fill - n)) (WebOS.audio_buffer_ (self w'))
    = firstn (Z.to_nat (fill - n)) (skipn (Z.to_nat n) buf) /\
    size (WebOS.audio_buffer_ (self w')) = size buf /\
    WebOS.audio_active_ (self w') = true /\
    base w' = base w /\ stream_ w' = stream_ w /\ trace w' = trace w.
Proof.
  intros Hact Hlen Hfill fill buf n. pose proof (size_nonneg dst).
  eexists. split.
  { apply audioCallback_active; cbn [hand_over self device_buffer];
      first [assumption | reflexivity | lia]. }
  cbn [hand_over self base stream_ device_buffer trace]. webos_fields. fold fill buf n.
  assert (Hn : 0 <= n <= fill) by (unfold n; lia).
  assert (Hl : List.length (firstn (Z.to_nat (fill - n)) (skipn (Z.to_nat n) buf))
               = Z.to_nat (fill - n)).
  { rewrite length_firstn, length_skipn. unfold size in Hfill. fold buf in Hfill. lia. }
  split; [reflexivity |]. split; [reflexivity |]. split.
  { rewrite firstn_prefix by lia. rewrite firstn_firstn, Nat.min_id. reflexivity. }
  split.
  { rewrite size_app. unfold size at 1. rewrite Hl.
    rewrite size_skipn by (fold buf in Hfill; lia). lia. }
  repeat split. exact Hact.
Qed.


(** X11.  Splitting a read does not change the audio: two callbacks in a
    row, for [dst1] and then [dst2], deliver between them exactly the bytes
    one callback for a destination of both lengths delivers (real audio
    first, then silence), and leave the same fill and the same buffered
    bytes. *)
Theorem callback_split_delivers_the_same_audio (w : webos_world) (dst1 dst2 : list byte) :
  WebOS.audio_active_ (self w) = true ->
  0 <= WebOS.buffer_fill_ (self w) <= size (WebOS.audio_buffer_ (self w)) ->
  size dst1 + size dst2 <= INT_MAX ->
  exists w1 w2 w12,
    WebOS.audioCallback the_player callback_stream (size dst1) (hand_over dst1 w)
    = Val tt w1 /\
    WebOS.audioCallback the_player callback_stream (size dst2) (hand_over dst2 w1)
    = Val tt w2 /\
    WebOS.audioCallback the_player callback_stream (size (dst1 ++ dst2))
                        (hand_over (dst1 ++ dst2) w)
    = Val tt w12 /\
    device_buffer w1 ++ device_buffer w2 = device_buffer w12 /\
    WebOS.buffer_fill_ (self w2) = WebOS.buffer_fill_ (self w12) /\
    firstn (Z.to_nat (WebOS.buffer_fill_ (self w2))) (WebOS.audio_buffer_ (self w2))
    = firstn (Z.to_nat (WebOS.buffer_fill_ (self w12))) (WebOS.audio_buffer_ (self w12)).
Proof.
  intros Hact Hfill Hlen.
  pose proof (size_nonneg dst1) as H1. pose proof (size_nonneg dst2) as H2.
  destruct (callback_outcome w dst1 Hact ltac:(lia) Hfill)
    as (w1 & Hrun1 & Hd1 & Hf1 & Hb1 & Hs1 & Ha1 & _).
  destruct (callback_outcome w1 dst2 Ha1 ltac:(lia) ltac:(rewrite Hf1, Hs1; lia))
    as (w2 & Hrun2 & Hd2 & Hf2 & Hb2 & _).
  destruct (callback_outcome w (dst1 ++ dst2) Hact ltac:(rewrite size_app; lia) Hfill)
    as (w12 & Hrun12 & Hd12 & Hf12 & Hb12 & _).
  exists w1, w2, w12.
  split; [exact Hrun1 |]. split; [exact Hrun2 |]. split; [exact Hrun12 |].
  rewrite Hd1, Hd2, Hd12, Hf2, Hf12, Hb2, Hb12, Hf1. rewrite size_app in *.
  set (f := WebOS.buffer_fill_ (self w)) in *.
  set (buf := WebOS.audio_buffer_ (self w)) in *.
  set (a := size dst1) in *. set (b := size dst2) in *.
  assert (Hbuf : (Z.to_nat f <= List.length buf)%nat) by (unfold size in Hfill; lia).
  destruct (Z.le_gt_cases a f) as [Haf | Haf].
  - (* the first read is served in full *)
    replace (Z.min a f) with a in * by lia.
    set (n2 := Z.min b (f - a)) in *.
    assert (Hn2 : 0 <= n2 <= f - a) by (unfold n2; lia).
    replace (Z.min (a + b) f) with (a + n2) by (unfold n2; lia).
    replace (a - a) with 0 by lia. cbn [Z.to_nat repeat]. rewrite app_nil_r.
    replace (a + b - (a + n2)) with (b - n2) by lia.
    replace (f - (a + n2)) with (f - a - n2) by lia.
    assert (Hpre : firstn (Z.to_nat n2) (WebOS.audio_buffer_ (self w1))
                   = firstn (Z.to_nat n2) (skipn (Z.to_nat a) buf)).
    { rewrite (firstn_of_prefix (Z.to_nat n2) (Z.to_nat (f - a)) _ _ ltac:(lia) Hb1).
      reflexivity. }
    split; [| split; [reflexivity |]].
    + rewrite Hpre, app_assoc. f_equal.
      rewrite Z2Nat.inj_add by lia. symmetry. apply firstn_plus.
    + rewrite (firstn_skipn_comm _ (Z.to_nat n2) (WebOS.audio_buffer_ (self w1))).
      rewrite (firstn_of_prefix (Z.to_nat n2 + Z.to_nat (f - a - n2)) (Z.to_nat (f - a))
                 _ _ ltac:(lia) Hb1).
      rewrite <- firstn_skipn_comm, skipn_skipn.
      replace (Z.to_nat n2 + Z.to_nat a)%nat with (Z.to_nat (a + n2)) by lia.
      reflexivity.
  - (* the first read drains the buffer *)
    replace (Z.min a f) with f by lia.
    replace (Z.min (a + b) f) with f by lia.
    replace (f - f) with 0 by lia.
    replace (Z.min b 0) with 0 by lia.
    replace (0 - 0) with 0 by lia. replace (b - 0) with b by lia.
    cbn [Z.to_nat firstn app]. split; [| split; reflexivity].
    rewrite <- app_assoc. f_equal. rewrite <- repeat_app. f_equal. lia.
Qed.

(** X12.  Everything the producer buffers comes out in order: after a
    producer iteration that requested frames, a callback for as many bytes
    as are buffered delivers the bytes that were buffered before, followed
    by the frames the stream wrote as the volume pass left them, with no
    silence, and empties the buffer. *)
Theorem producer_then_callback_round_trip (w : webos_world) (dst : list byte) :
  contracts C ->
  well_formed w ->
  WebOS.audio_active_ (self w) = true ->
  WebOS.initialized_ (self w) = true ->
  let fill := WebOS.buffer_fill_ (self w) in
  let buf := WebOS.audio_buffer_ (self w) in
  let frame_size := frameSize (getFormat (stream_ w)) in
  let frames := (WebOS.BUFFER_SIZE - fill) / frame_size in
  let chunk := getPlayerChunkOrSilence (stream_ w) (usec 0) frames in
  frames <> 0 ->
  size dst = fill + frames * frame_size ->
  exists w1 w2,
    WebOS.processAudio w = Val tt w1 /\
    WebOS.audioCallback the_player callback_stream (size dst) (hand_over dst w1)
    = Val tt w2 /\
    device_buffer w2
    = firstn (Z.to_nat fill) buf
      ++ volume_buffer (adjustVolume (base w) (snd (fst chunk)) frames) /\
    WebOS.buffer_fill_ (self w2) = 0.
Proof.
  intros HC Hwf Hact Hinit. pose proof Hwf as (Hfill & Hbuf & Hfs).
  unfold fill_invariant, fill_of in Hfill. cbv zeta. intros Hnz Hdst.
  pose proof (processAudio_fills w HC Hact Hinit Hfill Hbuf Hfs Hnz) as Hrun.
  cbv zeta in Hrun.
  set (fs := frameSize (getFormat (stream_ w))) in *.
  set (fill := WebOS.buffer_fill_ (self w)) in *.
  set (frames := (WebOS.BUFFER_SIZE - fill) / fs) in *.
  set (chunk := getPlayerChunkOrSilence (stream_ w) (usec 0) frames) in *.
  set (vb := volume_buffer (adjustVolume (base w) (snd (fst chunk)) frames)) in *.
  assert (Hfs0 : 0 < fs).
  { destruct (Z.eq_dec fs 0) as [E | E]; [| lia].
    exfalso. apply Hnz. unfold frames. rewrite E. apply Z.div_0_r. }
  assert (Hfr : 0 < frames /\ frames * fs <= WebOS.BUFFER_SIZE - fill).
  { unfold WebOS.BUFFER_SIZE in *.
    assert (0 <= frames) by (apply Z.div_pos; lia).
    assert (fs * frames <= 4096 - fill) by (apply Z.mul_div_le; lia).
    split; lia. }
  assert (Hvb : size vb = frames * fs).
  { unfold vb. rewrite (volume_ok HC). apply (chunk_ok HC); lia. }
  match type of Hrun with _ = Val tt ?x => set (w1 := x) in * end.
  assert (Hsz1 : size (WebOS.audio_buffer_ (self w1)) = WebOS.BUFFER_SIZE).
  { unfold w1. webos_fields. rewrite <- Hvb. rewrite splice_size; lia. }
  destruct (callback_outcome w1 dst) as (w2 & Hrun2 & Hd2 & Hf2 & _).
  - unfold w1. webos_fields. exact Hact.
  - unfold WebOS.BUFFER_SIZE, INT_MAX in *. lia.
  - rewrite Hsz1. unfold w1. webos_fields. lia.
  - exists w1, w2. split; [exact Hrun |]. split; [exact Hrun2 |].
    assert (Hfill1 : WebOS.buffer_fill_ (self w1) = fill + frames * fs)
      by (unfold w1; webos_fields; reflexivity).
    rewrite Hf2, Hd2, Hfill1, Hdst.
    replace (Z.min (fill + frames * fs) (fill + frames * fs)) with (fill + frames * fs)
      by lia.
    rewrite Z.sub_diag. cbn [Z.to_nat repeat]. rewrite app_nil_r.
    split; [| reflexivity].
    unfold w1. webos_fields. rewrite <- Hvb.
    assert (Hl : List.length (firstn (Z.to_nat fill) (WebOS.audio_buffer_ (self w)))
                 = Z.to_nat fill).
    { rewrite length_firstn. unfold size in Hbuf. unfold WebOS.BUFFER_SIZE in *. lia. }
    rewrite Z2Nat.inj_add by (pose proof (size_nonneg vb); lia).
    rewrite <- Hl at 1. rewrite firstn_app_2.
    unfold size. rewrite Nat2Z.id, firstn_app, Nat.sub_diag, firstn_0, app_nil_r, firstn_all.
    reflexivity.
Qed.

(** X13.  [stop()] and [start()] do not flush the ring buffer: when a sink
    is stopped and started again, the first callback after the restart
    delivers the bytes that were buffered before the [stop()]. *)
Theorem restart_replays_buffered_audio
    (pf : platform) (w : webos_world) (dst : list byte) :
  0 <= SDL_Init_result pf ->
  SDL_OpenAudioDevice_result pf <> 0 ->
  0 <= WebOS.buffer_fill_ (self w) <= size (WebOS.audio_buffer_ (self w)) ->
  size dst <= INT_MAX ->
  let fill := WebOS.buffer_fill_ (self w) in
  let n := Z.min (size dst) fill in
  exists w1 w2 w3,
    WebOS.stop w = Val tt w1 /\
    WebOS.start pf w1 = Val tt w2 /\
    WebOS.buffer_fill_ (self w2) = fill /\
    WebOS.audioCallback the_player callback_stream (size dst) (hand_over dst w2)
    = Val tt w3 /\
    device_buffer w3
    = firstn (Z.to_nat n) (WebOS.audio_buffer_ (self w))
      ++ repeat zero_byte (Z.to_nat (size dst - n)) /\
    WebOS.buffer_fill_ (self w3) = fill - n.
Proof.
  intros Hrc Hid Hfill Hlen. cbv zeta.
  eexists. eexists.
  assert (Hrun : WebOS.stop w = Val tt (match WebOS.stop w with
                                       | Val _ x => x | _ => w end))
    by (rewrite webos_stop_run; reflexivity).
  rewrite webos_stop_run in Hrun at 2.
  match type of Hrun with _ = Val tt ?x => set (w1 := x) in * end.
  pose proof (webos_start_opened pf w1 Hrc Hid) as Hstart. cbv zeta in Hstart.
  match type of Hstart with _ = Val tt ?x => set (w2 := x) in * end.
  destruct (callback_outcome w2 dst) as (w3 & Hrun3 & Hd3 & Hf3 & _);
    [reflexivity | exact Hlen | unfold w2, w1; webos_fields; exact Hfill |].
  exists w3. split; [exact Hrun |]. split; [exact Hstart |].
  split; [reflexivity |]. split; [exact Hrun3 |].
  rewrite Hd3, Hf3. unfold w2, w1. webos_fields. split; reflexivity.
Qed.

End RingBufferProperties.

(** ** The direct-pull callback at the edges *)

Section DirectPullProperties.

Context {Stream Base : Type} {C : Collaborators Stream Base}.
Local Abbreviation sdl2_world := (world Stream Base Sdl2.Sdl2Player).

(** The destination after the direct-pull callback: whole frames from the
    stream (through the volume pass when they are real audio), then the
    bytes that were there. *)
Lemma sdl2_callback_destination (v : sdl2_world) (len : Z) :
  contracts C ->
  callback_defined v ->
  0 <= len <= INT_MAX ->
  size (device_buffer v) = len ->
  let frame_size := frameSize (getFormat (stream_ v)) in
  let frames := len / frame_size in
  let dacTime := milliseconds (callback_latency_ms v) in
  exists v' real written,
    (Sdl2.audioCallback callback_stream len v = Val tt v' \/
     exists e, Sdl2.audioCallback callback_stream len v = Exn e v') /\
    device_buffer v'
    = written ++ skipn (Z.to_nat (frames * frame_size)) (device_buffer v) /\
    size written = frames * frame_size /\
    In (EvGetChunk dacTime frames real) (new_events v v') /\
    self v' = self v.
Proof.
  intros HC Hdef Hlen Hdb. cbv zeta.
  pose proof (sdl2_audioCallback_run v len HC Hdef Hlen Hdb) as Hrun. cbv zeta in Hrun.
  destruct Hdef as (Hfs & _).
  set (fs := frameSize (getFormat (stream_ v))) in *.
  set (frames := len / fs) in *.
  set (dacTime := milliseconds (callback_latency_ms v)) in *.
  assert (Hfr : 0 <= frames) by (apply Z.div_pos; lia).
  pose proof (chunk_ok HC (stream_ v) dacTime frames Hfr ltac:(fold fs; lia)) as Hsize.
  fold fs in Hsize.
  destruct (getPlayerChunkOrSilence (stream_ v) dacTime frames) as [[real data] s'].
  cbn [fst snd] in *.
  destruct real.
  - pose proof (volume_ok HC (base v) data frames) as Hv.
    destruct (adjustVolume (base v) data frames) as [vb | e vb]; cbn [volume_buffer] in Hv;
      eexists; exists true, vb;
      (split; [first [left; exact Hrun | right; exists e; exact Hrun] |]);
      cbn [device_buffer self];
      (split; [reflexivity |]); (split; [lia |]); (split; [| reflexivity]);
      rewrite (new_events_app _ _ [EvAdjustVolume frames; EvGetChunk dacTime frames true])
        by reflexivity;
      right; left; reflexivity.
  - eexists. exists false, data. split; [left; exact Hrun |].
    cbn [device_buffer self]. split; [reflexivity |]. split; [exact Hsize |].
    split; [| reflexivity].
    rewrite (new_events_app _ _ [EvGetChunk dacTime frames false]) by reflexivity.
    left. reflexivity.
Qed.

(** X14.  The direct-pull callback only ever writes whole frames: the
    [len mod frame_size] bytes at the end of the destination are left as
    they were, not silenced; in particular a request shorter than one frame
    leaves the whole destination untouched.  The destination keeps its
    length. *)
Theorem sdl2_callback_leaves_partial_frame_untouched (v : sdl2_world) (len : Z) :
  contracts C ->
  callback_defined v ->
  0 <= len <= INT_MAX ->
  size (device_buffer v) = len ->
  let frame_size := frameSize (getFormat (stream_ v)) in
  let whole := len / frame_size * frame_size in
  exists v',
    (Sdl2.audioCallback callback_stream len v = Val tt v' \/
     exists e, Sdl2.audioCallback callback_stream len v = Exn e v') /\
    size (device_buffer v') = len /\
    len - whole = len mod frame_size /\
    skipn (Z.to_nat whole) (device_buffer v') = skipn (Z.to_nat whole) (device_buffer v) /\
    (len < frame_size -> device_buffer v' = device_buffer v).
Proof.
  intros HC Hdef Hlen Hdb. cbv zeta.
  destruct (sdl2_callback_destination v len HC Hdef Hlen Hdb)
    as (v' & real & written & Hrun & Hdst & Hsize & _).
  destruct Hdef as (Hfs & _).
  set (fs := frameSize (getFormat (stream_ v))) in *.
  assert (Hfr : 0 <= len / fs * fs <= len).
  { assert (0 <= len / fs) by (apply Z.div_pos; lia).
    assert (fs * (len / fs) <= len) by (apply Z.mul_div_le; lia). nia. }
  exists v'. split; [exact Hrun |]. rewrite Hdst.
  split; [rewrite size_app, size_skipn by lia; lia |].
  split; [rewrite Z.mod_eq by lia; lia |].
  split; [rewrite <- Hsize; apply skipn_size_app |].
  intros Hshort. rewrite (Z.div_small len fs) in * by lia.
  destruct written; [reflexivity | discriminate].
Qed.

(** X15.  After a successful [start()] the latency of every request is
    computed from the callback size the device granted, not from the 1024
    frames [initializeAudio()] asked for: the first callback requests
    [len / frame_size] frames at [period_ms + 30] milliseconds, where
    [period_ms] is the granted [samples] divided, as a [double], by the
    frames per millisecond, with the fraction dropped. *)
Theorem sdl2_latency_follows_granted_spec
    (pf : platform) (v : sdl2_world) (dst : list byte) (period_ms : Z) :
  contracts C ->
  0 <= SDL_Init_result pf ->
  bits (getFormat (stream_ v)) = 16 ->
  SDL_OpenAudioDevice_result pf <> 0 ->
  0 < frameSize (getFormat (stream_ v)) ->
  double_truncate
    (double_div (double_of_Z (samples (obtained_spec pf)))
                (msRate (getFormat (stream_ v))))
  = Some period_ms ->
  0 <= period_ms ->
  1000 * (period_ms + 30) <= INT64_MAX ->
  size dst <= INT_MAX ->
  exists v1 v2 real,
    Sdl2.start pf v = Val tt v1 /\
    (Sdl2.audio_callback the_player callback_stream (size dst) (hand_over dst v1)
     = Val tt v2 \/
     exists e,
       Sdl2.audio_callback the_player callback_stream (size dst) (hand_over dst v1)
       = Exn e v2) /\
    In (EvGetChunk (1000 * (period_ms + 30))
                   (size dst / frameSize (getFormat (stream_ v))) real)
       (new_events v1 v2).
Proof.
  intros HC Hrc Hbits Hid Hfs Hperiod Hpos Hover Hlen.
  pose proof (sdl2_start_opened pf v Hrc Hbits Hid) as Hstart. cbv zeta in Hstart.
  match type of Hstart with _ = Val tt ?x => set (v1 := x) in * end.
  pose proof (size_nonneg dst).
  assert (Hms : callback_period_ms (hand_over dst v1) = Some period_ms).
  { unfold callback_period_ms. cbn [hand_over self stream_ v1 Sdl2.audio_spec_].
    exact Hperiod. }
  destruct (sdl2_callback_destination (hand_over dst v1) (size dst) HC)
    as (v2 & real & written & Hrun & _ & _ & Hev & _).
  - unfold callback_defined, callback_latency_ms. rewrite Hms.
    unfold milliseconds, Sdl2.LATENCY.
    cbn [hand_over self stream_ v1]. repeat split; assumption.
  - lia.
  - reflexivity.
  - exists v1, v2, real. split; [exact Hstart |]. split; [exact Hrun |].
    unfold callback_latency_ms in Hev. rewrite Hms in Hev. exact Hev.
Qed.

End DirectPullProperties.

(** ** The properties above on concrete players *)

(** X8 on running players and an 8-byte destination of tone. *)
Lemma callbacks_without_player_on_running_players :
  let dst := repeat tone 8 in
  device_buffer
    (match WebOS.audioCallback null_player callback_stream 8
             (webos_world 96 stereo16 [] dst) with
     | Val _ w' => w' | _ => webos_world 96 stereo16 [] dst end)
  = repeat zero_byte 8 /\
  Sdl2.audio_callback null_player callback_stream 8 (sdl2_world stereo16 [] dst false)
  = Val tt (sdl2_world stereo16 [] (repeat zero_byte 8) false).
Proof.
  intros dst.
  destruct (callbacks_without_player_write_silence (C := queue_collaborators)
              (webos_world 96 stereo16 [] dst) (sdl2_world stereo16 [] dst false) 8)
    as [Hw Hv].
  - unfold INT_MAX. lia.
  - reflexivity.
  - reflexivity.
  - split; [rewrite Hw; reflexivity | exact Hv].
Defined.

(** X9 with 6-byte frames at a fill of 1001: 515 frames fit and the fill
    goes to 4096 - 3095 mod 6 = 4091. *)
Lemma producer_saturates_with_6_byte_frames :
  let w := webos_world 1001 stereo24 (repeat tone (Z.to_nat 8192)) [] in
  exists w1,
    WebOS.processAudio w = Val tt w1 /\
    WebOS.buffer_fill_ (self w1) = 4091 /\
    WebOS.processAudio w1 = Val tt w1.
Proof.
  intros w.
  destruct (producer_saturates_in_one_iteration (C := queue_collaborators) w queue_contracts)
    as (w1 & Hrun & _ & Hfill & Hidle).
  - unfold well_formed, fill_invariant, fill_of. vm_compute.
    repeat split; try reflexivity; discriminate.
  - reflexivity.
  - reflexivity.
  - reflexivity.
  - exists w1. split; [exact Hrun |]. split; [rewrite Hfill; reflexivity | exact Hidle].
Defined.

(** X10 on a running sink: five iterations leave what one leaves. *)
Lemma worker_five_iterations :
  let w := webos_world 96 stereo16 (repeat tone (Z.to_nat 8192)) [] in
  exists w1,
    WebOS.processAudio w = Val tt w1 /\
    worker 5 w = Val false w1.
Proof.
  intros w.
  destruct (worker_iterations_after_first_are_idle
              (C := queue_collaborators) (F := flag_worker) w 4 queue_contracts)
    as [_ Hon].
  - unfold well_formed, fill_invariant, fill_of. vm_compute.
    repeat split; try reflexivity; discriminate.
  - apply Hon. reflexivity.
Defined.

(** X11 with 100 bytes buffered, read as 64 + 64 bytes and as 128. *)
Lemma callback_split_64_64 :
  let w := webos_world 100 stereo16 [] [] in
  let dst := repeat zero_byte 64 in
  exists w1 w2 w12,
    WebOS.audioCallback the_player callback_stream 64 (hand_over dst w) = Val tt w1 /\
    WebOS.audioCallback the_player callback_stream 64 (hand_over dst w1) = Val tt w2 /\
    WebOS.audioCallback the_player callback_stream 128 (hand_over (dst ++ dst) w)
    = Val tt w12 /\
    device_buffer w1 ++ device_buffer w2 = device_buffer w12 /\
    WebOS.buffer_fill_ (self w2) = WebOS.buffer_fill_ (self w12).
Proof.
  intros w dst.
  destruct (callback_split_delivers_the_same_audio w dst dst)
    as (w1 & w2 & w12 & H1 & H2 & H12 & Hd & Hf & _).
  - reflexivity.
  - vm_compute. split; discriminate.
  - vm_compute. discriminate.
  - exists w1, w2, w12. split; [exact H1 |]. split; [exact H2 |]. split; [exact H12 |].
    split; [exact Hd | exact Hf].
Defined.

(** X12 with 96 bytes of tone buffered and 4000 more from the stream. *)
Lemma producer_then_callback_4096 :
  let w := webos_world 96 stereo16 (repeat tone (Z.to_nat 8192)) [] in
  let dst := repeat zero_byte (Z.to_nat 4096) in
  exists w1 w2,
    WebOS.processAudio w = Val tt w1 /\
    WebOS.audioCallback the_player callback_stream 4096 (hand_over dst w1) = Val tt w2 /\
    device_buffer w2 = repeat tone (Z.to_nat 4096) /\
    WebOS.buffer_fill_ (self w2) = 0.
Proof.
  intros w dst.
  destruct (producer_then_callback_round_trip (C := queue_collaborators) w dst queue_contracts)
    as (w1 & w2 & H1 & H2 & Hd & Hf).
  - unfold well_formed, fill_invariant, fill_of. vm_compute.
    repeat split; try reflexivity; discriminate.
  - reflexivity.
  - reflexivity.
  - vm_compute. discriminate.
  - vm_compute. reflexivity.
  - exists w1, w2. split; [exact H1 |]. split; [exact H2 |]. split; [| exact Hf].
    rewrite Hd. vm_compute. reflexivity.
Defined.

(** X13 with 100 bytes of tone buffered across a restart. *)
Lemma restart_replays_100_bytes :
  let w := webos_world 100 stereo16 [] [] in
  let dst := repeat zero_byte 64 in
  exists w1 w2 w3,
    WebOS.stop w = Val tt w1 /\
    WebOS.start good_platform w1 = Val tt w2 /\
    WebOS.audioCallback the_player callback_stream 64 (hand_over dst w2) = Val tt w3 /\
    device_buffer w3 = repeat tone 64 /\
    WebOS.buffer_fill_ (self w3) = 36.
Proof.
  intros w dst.
  destruct (restart_replays_buffered_audio (C := queue_collaborators) good_platform w dst)
    as (w1 & w2 & w3 & H1 & H2 & _ & H3 & Hd & Hf).
  - cbn. lia.
  - cbn. discriminate.
  - vm_compute. split; discriminate.
  - vm_compute. discriminate.
  - exists w1, w2, w3. split; [exact H1 |]. split; [exact H2 |]. split; [exact H3 |].
    split; [rewrite Hd | rewrite Hf]; vm_compute; reflexivity.
Defined.

(** X14 with 4-byte frames and a 10-byte destination: two frames are
    written and the last two bytes stay. *)
Lemma sdl2_callback_10_bytes :
  let v := sdl2_world stereo16 (repeat tone 64) (repeat zero_byte 10) false in
  exists v',
    Sdl2.audioCallback callback_stream 10 v = Val tt v' /\
    device_buffer v' = repeat tone 8 ++ repeat zero_byte 2.
Proof.
  intros v.
  destruct (sdl2_callback_leaves_partial_frame_untouched (C := queue_collaborators) v 10
              queue_contracts)
    as (v' & Hrun & _).
  - unfold callback_defined, callback_latency_ms. vm_compute.
    repeat split; try reflexivity; discriminate.
  - unfold INT_MAX. lia.
  - reflexivity.
  - exists v'. vm_compute in Hrun. destruct Hrun as [Hrun | [e Hrun]]; [| discriminate].
    injection Hrun as <-. split; reflexivity.
Defined.

(** X15 on a device that grants 512-frame callbacks to a 48 kHz stream:
    10 whole milliseconds of callback plus 30 ms. *)
Lemma sdl2_latency_with_512_frames :
  let v := queue_world Sdl2.constructed stereo16 (repeat tone 64) false in
  exists v1 v2 real,
    Sdl2.start small_buffer_platform v = Val tt v1 /\
    Sdl2.audio_callback the_player callback_stream 8 (hand_over (repeat zero_byte 8) v1)
    = Val tt v2 /\
    In (EvGetChunk 40000 2 real) (new_events v1 v2).
Proof.
  intros v.
  destruct (sdl2_latency_follows_granted_spec (C := queue_collaborators)
              small_buffer_platform v (repeat zero_byte 8) 10 queue_contracts)
    as (v1 & v2 & real & H1 & H2 & Hev).
  - cbn. lia.
  - reflexivity.
  - cbn. discriminate.
  - reflexivity.
  - vm_compute. reflexivity.
  - lia.
  - vm_compute. discriminate.
  - vm_compute. discriminate.
  - exists v1, v2, real. split; [exact H1 |]. split; [| exact Hev].
    destruct H2 as [H2 | [e H2]]; [exact H2 |].
    vm_compute in H1. injection H1 as <-. vm_compute in H2. discriminate.
Defined.
